(** * Agentic_Labs: the tool-use loops and their helpers, embedded in Rocq

    A shallow embedding of the Python scripts of the repository:

    - [utils.py]: [truncate_text], [extract_urls];
    - [component_level_eval.py]: [process_tool_call], [find_references],
      [evaluate_tavily_results];
    - [tools.py]: [execute_tool], [call_claude_with_tools];
    - [multi_agentic/tools.py]: [handle_tool_call], [handle_tool_call_claude];
    - [multi_agentic/campaign_pipeline.py]: [market_research_agent].

    Further on: [count_tokens_estimate] of [utils.py], [get_available_tools]
    and [tavily_search_tool] of [multi_agentic/tools.py],
    [graphic_designer_agent] of the campaign pipeline, and [generate_draft]
    with the OpenAI backend of [venv/reflection_lab.py].

    Conventions of the embedding.

    - A Python [str] is the list of its Unicode code points ([pystr]), so
      that [len], slicing and the character classes of [re] mean what they
      mean in Python.
    - Values that travel through JSON (tool inputs, tool results, message
      dictionaries) are [pyval]s; a [dict] is an association list in
      insertion order.
    - Code that can raise returns a [result]; code that also talks to the
      outside (the model endpoint, the tools) runs in the monad [M], a state
      and exception monad over an abstract world.  Exceptions are the
      instances of [Exception]; interpreter signals such as
      [KeyboardInterrupt] are outside the model.
    - [print] and HTML logging are output only and are not modelled. *)

From Stdlib Require Import String Ascii ZArith NArith Bool Lia List.
From Stdlib Require Import Floats Uint63.
From Stdlib Require DecimalString.
Import ListNotations.

Set Implicit Arguments.

(* ================================================================= *)
(** ** Python strings *)

Module Py.

Definition pystr := list N.

(** An ASCII literal as a Python string. *)
Definition str (s : string) : pystr :=
  List.map N_of_ascii (list_ascii_of_string s).

(** [len(s)] *)
Definition len (s : pystr) : Z := Z.of_nat (length s).

(** [a == b] on strings *)
Fixpoint str_eqb (a b : pystr) : bool :=
  match a, b with
  | [], [] => true
  | x :: a', y :: b' => N.eqb x y && str_eqb a' b'
  | _, _ => false
  end.

(** [s[:stop]]: a negative [stop] counts from the end, and the bounds are
    clamped to the string. *)
Definition slice_to (s : pystr) (stop : Z) : pystr :=
  if (stop <? 0)%Z
  then firstn (Z.to_nat (Z.max 0 (len s + stop))) s
  else firstn (Z.to_nat stop) s.

(** [s.startswith(p)] *)
Fixpoint startswith (p s : pystr) : bool :=
  match p, s with
  | [], _ => true
  | x :: p', y :: s' => N.eqb x y && startswith p' s'
  | _ :: _, [] => false
  end.

(** [needle in hay] *)
Fixpoint str_contains (needle hay : pystr) : bool :=
  startswith needle hay ||
  match hay with
  | [] => false
  | _ :: hay' => str_contains needle hay'
  end.

(** [s.split(sep)] for a one-character separator: the pieces between the
    occurrences of [sep], always at least one piece. *)
Fixpoint split_on (sep : N) (s : pystr) : list pystr :=
  match s with
  | [] => [[]]
  | c :: s' =>
      if N.eqb c sep then [] :: split_on sep s'
      else match split_on sep s' with
           | [] => [[c]]
           | piece :: pieces => (c :: piece) :: pieces
           end
  end.

(** [sep.join(parts)] *)
Fixpoint join (sep : pystr) (parts : list pystr) : pystr :=
  match parts with
  | [] => []
  | [p] => p
  | p :: ps => p ++ sep ++ join sep ps
  end.

(** Decimal rendering of a non-negative [int], as in [f"{n}"]. *)
Definition format_nat (n : nat) : pystr :=
  str (DecimalString.NilZero.string_of_uint (Nat.to_uint n)).

End Py.
Import Py.

(* ================================================================= *)
(** ** The URL pattern of [re]

    [re.compile(r'https?://[^\s\]\)>\}]+', flags=re.IGNORECASE)] and its
    [findall], on [str] subjects. *)

Module Re.

Definition in_range (lo hi c : N) : bool := (N.leb lo c && N.leb c hi)%bool.

(** [\s] on a [str] pattern: the Unicode whitespace of [str.isspace]. *)
Definition is_space (c : N) : bool :=
  in_range 9 13 c || in_range 28 31 c || N.eqb c 32 ||
  N.eqb c 133 || N.eqb c 160 || N.eqb c 5760 ||
  in_range 8192 8202 c || N.eqb c 8232 || N.eqb c 8233 ||
  N.eqb c 8239 || N.eqb c 8287 || N.eqb c 12288.

(** The class [[^\s\]\)>\}]]. *)
Definition url_char (c : N) : bool :=
  negb (is_space c || N.eqb c 93 || N.eqb c 41 || N.eqb c 62 || N.eqb c 125).

(** Literals under [IGNORECASE]: a character matches when its lower case
    is the literal; [s] has one more partner, U+017F (long s), from the
    case-equivalence table of [re]. *)
Definition is_h (c : N) : bool := N.eqb c 104 || N.eqb c 72.
Definition is_t (c : N) : bool := N.eqb c 116 || N.eqb c 84.
Definition is_p (c : N) : bool := N.eqb c 112 || N.eqb c 80.
Definition is_s (c : N) : bool := N.eqb c 115 || N.eqb c 83 || N.eqb c 383.

(** [://] at the head of [s]: what follows it. *)
Definition match_sep (s : pystr) : option pystr :=
  match s with
  | 58 :: 47 :: 47 :: rest => Some rest
  | _ => None
  end%N.

(** The longest prefix of [s] made of class characters. *)
Fixpoint span_url (s : pystr) : pystr :=
  match s with
  | c :: s' => if url_char c then c :: span_url s' else []
  | [] => []
  end.

(** [[^...]+] after a scheme: the scheme with the greedy run behind it,
    when that run is not empty. *)
Definition match_body (scheme rest : pystr) : option pystr :=
  match span_url rest with
  | [] => None
  | body => Some (scheme ++ body)
  end.

(** A match of the pattern at the head of [s]: [s?] first takes the [s],
    and gives it back when the remainder does not match. *)
Definition match_at (s : pystr) : option pystr :=
  match s with
  | h :: t1 :: t2 :: p :: r =>
      if is_h h && is_t t1 && is_t t2 && is_p p then
        let without_s :=
          match match_sep r with
          | Some rest => match_body [h; t1; t2; p; 58; 47; 47]%N rest
          | None => None
          end in
        match r with
        | c :: r' =>
            if is_s c then
              match match_sep r' with
              | Some rest =>
                  match match_body [h; t1; t2; p; c; 58; 47; 47]%N rest with
                  | Some u => Some u
                  | None => without_s
                  end
              | None => without_s
              end
            else without_s
        | [] => without_s
        end
      else None
  | _ => None
  end.

(** The scan of [findall]: [skip] characters of the last match are still
    to be stepped over; after a match the scan resumes behind it. *)
Fixpoint scan (skip : nat) (s : pystr) : list pystr :=
  match s with
  | [] => []
  | _ :: s' =>
      match skip with
      | S k => scan k s'
      | O =>
          match match_at s with
          | Some u => u :: scan (length u - 1) s'
          | None => scan 0 s'
          end
      end
  end.

(** [url_pattern.findall(text)] *)
Definition findall (text : pystr) : list pystr := scan 0 text.

End Re.

(* ================================================================= *)
(** ** utils.py *)

Module Utils.

(** [truncate_text(text, max_length=500)] *)
Definition truncate_text (text : pystr) (max_length : Z) : pystr :=
  if (len text <=? max_length)%Z then text
  else slice_to text max_length ++ str "...".

(** [extract_urls(text)] *)
Definition extract_urls (text : pystr) : list pystr := Re.findall text.

End Utils.

(* ================================================================= *)
(** ** Python values, exceptions and the Anthropic message shapes *)

Module Model.

(** Values that are built from JSON or handed to [json.dumps]. *)
#[local] Unset Elimination Schemes.
Inductive pyval : Type :=
| PNone
| PBool (b : bool)
| PInt (z : Z)
| PFloat (f : float)
| PStr (s : pystr)
| PList (l : list pyval)
| PDict (d : list (pystr * pyval)).
#[local] Set Elimination Schemes.

Definition pydict := list (pystr * pyval).

(** [isinstance(v, str)] *)
Definition is_str (v : pyval) : bool :=
  match v with PStr _ => true | _ => false end.

(** [d.get(k)] *)
Fixpoint dict_get (d : pydict) (k : pystr) : option pyval :=
  match d with
  | [] => None
  | (k', v) :: d' => if str_eqb k' k then Some v else dict_get d' k
  end.

(** A raised exception: its class and what [str(e)] gives. *)
Record exn := mk_exn { exn_class : pystr; exn_str : pystr }.

Inductive result (A : Type) : Type :=
| Ok (a : A)
| Raise (e : exn).
Arguments Ok {A} a.
Arguments Raise {A} e.

(** Content blocks of a model response. [OtherBlock] stands for the block
    kinds that are neither text nor tool use (they have no [text]
    attribute and their [type] is not ["tool_use"]). *)
Inductive block : Type :=
| TextBlock (text : pystr)
| ToolUseBlock (id name : pystr) (input : pydict)
| OtherBlock.

(** [block.type == "tool_use"] *)
Definition is_tool_use (b : block) : bool :=
  match b with ToolUseBlock _ _ _ => true | _ => false end.

Record response := mk_response {
  stop_reason : pystr;
  resp_content : list block
}.

(** The [content] of a message dictionary: the prompt, the content of a
    response, or a list of [tool_result] dictionaries. *)
Inductive msg_content : Type :=
| CStr (s : pystr)
| CBlocks (bs : list block)
| CResults (rs : list pydict).

Record message := mk_message { role : pystr; content : msg_content }.

(** The keyword arguments of [client.messages.create]. *)
Record request := mk_request {
  req_model : pystr;
  req_max_tokens : Z;
  req_system : option pystr;
  req_tools : list pyval;
  req_messages : list message
}.

(** [{"type": "tool_result", "tool_use_id": id, "content": c}] *)
Definition tool_result (id c : pystr) : pydict :=
  [ (str "type", PStr (str "tool_result"));
    (str "tool_use_id", PStr id);
    (str "content", PStr c) ].

(** The flag the Messages API reads on a [tool_result]: absent means false. *)
Definition is_error (r : pydict) : bool :=
  match dict_get r (str "is_error") with
  | Some (PBool b) => b
  | _ => false
  end.

Definition result_id (r : pydict) : option pystr :=
  match dict_get r (str "tool_use_id") with
  | Some (PStr i) => Some i
  | _ => None
  end.

Definition result_content (r : pydict) : option pystr :=
  match dict_get r (str "content") with
  | Some (PStr c) => Some c
  | _ => None
  end.

(** The identifiers of the tool requests of an assistant turn, in order. *)
Fixpoint request_ids (bs : list block) : list pystr :=
  match bs with
  | [] => []
  | ToolUseBlock i _ _ :: bs' => i :: request_ids bs'
  | _ :: bs' => request_ids bs'
  end.

(** What a function with a [return_messages] switch returns. *)
Inductive agent_return : Type :=
| RetText (text : pystr)
| RetPair (text : pystr) (messages : list message).

(** Ghost record of the outside calls a run makes. *)
Inductive event : Type :=
| EvModel (req : request)
| EvTool (name : pystr).

Definition is_model_call (e : event) : bool :=
  match e with EvModel _ => true | EvTool _ => false end.

Definition model_calls (log : list event) : nat :=
  length (filter is_model_call log).

Fixpoint tool_calls (log : list event) : list pystr :=
  match log with
  | [] => []
  | EvTool n :: log' => n :: tool_calls log'
  | EvModel _ :: log' => tool_calls log'
  end.

(** *** The outside world

    Everything the scripts call but do not define: the model endpoint,
    library functions, and the tool implementations that wrap network or
    file access.  [world] is the state of the outside; an action maps a
    world to an outcome and the next world. *)
Class Env := {
  world : Type;
  (** [client.messages.create(model=..., messages=..., ...)] *)
  messages_create : request -> world -> result response * world;
  (** [json.dumps(v)] on a JSON value *)
  json_dumps : pyval -> pystr;
  (** [json.loads(s)] *)
  json_loads : pystr -> result pyval;
  (** [repr(v)] *)
  py_repr : pyval -> pystr;
  (** [datetime.now().strftime(fmt)] *)
  now_strftime : pystr -> world -> pystr * world;
  (** tools.py, [get_weather_from_ip]: [import requests], the statement
      before its [try] block *)
  import_requests : world -> result unit * world;
  (** tools.py, [get_weather_from_ip]: the statements of its [try] block
      (two HTTP requests and an f-string) *)
  weather_lookup : world -> result pystr * world;
  (** tools.py, [write_txt_file]: [open(filename, 'w')] and [f.write(content)] *)
  open_write : pystr -> pyval -> world -> result unit * world;
  (** tools.py, [generate_qr_code(data, filename, image_path)]: calls into
      the [qrcode] package and returns an f-string, or raises *)
  qr_code : pyval -> pyval -> pyval -> world -> result pystr * world;
  (** [research_tools.arxiv_search] called with keyword arguments, and its two siblings; the
      module [research_tools] is imported by component_level_eval.py *)
  arxiv_search : pydict -> world -> result pyval * world;
  tavily_search : pydict -> world -> result pyval * world;
  wikipedia_search : pydict -> world -> result pyval * world;
  (** multi_agentic/tools.py, the body of [tavily_search_tool] on its
      bound parameters, given as the dictionary of [query], [max_results]
      and [include_images]: a Tavily client call that returns a list of
      dictionaries, or raises *)
  tavily_search_tool : pydict -> world -> result pyval * world
}.

(** *** The monad of the scripts: outside state, ghost log, exceptions *)

Section Monad.
Context {E : Env}.

Record state := mk_state { st_world : world; st_log : list event }.

Definition M (A : Type) : Type := state -> result A * state.

Definition ret {A} (a : A) : M A := fun st => (Ok a, st).

Definition bind {A B} (m : M A) (k : A -> M B) : M B :=
  fun st =>
    match m st with
    | (Ok a, st') => k a st'
    | (Raise e, st') => (Raise e, st')
    end.

(** [raise e] *)
Definition raise {A} (e : exn) : M A := fun st => (Raise e, st).

(** [try: m  except Exception as e: handler(e)] *)
Definition try_except {A} (m : M A) (handler : exn -> M A) : M A :=
  fun st =>
    match m st with
    | (Ok a, st') => (Ok a, st')
    | (Raise e, st') => handler e st'
    end.

(** An outside action, recorded in the log before it runs. *)
Definition outside {A} (ev : option event)
    (act : world -> result A * world) : M A :=
  fun st =>
    let log := match ev with
               | Some e => st_log st ++ [e]
               | None => st_log st
               end in
    let (r, w) := act (st_world st) in
    (r, mk_state w log).

(** [while cond(s): s = body(s)], where [body] may [return] from the
    enclosing function ([inr]).  [None] is the answer of a loop that still
    wants to run when [fuel] is used up. *)
Fixpoint while_loop {S R} (fuel : nat) (cond : S -> bool)
    (body : S -> M (S + R)) (s : S) : M (option (S + R)) :=
  if cond s then
    match fuel with
    | O => ret None
    | Datatypes.S fuel' =>
        bind (body s) (fun x =>
          match x with
          | inl s' => while_loop fuel' cond body s'
          | inr r => ret (Some (inr r))
          end)
    end
  else ret (Some (inl s)).

End Monad.

Notation "x <- m ;; k" := (bind m (fun x => k))
  (at level 61, m at next level, right associativity).

(** Exceptions raised by the interpreter itself. *)
Definition KeyError {E : Env} (key : pystr) : exn :=
  mk_exn (str "KeyError") (py_repr (PStr key)).

Definition TypeError (msg : pystr) : exn := mk_exn (str "TypeError") msg.

(** [d[k]] *)
Definition dict_getitem {E : Env} (d : pydict) (k : pystr) : M pyval :=
  match dict_get d k with
  | Some v => ret v
  | None => raise (KeyError k)
  end.

(** [client.messages.create(...)] *)
Definition create {E : Env} (req : request) : M response :=
  outside (Some (EvModel req)) (messages_create req).

(** The loop that every script uses to read the final answer:
    [for block in content: if hasattr(block, "text"): text += block.text] *)
Fixpoint collect_text (bs : list block) : pystr :=
  match bs with
  | [] => []
  | TextBlock t :: bs' => t ++ collect_text bs'
  | _ :: bs' => collect_text bs'
  end.

Definition user_message (c : msg_content) : message := mk_message (str "user") c.
Definition assistant_message (bs : list block) : message :=
  mk_message (str "assistant") (CBlocks bs).

End Model.
Import Model.
(* ================================================================= *)
(** ** tools.py *)

Module Tools.
Section WithEnv.
Context {E : Env}.

(** A tool function was entered. *)
Definition enter (name : string) : M unit :=
  outside (Some (EvTool (str name))) (fun w => (Ok tt, w)).

(** [type(v).__name__] *)
Definition type_name (v : pyval) : pystr :=
  match v with
  | PNone => str "NoneType"
  | PBool _ => str "bool"
  | PInt _ => str "int"
  | PFloat _ => str "float"
  | PStr _ => str "str"
  | PList _ => str "list"
  | PDict _ => str "dict"
  end.

(** [s.endswith(suffix)] *)
Definition endswith (suffix s : pystr) : bool :=
  startswith (rev suffix) (rev s).

(** [get_current_time()] *)
Definition get_current_time : M pystr :=
  _ <- enter "get_current_time" ;;
  outside None (fun w => let (s, w') := now_strftime (str "%H:%M:%S") w in
                         (Ok s, w')).

(** [get_weather_from_ip()] *)
Definition get_weather_from_ip : M pystr :=
  _ <- enter "get_weather_from_ip" ;;
  _ <- outside None import_requests ;;
  try_except (outside None weather_lookup)
    (fun e => ret (str "Could not fetch weather: " ++ exn_str e)).

(** [write_txt_file(filename, content)] *)
Definition write_txt_file (filename content : pyval) : M pystr :=
  _ <- enter "write_txt_file" ;;
  match filename with
  | PStr name =>
      let name := if endswith (str ".txt") name then name
                  else name ++ str ".txt" in
      _ <- outside None (open_write name content) ;;
      ret (str "Successfully wrote content to " ++ name)
  | other =>
      raise (mk_exn (str "AttributeError")
               (str "'" ++ type_name other
                  ++ str "' object has no attribute 'endswith'"))
  end.

(** [generate_qr_code(data, filename, image_path)] *)
Definition generate_qr_code (data filename image_path : pyval) : M pystr :=
  _ <- enter "generate_qr_code" ;;
  outside None (qr_code data filename image_path).

(** [execute_tool(tool_name, tool_input)] *)
Definition execute_tool (tool_name : pystr) (tool_input : pydict) : M pystr :=
  if str_eqb tool_name (str "get_current_time") then
    get_current_time
  else if str_eqb tool_name (str "get_weather_from_ip") then
    get_weather_from_ip
  else if str_eqb tool_name (str "write_txt_file") then
    filename <- dict_getitem tool_input (str "filename") ;;
    content <- dict_getitem tool_input (str "content") ;;
    write_txt_file filename content
  else if str_eqb tool_name (str "generate_qr_code") then
    data <- dict_getitem tool_input (str "data") ;;
    filename <- dict_getitem tool_input (str "filename") ;;
    image_path <- dict_getitem tool_input (str "image_path") ;;
    generate_qr_code data filename image_path
  else
    ret (str "Unknown tool: " ++ tool_name).

(** The variables of the loop of [call_claude_with_tools]. *)
Record loop_state := mk_loop { iteration : Z; messages : list message }.

(** [for block in response.content: if block.type == "tool_use": ...; break] *)
Definition first_tool_use (bs : list block) : option block :=
  find is_tool_use bs.

(** One pass through the body of the [while] loop.  [execute_tool] returns
    a [str], on which the [str(tool_result)] of the source is the
    identity. *)
Definition loop_body (tools_list : list pyval) (model : pystr)
    (s : loop_state) : M (loop_state + pystr * list message) :=
  let iteration := (iteration s + 1)%Z in
  response <- create (mk_request model 4096 None tools_list (messages s)) ;;
  if str_eqb (stop_reason response) (str "tool_use") then
    match first_tool_use (resp_content response) with
    | Some (ToolUseBlock id tool_name tool_input) =>
        tool_result <- execute_tool tool_name tool_input ;;
        let messages := messages s ++ [assistant_message (resp_content response)] in
        let messages :=
          messages ++ [user_message (CResults [Model.tool_result id tool_result])] in
        ret (inl (mk_loop iteration messages))
    | _ => ret (inl (mk_loop iteration (messages s)))
    end
  else
    ret (inr (collect_text (resp_content response), messages s)).

(** [call_claude_with_tools(prompt, tools_list, model, max_iterations)];
    the loop gets [max_iterations] units of fuel. *)
Definition call_claude_with_tools (prompt : pystr) (tools_list : list pyval)
    (model : pystr) (max_iterations : Z) : M (option (pystr * list message)) :=
  r <- while_loop (Z.to_nat max_iterations)
         (fun s => (iteration s <? max_iterations)%Z)
         (loop_body tools_list model)
         (mk_loop 0 [user_message (CStr prompt)]) ;;
  match r with
  | Some (inr returned) => ret (Some returned)
  | Some (inl s) => ret (Some (str "Max iterations reached", messages s))
  | None => ret None
  end.

End WithEnv.
End Tools.

(* ================================================================= *)
(** ** multi_agentic/tools.py *)

Module MultiTools.

(** One entry of [SUNGLASSES_CATALOG]. *)
Definition product (product_id name description style color : string)
    (price : float) (stock : Z) (tags : list pystr) : pyval :=
  PDict [ (str "product_id", PStr (str product_id));
          (str "name", PStr (str name));
          (str "description", PStr (str description));
          (str "style", PStr (str style));
          (str "color", PStr (str color));
          (str "price", PFloat price);
          (str "stock", PInt stock);
          (str "tags", PList (List.map PStr tags)) ].

Definition SUNGLASSES_CATALOG : list pyval :=
  [ product "SG001" "Classic Aviator Gold"
      "Timeless gold-frame aviators with UV400 protection"
      "aviator" "gold" 0x1.2bfae147ae148p+7 45
      [str "classic"; str "retro"; str "luxury"; str "pilot" ];
    product "SG002" "Modern Cat-Eye Black"
      "Contemporary black cat-eye frames with gradient lenses"
      "cat-eye" "black" 0x1.03fae147ae148p+7 32
      [str "modern"; str "feminine"; str "bold"; str "vintage" ];
    product "SG003" "Sporty Wraparound Blue"
      "Athletic wraparound design with polarized blue lenses"
      "wraparound" "blue" 0x1.8ff5c28f5c28fp+6 58
      [str "sporty"; str "active"; str "outdoor"; str "performance" ];
    product "SG004" "Vintage Round Tortoise"
      "Retro round frames in tortoise shell pattern"
      "round" "tortoise" 0x1.17fae147ae148p+7 28
      [str "vintage"; str "retro"; str "hipster"; str "classic" ];
    product "SG005" "Oversized Square Rose Gold"
      "Fashion-forward oversized square frames in rose gold"
      "square" "rose gold" 0x1.53fae147ae148p+7 15
      [str "trendy"; str "luxury"; str "statement"; str "oversized" ];
    product "SG006" "Minimalist Wire Silver"
      "Ultra-thin wire frames with silver finish"
      "wire" "silver" 0x1.dff5c28f5c28fp+6 41
      [str "minimalist"; str "modern"; str "lightweight"; str "subtle" ] ].

(** [product_catalog_tool()], the definition at the end of the file (it
    replaces the one with [max_items] above it). *)
Definition product_catalog_tool : pyval :=
  PDict [ (str "source", PStr (str "Internal Product Catalog"));
          (str "total_products", PInt (Z.of_nat (length SUNGLASSES_CATALOG)));
          (str "products", PList SUNGLASSES_CATALOG);
          (str "metadata",
           PDict [ (str "last_updated", PStr (str "2025-01-15"));
                   (str "currency", PStr (str "USD")) ]) ].

(** [get_available_tools_claude()] *)
Definition get_available_tools_claude : list pyval :=
  [ PDict [ (str "name", PStr (str "tavily_search_tool"));
            (str "description",
             PStr (str "Search the web for fashion trends and market information."));
            (str "input_schema",
             PDict [ (str "type", PStr (str "object"));
                     (str "properties",
                      PDict [ (str "query",
                               PDict [ (str "type", PStr (str "string"));
                                       (str "description", PStr (str "Search query")) ]);
                              (str "max_results",
                               PDict [ (str "type", PStr (str "integer"));
                                       (str "description",
                                        PStr (str "Max results (default: 5)"));
                                       (str "default", PInt 5) ]) ]);
                     (str "required", PList [PStr (str "query")]) ]) ];
    PDict [ (str "name", PStr (str "product_catalog_tool"));
            (str "description",
             PStr (str "Access internal sunglasses product catalog."));
            (str "input_schema",
             PDict [ (str "type", PStr (str "object"));
                     (str "properties", PDict []);
                     (str "required", PList []) ]) ] ].

(** The OpenAI-style tool call that [handle_tool_call] receives:
    [tool_call.id], [tool_call.function.name], [tool_call.function.arguments]. *)
Record tool_call := mk_tool_call {
  tc_id : pystr;
  function_name : pystr;
  function_arguments : pystr
}.

Section WithEnv.
Context {E : Env}.

(** A call with unpacked keyword arguments, [f( ** arguments)]: the argument
    has to be a mapping.  (The text of a [TypeError] varies with the
    interpreter; its class is what the callers can see.) *)
Definition with_kwargs {A} (arguments : pyval) (f : pydict -> M A) : M A :=
  match arguments with
  | PDict d => f d
  | other =>
      raise (TypeError (str "argument after ** must be a mapping, not "
                          ++ Tools.type_name other))
  end.

(** [product_catalog_tool] called with keyword arguments: the function
    takes no parameter. *)
Definition call_product_catalog_tool (kwargs : pydict) : M pyval :=
  match kwargs with
  | [] => _ <- Tools.enter "product_catalog_tool" ;; ret product_catalog_tool
  | (k, _) :: _ =>
      raise (TypeError
               (str "product_catalog_tool() got an unexpected keyword argument '"
                  ++ k ++ str "'"))
  end.

(** The parameters of [tavily_search_tool(query, max_results=5,
    include_images=False)]. *)
Definition tavily_parameters : list pystr :=
  [str "query"; str "max_results"; str "include_images"].

(** The first keyword of a call that names no parameter. *)
Fixpoint unexpected_keyword (kwargs : pydict) : option pystr :=
  match kwargs with
  | [] => None
  | (k, _) :: rest =>
      if existsb (str_eqb k) tavily_parameters then unexpected_keyword rest
      else Some k
  end.

(** The binding of the keyword arguments to the parameters, which the
    interpreter does before the function is entered: a keyword that names
    no parameter is refused, then a call without [query]; a parameter that
    is not given takes its default.  (The text of a [TypeError] varies
    with the interpreter; its class is what the callers can see.) *)
Definition bind_tavily_arguments (kwargs : pydict) : result pydict :=
  match unexpected_keyword kwargs with
  | Some k =>
      Raise (TypeError
               (str "tavily_search_tool() got an unexpected keyword argument '"
                  ++ k ++ str "'"))
  | None =>
      match dict_get kwargs (str "query") with
      | None =>
          Raise (TypeError
                   (str "tavily_search_tool() missing 1 required positional argument: 'query'"))
      | Some query =>
          Ok [ (str "query", query);
               (str "max_results",
                match dict_get kwargs (str "max_results") with
                | Some n => n
                | None => PInt 5
                end);
               (str "include_images",
                match dict_get kwargs (str "include_images") with
                | Some b => b
                | None => PBool false
                end) ]
      end
  end.

(** [tavily_search_tool] called with keyword arguments. *)
Definition call_tavily_search_tool (kwargs : pydict) : M pyval :=
  bound <- (fun st => (bind_tavily_arguments kwargs, st)) ;;
  _ <- Tools.enter "tavily_search_tool" ;;
  outside None (tavily_search_tool bound).

(** [handle_tool_call(tool_call)] *)
Definition handle_tool_call (tc : tool_call) : M pyval :=
  arguments <- (fun st => (json_loads (function_arguments tc), st)) ;;
  (* tools_map[function_name] *)
  callee <- (if str_eqb (function_name tc) (str "tavily_search_tool") then
               ret call_tavily_search_tool
             else if str_eqb (function_name tc) (str "product_catalog_tool") then
               ret call_product_catalog_tool
             else raise (KeyError (function_name tc))) ;;
  with_kwargs arguments callee.

(** [handle_tool_call_claude(tool_name, tool_input)] *)
Definition handle_tool_call_claude (tool_name : pystr) (tool_input : pydict)
    : M pyval :=
  if str_eqb tool_name (str "tavily_search_tool") then
    call_tavily_search_tool tool_input
  else if str_eqb tool_name (str "product_catalog_tool") then
    call_product_catalog_tool []
  else
    ret (PDict [ (str "error", PStr (str "Unknown tool: " ++ tool_name)) ]).

End WithEnv.
End MultiTools.
(* ================================================================= *)
(** ** component_level_eval.py *)

Module ComponentEval.

(** One entry of [RESEARCH_TOOLS]. *)
Definition property (type description : string) (default : option Z)
    : pyval :=
  PDict ([ (str "type", PStr (str type));
           (str "description", PStr (str description)) ]
         ++ match default with
            | Some d => [ (str "default", PInt d) ]
            | None => []
            end).

Definition tool_schema (name description : string)
    (properties : list (pystr * pyval)) (required : list pystr) : pyval :=
  PDict [ (str "name", PStr (str name));
          (str "description", PStr (str description));
          (str "input_schema",
           PDict [ (str "type", PStr (str "object"));
                   (str "properties", PDict properties);
                   (str "required", PList (List.map PStr required)) ]) ].

Definition RESEARCH_TOOLS : list pyval :=
  [ tool_schema "arxiv_search"
      "Search arXiv for academic papers on a given topic"
      [ (str "query",
         property "string" "The search query for arXiv papers" None);
        (str "max_results",
         property "integer"
           "Maximum number of results to return (default: 5)" (Some 5%Z)) ]
      [ str "query" ];
    tool_schema "tavily_search"
      "Search the web using Tavily for general information and news"
      [ (str "query", property "string" "The search query" None);
        (str "max_results",
         property "integer"
           "Maximum number of results to return (default: 5)" (Some 5%Z)) ]
      [ str "query" ];
    tool_schema "wikipedia_search"
      "Search Wikipedia for encyclopedic summaries on a topic"
      [ (str "query", property "string" "The Wikipedia search query" None) ]
      [ str "query" ] ].

Section WithEnv.
Context {E : Env}.

(** [process_tool_call(tool_name, tool_input)] *)
Definition process_tool_call (tool_name : pystr) (tool_input : pydict)
    : M pystr :=
  try_except
    (result <-
       (if str_eqb tool_name (str "arxiv_search") then
          _ <- Tools.enter "arxiv_search" ;;
          outside None (arxiv_search tool_input)
        else if str_eqb tool_name (str "tavily_search") then
          _ <- Tools.enter "tavily_search" ;;
          outside None (tavily_search tool_input)
        else if str_eqb tool_name (str "wikipedia_search") then
          _ <- Tools.enter "wikipedia_search" ;;
          outside None (wikipedia_search tool_input)
        else
          ret (PStr (str "Unknown tool: " ++ tool_name))) ;;
     ret (match result with
          | PStr s => s
          | other => json_dumps other
          end))
    (fun e =>
       ret (str "Tool error (" ++ tool_name ++ str "): " ++ exn_str e)).

(** The prompt of [find_references], after [.strip()]. *)
Definition research_prompt (task today : pystr) : pystr :=
  str "You are a research assistant with access to:
- arxiv_search: Search for academic papers
- tavily_search: Search the web for general information
- wikipedia_search: Search Wikipedia for summaries

Task:
" ++ task ++ str "

Today is " ++ today ++ str ".

Please use the available tools to research this topic thoroughly and provide a comprehensive answer with URLs and citations.".

(** The variables of the loop of [find_references]. *)
Record loop_state := mk_loop {
  response : Model.response;
  iteration : Z;
  messages : list message
}.

(** [for block in response.content: if block.type == "tool_use": ...],
    collecting [tool_results]. *)
Fixpoint run_tools (bs : list block) : M (list pydict) :=
  match bs with
  | [] => ret []
  | ToolUseBlock id tool_name tool_input :: bs' =>
      tool_result <- process_tool_call tool_name tool_input ;;
      rest <- run_tools bs' ;;
      ret (Model.tool_result id tool_result :: rest)
  | _ :: bs' => run_tools bs'
  end.

Definition research_request (model : pystr) (messages : list message)
    : request :=
  mk_request model 4096 None RESEARCH_TOOLS messages.

(** One pass through the body of the [while] loop. *)
Definition loop_body (model : pystr) (s : loop_state)
    : M (loop_state + Empty_set) :=
  let iteration := (iteration s + 1)%Z in
  let messages :=
    messages s ++ [assistant_message (resp_content (response s))] in
  tool_results <- run_tools (resp_content (response s)) ;;
  let messages := messages ++ [user_message (CResults tool_results)] in
  response <- create (research_request model messages) ;;
  ret (inl (mk_loop response iteration messages)).

Definition max_iterations : Z := 5.

(** [find_references(task, model, return_messages)]; the loop gets
    [max_iterations] units of fuel. *)
Definition find_references (task model : pystr) (return_messages : bool)
    : M (option agent_return) :=
  today <- outside None (fun w => let (s, w') := now_strftime (str "%Y-%m-%d") w in
                                  (Ok s, w')) ;;
  let seed := [user_message (CStr (research_prompt task today))] in
  try_except
    (initial <- create (research_request model seed) ;;
     r <- while_loop (Z.to_nat max_iterations)
            (fun s => str_eqb (stop_reason (response s)) (str "tool_use")
                      && (iteration s <? max_iterations)%Z)
            (loop_body model)
            (mk_loop initial 0 seed) ;;
     match r with
     | Some (inl s) =>
         let content := collect_text (resp_content (response s)) in
         ret (Some (if return_messages
                    then RetPair content (messages s)
                    else RetText content))
     | Some (inr impossible) => match impossible with end
     | None => ret None
     end)
    (fun e => ret (Some (RetText (str "[Model Error: " ++ exn_str e ++ str "]")))).

End WithEnv.

(** *** Evaluation of the preferred domains *)

Definition TOP_DOMAINS : list pystr :=
  List.map str
    [ "wikipedia.org"; "nature.com"; "science.org"; "sciencemag.org";
      "cell.com"; "mit.edu"; "stanford.edu"; "harvard.edu"; "nasa.gov";
      "noaa.gov"; "europa.eu";
      "arxiv.org"; "acm.org"; "ieee.org"; "neurips.cc"; "icml.cc";
      "openreview.net";
      "elifesciences.org"; "pnas.org"; "jmlr.org"; "springer.com";
      "sciencedirect.com";
      "pbs.org"; "nova.edu"; "nvcc.edu"; "cccco.edu";
      "codecademy.com"; "datacamp.com" ]%string.

(** [l[i]] for [i >= 0] *)
Definition getitem {A} (l : list A) (i : nat) : result A :=
  match nth_error l i with
  | Some x => Ok x
  | None => Raise (mk_exn (str "IndexError") (str "list index out of range"))
  end.

(** [float(n)] for an [int] [n >= 0]; exact up to [2^53]. *)
Definition float_of_nat (n : nat) : float :=
  PrimFloat.of_uint63 (Uint63.of_Z (Z.of_nat n)).

(** [a / b] on non-negative [int]s.  Below [2^53] both conversions are
    exact, and the IEEE quotient is the correctly rounded one that Python
    computes. *)
Definition truediv (a b : nat) : result float :=
  match b with
  | O => Raise (mk_exn (str "ZeroDivisionError") (str "division by zero"))
  | _ => Ok (PrimFloat.div (float_of_nat a) (float_of_nat b))
  end.

(** [try: domain = url.split("/")[2]  except IndexError: domain = url] *)
Definition url_domain (url : pystr) : pystr :=
  match getitem (split_on 47 url) 2 with
  | Ok domain => domain
  | Raise _ => url
  end.

(** [any(td in domain for td in TOP_DOMAINS)] *)
Definition is_preferred (TOP_DOMAINS : list pystr) (url : pystr) : bool :=
  existsb (fun td => str_contains td (url_domain url)) TOP_DOMAINS.

(** The line of [details] for one URL. *)
Definition detail (url : pystr) (preferred : bool) : pystr :=
  str "- " ++ url ++ str " " ++ [8594%N] ++ str " "
    ++ (if preferred then [9989%N] ++ str " PREFERRED"
        else [10060%N] ++ str " NOT PREFERRED").

(** The body of [for url in urls], on [(preferred_count, details)]. *)
Definition count_url (TOP_DOMAINS : list pystr) (acc : nat * list pystr)
    (url : pystr) : nat * list pystr :=
  let preferred := is_preferred TOP_DOMAINS url in
  ((if preferred then fst acc + 1 else fst acc),
   snd acc ++ [detail url preferred]).

Definition no_urls_report : pystr :=
  str "### Evaluation " ++ [8212%N] ++ str " Tavily Preferred Domains
No URLs detected in the provided text. 
Please include links in your research results.
".

Section Evaluate.

(** [format(x, ".N%")] on a [float], the percent formatting of the report
    (the standard library's). *)
Variable format_percent : nat -> float -> pystr.

Definition report (total preferred_count : nat) (ratio min_ratio : float)
    (flag : bool) (details : list pystr) : pystr :=
  str "
### Evaluation " ++ [8212%N] ++ str " Tavily Preferred Domains
- Total results: " ++ format_nat total ++ str "
- Preferred results: " ++ format_nat preferred_count ++ str "
- Ratio: " ++ format_percent 2 ratio ++ str "
- Threshold: " ++ format_percent 0 min_ratio ++ str "
- Status: " ++ (if flag then [9989%N] ++ str " PASS"
                else [10060%N] ++ str " FAIL") ++ str "

**Details:**
" ++ join [10%N] details ++ str "
".

(** [evaluate_tavily_results(TOP_DOMAINS, raw, min_ratio=0.4)] *)
Definition evaluate_tavily_results (TOP_DOMAINS : list pystr) (raw : pystr)
    (min_ratio : float) : result (bool * pystr) :=
  let urls := Re.findall raw in
  match urls with
  | [] => Ok (false, no_urls_report)
  | _ :: _ =>
      let total := length urls in
      let (preferred_count, details) :=
        fold_left (count_url TOP_DOMAINS) urls (O, []) in
      match (if (0 <? total)%nat then truediv preferred_count total
             else Ok 0%float) with
      | Raise e => Raise e
      | Ok ratio =>
          let flag := PrimFloat.leb min_ratio ratio in
          Ok (flag, report total preferred_count ratio min_ratio flag details)
      end
  end.

End Evaluate.

End ComponentEval.

(* ================================================================= *)
(** ** multi_agentic/campaign_pipeline.py *)

Module Campaign.

Definition system_prompt : pystr :=
  str "You are a fashion market research agent tasked with preparing a trend analysis for a summer sunglasses campaign.

Your goal:
1. Explore current fashion trends related to sunglasses using web search.
2. Review the internal product catalog to identify items that align with those trends.
3. Recommend one or more products from the catalog that best match emerging trends.

Once your analysis is complete, summarize:
- The top 2" ++ [8211%N] ++ str "3 trends you found.
- The product(s) from the catalog that fit these trends.
- A justification of why they are a good fit for the summer campaign.".

Definition research_prompt (today : pystr) : pystr :=
  str "Please conduct market research for our summer sunglasses campaign.

Today's date is " ++ today ++ str ".

Use the available tools to:
1. Search for current sunglasses fashion trends
2. Review our product catalog
3. Recommend products that match the trends

Provide a comprehensive analysis with your findings and recommendations.".

Definition max_iterations : Z := 10.

(** The text returned when the loop runs out. *)
Definition max_iterations_message : pystr :=
  str "[" ++ [9888%N; 65039%N] ++ str " Max iterations reached]".

Section WithEnv.
Context {E : Env}.

Record loop_state := mk_loop { iteration : Z; messages : list message }.

(** [json.dumps(result) if not isinstance(result, str) else result] *)
Definition result_text (result : pyval) : pystr :=
  match result with
  | PStr s => s
  | other => json_dumps other
  end.

(** [for block in response.content: if block.type == "tool_use": ...],
    collecting [tool_results]. *)
Fixpoint run_tools (bs : list block) : M (list pydict) :=
  match bs with
  | [] => ret []
  | ToolUseBlock id tool_name tool_input :: bs' =>
      result <- MultiTools.handle_tool_call_claude tool_name tool_input ;;
      rest <- run_tools bs' ;;
      ret (Model.tool_result id (result_text result) :: rest)
  | _ :: bs' => run_tools bs'
  end.

(** One pass through the body of the [while] loop. *)
Definition loop_body (model : pystr) (return_messages : bool)
    (s : loop_state) : M (loop_state + agent_return) :=
  let iteration := (iteration s + 1)%Z in
  response <- create (mk_request model 4096 (Some system_prompt)
                        MultiTools.get_available_tools_claude (messages s)) ;;
  if str_eqb (stop_reason response) (str "tool_use") then
    let messages := messages s ++ [assistant_message (resp_content response)] in
    tool_results <- run_tools (resp_content response) ;;
    let messages := messages ++ [user_message (CResults tool_results)] in
    ret (inl (mk_loop iteration messages))
  else
    let final_content := collect_text (resp_content response) in
    ret (inr (if return_messages then RetPair final_content (messages s)
              else RetText final_content)).

(** [market_research_agent(model, return_messages)]; the loop gets
    [max_iterations] units of fuel. *)
Definition market_research_agent (model : pystr) (return_messages : bool)
    : M (option agent_return) :=
  today <- outside None (fun w => let (s, w') := now_strftime (str "%Y-%m-%d") w in
                                  (Ok s, w')) ;;
  r <- while_loop (Z.to_nat max_iterations)
         (fun s => (iteration s <? max_iterations)%Z)
         (loop_body model return_messages)
         (mk_loop 0 [user_message (CStr (research_prompt today))]) ;;
  match r with
  | Some (inr returned) => ret (Some returned)
  | Some (inl _) => ret (Some (RetText max_iterations_message))
  | None => ret None
  end.

End WithEnv.
End Campaign.

(* ================================================================= *)
(** ** Vocabulary of the properties *)

Module Spec.

(** *** The URL pattern, read declaratively

    A URL is [http], an optional [s], [://] (letters in either case) and
    then one or more characters that are neither whitespace nor one of
    the four closing delimiters. *)

Definition spec_scheme (sch : pystr) : Prop :=
  exists h t1 t2 p,
    Re.is_h h = true /\ Re.is_t t1 = true /\ Re.is_t t2 = true /\
    Re.is_p p = true /\
    (sch = [h; t1; t2; p; 58; 47; 47]%N \/
     exists s, Re.is_s s = true /\ sch = [h; t1; t2; p; s; 58; 47; 47]%N).

Definition spec_url_match (u : pystr) : Prop :=
  exists sch body,
    u = sch ++ body /\ spec_scheme sch /\ body <> [] /\
    forallb Re.url_char body = true.

(** [raw] has a substring that matches the pattern. *)
Definition has_url (raw : pystr) : Prop :=
  exists pre u post, raw = pre ++ u ++ post /\ spec_url_match u.

(** *** Conversations *)

(** Every batch of tool results answers the assistant turn just before
    it, request by request. *)
Fixpoint paired (ms : list message) : Prop :=
  match ms with
  | a :: (b :: _) as rest =>
      match content b with
      | CResults rs =>
          exists bs, a = assistant_message bs /\
                     List.map result_id rs = List.map Some (request_ids bs)
      | _ => True
      end /\ paired rest
  | _ => True
  end.

Section WithEnv.
Context {E : Env}.

(** A computation that adds no model call to the log. *)
Definition no_model_call {A} (m : M A) : Prop :=
  forall st r st', m st = (r, st') ->
    model_calls (st_log st') = model_calls (st_log st).

(** A computation that returns, and calls no model, from every state. *)
Definition returns {A} (m : M A) : Prop :=
  forall st, exists a st',
    m st = (Ok a, st') /\ model_calls (st_log st') = model_calls (st_log st).

(** The model endpoint answers every request, and always asks for tools. *)
Definition always_tool_use : Prop :=
  forall req w, exists r w',
    messages_create req w = (Ok r, w') /\ stop_reason r = str "tool_use".

(** The tool that the loop of tools.py runs for a response returns. *)
Definition first_tool_returns (r : response) : Prop :=
  match Tools.first_tool_use (resp_content r) with
  | Some (ToolUseBlock _ name input) => returns (Tools.execute_tool name input)
  | _ => True
  end.

(** Every tool that the loop of campaign_pipeline.py runs for a response
    returns. *)
Definition all_tools_return (r : response) : Prop :=
  forall id name input,
    In (ToolUseBlock id name input) (resp_content r) ->
    returns (MultiTools.handle_tool_call_claude name input).

(** As [always_tool_use], and the requested tools return. *)
Definition always_tool_use_and (tools_ok : response -> Prop) : Prop :=
  forall req w, exists r w',
    messages_create req w = (Ok r, w') /\ stop_reason r = str "tool_use" /\
    tools_ok r.

(** [r] is what the last model call of the log returned, and nothing
    touched the outside since. *)
Definition last_answer (r : response) (st : state) : Prop :=
  exists log req w,
    st_log st = log ++ [EvModel req] /\
    messages_create req w = (Ok r, st_world st).

(** How the value [v] that a tool returned is stored as the content [c] of
    its result: a string as it is, anything else as its JSON text. *)
Definition stored_as (v : pyval) (c : pystr) : Prop :=
  (forall s, v = PStr s -> c = s) /\
  (is_str v = false -> c = json_dumps v).

(** The research tool behind a name of the dispatch chain of
    [process_tool_call]. *)
Definition research_tool (name : pystr)
    : option (pydict -> world -> result pyval * world) :=
  if str_eqb name (str "arxiv_search") then Some arxiv_search
  else if str_eqb name (str "tavily_search") then Some tavily_search
  else if str_eqb name (str "wikipedia_search") then Some wikipedia_search
  else None.

End WithEnv.

(** The names of the dispatch chains. *)
Definition tools_py_names : list pystr :=
  List.map str [ "get_current_time"; "get_weather_from_ip";
                 "write_txt_file"; "generate_qr_code" ]%string.

Definition research_names : list pystr :=
  List.map str [ "arxiv_search"; "tavily_search"; "wikipedia_search" ]%string.

Definition campaign_names : list pystr :=
  List.map str [ "tavily_search_tool"; "product_catalog_tool" ]%string.

End Spec.

(* ================================================================= *)
(** ** A scripted outside world, for running the scripts *)

Module Script.

(** The world is the number of model calls made so far.  [endpoint] says
    what the model answers to its n-th call; [tool] what a tool of the
    research or campaign set does.  The file tools of tools.py succeed, the
    QR code fails for want of the logo file. *)
Definition env (endpoint : nat -> request -> result response)
    (tool : pystr -> pydict -> result pyval) : Env :=
  {| world := nat;
     messages_create := fun req n => (endpoint n req, S n);
     json_dumps := fun v =>
       match v with
       | PNone => str "null"
       | PBool true => str "true"
       | PBool false => str "false"
       | PList [] => str "[]"
       | PDict [] => str "{}"
       | _ => str "<json>"
       end;
     json_loads := fun s =>
       if str_eqb s (str "{}") then Ok (PDict [])
       else Raise (mk_exn (str "JSONDecodeError") (str "Expecting value"));
     py_repr := fun v =>
       match v with
       | PStr s => str "'" ++ s ++ str "'"
       | _ => str "<repr>"
       end;
     now_strftime := fun fmt n =>
       (if str_eqb fmt (str "%H:%M:%S") then str "10:00:00"
        else str "2025-01-15", n);
     import_requests := fun n => (Ok tt, n);
     weather_lookup := fun n => (Ok (str "Weather in Lima: Sunny +20C"), n);
     open_write := fun _ _ n => (Ok tt, n);
     qr_code := fun _ _ _ n =>
       (Raise (mk_exn (str "FileNotFoundError")
                 (str "[Errno 2] No such file or directory: 'dl_logo.jpg'")), n);
     arxiv_search := fun d n => (tool (str "arxiv_search") d, n);
     tavily_search := fun d n => (tool (str "tavily_search") d, n);
     wikipedia_search := fun d n => (tool (str "wikipedia_search") d, n);
     tavily_search_tool := fun d n => (tool (str "tavily_search_tool") d, n)
  |}.

Definition start (E : Env) (w : @world E) : @state E := mk_state w [].

(** A model that answers once, with a final text. *)
Definition answers (text : string) : nat -> request -> result response :=
  fun _ _ => Ok (mk_response (str "end_turn") [TextBlock (str text)]).

(** A model that asks for the same tools for ever. *)
Definition insists (bs : list block) : nat -> request -> result response :=
  fun _ _ => Ok (mk_response (str "tool_use") bs).

(** A model that asks for tools once and then answers. *)
Definition asks_once (bs : list block) (text : string)
    : nat -> request -> result response :=
  fun n _ =>
    match n with
    | O => Ok (mk_response (str "tool_use") bs)
    | _ => Ok (mk_response (str "end_turn") [TextBlock (str text)])
    end.

Definition no_tools : pystr -> pydict -> result pyval :=
  fun _ _ => Ok (PList []).

Definition failing_tools : pystr -> pydict -> result pyval :=
  fun _ _ => Raise (mk_exn (str "ConnectionError") (str "network is down")).

Definition model_name : pystr := str "claude-sonnet-4-20250514".

(** The worlds of the examples. *)
Definition time_world : Env :=
  env (insists [ToolUseBlock (str "t1") (str "get_current_time") []]) no_tools.

Definition bogus_world : Env :=
  env (insists [ToolUseBlock (str "x1") (str "bogus") []]) no_tools.

Definition search_world : Env :=
  env (insists [TextBlock (str "Let me search.");
                ToolUseBlock (str "t1") (str "arxiv_search") []]) no_tools.

Definition answer_world : Env := env (answers "4") no_tools.

Definition two_requests_world : Env :=
  env (asks_once [ToolUseBlock (str "t1") (str "get_current_time") [];
                  ToolUseBlock (str "t2") (str "get_weather_from_ip") []]
         "done") no_tools.

Definition unknown_world : Env :=
  env (asks_once [ToolUseBlock (str "x1") (str "bogus") []] "Sorry.") no_tools.

Definition failing_world : Env :=
  env (asks_once [ToolUseBlock (str "t1") (str "arxiv_search") []] "Sorry.")
    failing_tools.

Definition stubborn_world : Env :=
  env (insists [ToolUseBlock (str "t1") (str "write_txt_file") []]) no_tools.

Definition missing_key_world : Env :=
  env (asks_once [ToolUseBlock (str "t1") (str "write_txt_file") []] "Done.")
    no_tools.

End Script.

(* ================================================================= *)
(** ** Further vocabulary: logs and conversations *)

Module Props.

Section WithEnv.
Context {E : Env}.

(** A computation that adds only tool events to the log. *)
Definition only_tool_events {A} (m : M A) : Prop :=
  forall st r st', m st = (r, st') ->
    exists names, st_log st' = st_log st ++ List.map EvTool names.

End WithEnv.

(** [p] is an initial part of [l]. *)
Definition prefix_of {A} (p l : list A) : Prop := exists rest, l = p ++ rest.

(** Every model request among [evs] was made for [model] with [tools],
    and carried an initial part of [conversation]. *)
Definition requests_within (model : pystr) (system : option pystr)
    (tools : list pyval) (conversation : list message) (evs : list event)
    : Prop :=
  Forall (fun ev =>
            match ev with
            | EvModel req =>
                req_model req = model /\ req_system req = system /\
                req_tools req = tools /\
                prefix_of (req_messages req) conversation
            | EvTool _ => True
            end) evs.

(** The conversations of tools.py: the seeded user turn, then pairs of an
    assistant turn and a batch with the one result that answers the first
    tool request of that turn. *)
Definition answers_first (bs : list block) (r : pydict) : Prop :=
  exists id name input c,
    Tools.first_tool_use bs = Some (ToolUseBlock id name input) /\
    r = tool_result id c.

Fixpoint first_answered (turns : list message) : Prop :=
  match turns with
  | [] => True
  | a :: b :: rest =>
      (exists bs r, a = assistant_message bs /\
                    b = user_message (CResults [r]) /\ answers_first bs r) /\
      first_answered rest
  | _ => False
  end.

(** The keys that [execute_tool] reads from [tool_input], in the order in
    which it reads them. *)
Definition required_keys (tool_name : pystr) : list pystr :=
  if str_eqb tool_name (str "write_txt_file") then
    [str "filename"; str "content"]
  else if str_eqb tool_name (str "generate_qr_code") then
    [str "data"; str "filename"; str "image_path"]
  else [].

(** [s] begins with a URL. *)
Definition starts_url (s : pystr) : Prop :=
  exists u post, s = u ++ post /\ Spec.spec_url_match u.

(** [urls] are matches laid out in [text] from left to right without
    overlap: each is as long as it can be, no match begins in the text
    before it that the one before it left over, and none is left after
    the last. *)
Fixpoint laid_out (urls : list pystr) (text : pystr) : Prop :=
  match urls with
  | [] => ~ Spec.has_url text
  | u :: urls' =>
      exists pre rest,
        text = pre ++ u ++ rest /\
        Spec.spec_url_match u /\
        match rest with
        | [] => True
        | c :: _ => Re.url_char c = false
        end /\
        (forall p1 p2, pre = p1 ++ p2 -> p2 <> [] ->
                       ~ starts_url (p2 ++ u ++ rest)) /\
        laid_out urls' rest
  end.

(** No [/] in [s]. *)
Definition no_slash (s : pystr) : Prop :=
  forallb (fun c => negb (N.eqb c 47)) s = true.

Definition seeded_first_answered (prompt : pystr) (ms : list message) : Prop :=
  exists turns,
    ms = user_message (CStr prompt) :: turns /\ first_answered turns.

End Props.

(* ================================================================= *)
(** ** multi_agentic/tools.py, the OpenAI-style half *)

Module OpenAITools.

(** [get_available_tools()] *)
Definition get_available_tools : list pyval :=
  [ PDict [ (str "type", PStr (str "function"));
            (str "function",
             PDict [ (str "name", PStr (str "tavily_search_tool"));
                     (str "description",
                      PStr (str "Perform web search for sunglasses trends using Tavily."));
                     (str "parameters",
                      PDict [ (str "type", PStr (str "object"));
                              (str "properties",
                               PDict [ (str "query",
                                        PDict [ (str "type", PStr (str "string"));
                                                (str "description",
                                                 PStr (str "Search query")) ]);
                                       (str "max_results",
                                        PDict [ (str "type", PStr (str "integer"));
                                                (str "default", PInt 5) ]);
                                       (str "include_images",
                                        PDict [ (str "type", PStr (str "boolean"));
                                                (str "default", PBool false) ]) ]);
                              (str "required", PList [PStr (str "query")]) ]) ]) ];
    PDict [ (str "type", PStr (str "function"));
            (str "function",
             PDict [ (str "name", PStr (str "product_catalog_tool"));
                     (str "description",
                      PStr (str "Get sunglasses products from internal inventory."));
                     (str "parameters",
                      PDict [ (str "type", PStr (str "object"));
                              (str "properties",
                               PDict [ (str "max_items",
                                        PDict [ (str "type", PStr (str "integer"));
                                                (str "default", PInt 10) ]) ]) ]) ]) ] ].

(** [d[k1][k2]...] on nested dictionaries, [None] where a key is missing. *)
Fixpoint lookup_path (v : pyval) (path : list pystr) : option pyval :=
  match path with
  | [] => Some v
  | k :: path' =>
      match v with
      | PDict d => match dict_get d k with
                   | Some v' => lookup_path v' path'
                   | None => None
                   end
      | _ => None
      end
  end.

(** The parameters that [tools] declares for the function [name]. *)
Fixpoint declared_parameters (tools : list pyval) (name : pystr)
    : list pystr :=
  match tools with
  | [] => []
  | t :: tools' =>
      match lookup_path t [str "function"; str "name"],
            lookup_path t [str "function"; str "parameters"; str "properties"] with
      | Some (PStr n), Some (PDict props) =>
          if str_eqb n name then List.map fst props
          else declared_parameters tools' name
      | _, _ => declared_parameters tools' name
      end
  end.

(** [create_tool_response_message(tool_call, tool_result)] *)
Definition create_tool_response_message {E : Env}
    (tc : MultiTools.tool_call) (tool_result : pyval) : pydict :=
  [ (str "role", PStr (str "tool"));
    (str "tool_call_id", PStr (MultiTools.tc_id tc));
    (str "name", PStr (MultiTools.function_name tc));
    (str "content", PStr (json_dumps tool_result)) ].

End OpenAITools.

(* ================================================================= *)
(** ** More scripted worlds *)

Module Worlds.

(** The model endpoint is down. *)
Definition down : Env :=
  Script.env
    (fun _ _ => Raise (mk_exn (str "APIConnectionError") (str "Connection error.")))
    Script.no_tools.

(** The model asks for a note to be written, then answers. *)
Definition note : Env :=
  Script.env
    (Script.asks_once
       [ToolUseBlock (str "t1") (str "write_txt_file")
          [(str "filename", PStr (str "reminders"));
           (str "content", PStr (str "Call Daniel tomorrow at 7PM"))]]
       "Saved.")
    Script.no_tools.

(** The model asks for the catalog and a search, then answers. *)
Definition research : Env :=
  Script.env
    (Script.asks_once
       [TextBlock (str "Let me look.");
        ToolUseBlock (str "t1") (str "product_catalog_tool") [];
        ToolUseBlock (str "t2") (str "tavily_search_tool")
          [(str "query", PStr (str "sunglasses trends"))]]
       "Aviators are back.")
    Script.no_tools.

(** [E] with another [json.loads]. *)
Definition with_json_loads (E : Env) (loads : pystr -> result pyval) : Env :=
  {| world := @world E;
     messages_create := @messages_create E;
     json_dumps := @json_dumps E;
     json_loads := loads;
     py_repr := @py_repr E;
     now_strftime := @now_strftime E;
     import_requests := @import_requests E;
     weather_lookup := @weather_lookup E;
     open_write := @open_write E;
     qr_code := @qr_code E;
     arxiv_search := @arxiv_search E;
     tavily_search := @tavily_search E;
     wikipedia_search := @wikipedia_search E;
     tavily_search_tool := @tavily_search_tool E |}.

(** The JSON text of an object with the one member [max_items], 5. *)
Definition max_items_json : pystr :=
  str "{" ++ [34%N] ++ str "max_items" ++ [34%N] ++ str ": 5}".

(** A world whose [json.loads] reads that text. *)
Definition max_items : Env :=
  with_json_loads Script.time_world
    (fun s => if str_eqb s max_items_json
              then Ok (PDict [(str "max_items", PInt 5)])
              else Raise (mk_exn (str "JSONDecodeError") (str "Expecting value"))).

End Worlds.

(* ================================================================= *)
(** ** More string methods *)

Module Str.

(** [s.split()]: the maximal runs of characters that are not whitespace,
    from left to right. *)
Fixpoint split (s : pystr) : list pystr :=
  match s with
  | [] => []
  | c :: s' =>
      if Re.is_space c then split s'
      else
        match s' with
        | [] => [[c]]
        | d :: _ =>
            if Re.is_space d then [c] :: split s'
            else
              match split s' with
              | w :: ws => (c :: w) :: ws
              | [] => [[c]]
              end
        end
  end.

(** [s.split(sep, 1)] for a separator of one character. *)
Fixpoint split_once (sep : N) (s : pystr) : list pystr :=
  match s with
  | [] => [[]]
  | c :: s' =>
      if N.eqb c sep then [[]; s']
      else
        match split_once sep s' with
        | piece :: pieces => (c :: piece) :: pieces
        | [] => [[c]]
        end
  end.

(** [s.lstrip()], [s.rstrip()], [s.strip()] *)
Fixpoint lstrip (s : pystr) : pystr :=
  match s with
  | [] => []
  | c :: s' => if Re.is_space c then lstrip s' else s
  end.

Definition rstrip (s : pystr) : pystr := rev (lstrip (rev s)).

Definition strip (s : pystr) : pystr := rstrip (lstrip s).

(** [int(x)] on a [float]: truncation towards zero. *)
Definition int_of_float (x : float) : result Z :=
  match Prim2SF x with
  | S754_zero _ => Ok 0%Z
  | S754_finite s m e =>
      let a := if (0 <=? e)%Z then (Z.pos m * 2 ^ e)%Z
               else (Z.pos m / 2 ^ (- e))%Z in
      Ok (if s then (- a)%Z else a)
  | S754_infinity _ =>
      Raise (mk_exn (str "OverflowError")
               (str "cannot convert float infinity to integer"))
  | S754_nan =>
      Raise (mk_exn (str "ValueError")
               (str "cannot convert float NaN to integer"))
  end.

(** A word: not empty, and without whitespace. *)
Definition word (w : pystr) : Prop :=
  w <> [] /\ forallb (fun c => negb (Re.is_space c)) w = true.

(** Only whitespace. *)
Definition blank (s : pystr) : Prop := forallb Re.is_space s = true.

End Str.

(* ================================================================= *)
(** ** utils.py, the token estimate *)

Module UtilsEstimate.

(** The [float] literal [1.3]. *)
Definition one_point_three : float := 0x1.4cccccccccccdp+0%float.

(** [count_tokens_estimate(text)] *)
Definition count_tokens_estimate (text : pystr) : result Z :=
  let words := length (Str.split text) in
  Str.int_of_float
    (PrimFloat.mul (ComponentEval.float_of_nat words) one_point_three).

(** The estimate for [words] words agrees with [13 * words // 10]. *)
Definition estimate_agrees (words : Z) : bool :=
  match Str.int_of_float
          (PrimFloat.mul (PrimFloat.of_uint63 (Uint63.of_Z words))
             one_point_three) with
  | Ok z => Z.eqb z (13 * words / 10)
  | Raise _ => false
  end.

(** It does for the [n] word counts from [words] on. *)
Fixpoint agrees_from (n : nat) (words : Z) : bool :=
  match n with
  | O => true
  | S n' => if estimate_agrees words then agrees_from n' (words + 1) else false
  end.

End UtilsEstimate.

(* ================================================================= *)
(** ** venv/reflection_lab.py *)

Module ReflectionLab.

(** [_OpenAIChatWrapper._normalize_model(model)] *)
Definition _normalize_model (model : pystr) : result pystr :=
  if startswith (str "openai:") model
  then ComponentEval.getitem (Str.split_once 58 model) 1
  else Ok model.

(** What [response.choices[0].message.content] finds: the content of a
    response of the expected shape, or an exception. *)
Inductive chat_response : Type :=
| Shaped (content : pyval)
| Unshaped.

Definition default_topic : pystr :=
  str "The importance of clear writing in modern communication".

(** The prompt of [generate_draft], an f-string over [topic_text]. *)
Definition draft_prompt (topic_text : pystr) : pystr :=
  str "Write a complete, well-structured essay about the following topic: "
    ++ topic_text ++ [10; 10]%N
    ++ str "The essay should include:" ++ [10%N]
    ++ str "- An introduction with a clear thesis statement" ++ [10%N]
    ++ str "- Body paragraphs with supporting arguments and examples" ++ [10%N]
    ++ str "- A conclusion that summarizes the main points" ++ [10; 10]%N
    ++ str "Please write a comprehensive essay of at least 4" ++ [8211%N]
    ++ str "5 paragraphs.".

Definition draft_fallback : pystr :=
  str "Draft (fallback): An essay discussing the topic with introduction, body, and conclusion.".

(** A chat message [{"role": role, "content": content}]. *)
Definition chat_message (role content : pystr) : pydict :=
  [ (str "role", PStr role); (str "content", PStr content) ].

Section Client.
Context {E : Env}.

(** [CLIENT.chat.completions.create(model=..., messages=..., temperature=...)]
    of whichever backend was found at import time. *)
Variable chat_create :
  pystr -> list pydict -> float -> world -> result chat_response * world.

(** [generate_draft(topic, model)], for a [topic] that is [None] or a
    [str]. *)
Definition generate_draft (topic : option pystr) (model : pystr) : M pyval :=
  let topic_text := match topic with
                    | Some t => Str.strip t
                    | None => []
                    end in
  let topic_text := match topic_text with
                    | [] => default_topic
                    | _ => topic_text
                    end in
  let prompt := draft_prompt topic_text in
  response <- outside None
                (chat_create model [chat_message (str "user") prompt]
                   PrimFloat.one) ;;
  match response with
  | Shaped content => ret content
  | Unshaped => ret (PStr draft_fallback)
  end.

End Client.

Section Wrapper.
Context {E : Env}.

(** [self._client.chat.completions.create(model=..., messages=...,
    temperature=...)] of the OpenAI SDK. *)
Variable openai_create :
  pystr -> list pydict -> float -> world -> result chat_response * world.

(** [messages[-1]["content"] if messages else ""], then added to a [str]. *)
Definition last_content (messages : list pydict) : M pystr :=
  match rev messages with
  | [] => ret []
  | last :: _ =>
      c <- dict_getitem last (str "content") ;;
      match c with
      | PStr s => ret s
      | _ => raise (TypeError (str "can only concatenate str (not "
                                 ++ [34%N] ++ Tools.type_name c ++ [34%N]
                                 ++ str ") to str"))
      end
  end.

(** [_OpenAIChatWrapper.create(model, messages, temperature)] *)
Definition wrapper_create (model : pystr) (messages : list pydict)
    (temperature : float) : M chat_response :=
  model <- (fun st => (_normalize_model model, st)) ;;
  try_except
    (outside None (openai_create model messages temperature))
    (fun e =>
       tail <- last_content messages ;;
       ret (Shaped (PStr (str "[FALLBACK due to OpenAI error: " ++ exn_str e
                            ++ str "]" ++ [10; 10]%N ++ tail)))).

End Wrapper.

End ReflectionLab.

(* ================================================================= *)
(** ** multi_agentic/campaign_pipeline.py, the graphic designer *)

Module Pipeline.

(** [re.search(r'\{.*\}', s, re.DOTALL)]: at a [{], the greedy [.*] runs
    to the end of the subject and gives back characters until a [}]
    follows; the search tries the positions from left to right. *)
Fixpoint upto_last_close (s : pystr) : option pystr :=
  match s with
  | [] => None
  | c :: s' =>
      match upto_last_close s' with
      | Some m => Some (c :: m)
      | None => if N.eqb c 125 then Some [c] else None
      end
  end.

Definition brace_match_at (s : pystr) : option pystr :=
  match s with
  | c :: s' =>
      if N.eqb c 123 then
        match upto_last_close s' with
        | Some m => Some (c :: m)
        | None => None
        end
      else None
  | [] => None
  end.

Fixpoint brace_search (s : pystr) : option pystr :=
  match brace_match_at s with
  | Some m => Some m
  | None =>
      match s with
      | [] => None
      | _ :: s' => brace_search s'
      end
  end.

(** The text handed to [json.loads]. *)
Definition json_candidate (response_text : pystr) : pystr :=
  match brace_search response_text with
  | Some m => m
  | None => response_text
  end.

Definition quote3 : pystr := [34; 34; 34]%N.

Definition system_prompt : pystr :=
  str "You are a creative director specializing in fashion advertising visuals."
    ++ [10; 10]%N
    ++ str "Your task is to design compelling campaign imagery for a sunglasses brand.".

Definition prompt (trend_insights caption_style : pystr) : pystr :=
  str "Based on these trend insights:" ++ [10; 10]%N
    ++ quote3 ++ trend_insights ++ quote3 ++ [10; 10]%N
    ++ str "Please create:" ++ [10%N]
    ++ str "1. A detailed image generation prompt for DALL-E that captures the essence of these trends visually"
    ++ [10%N]
    ++ str "2. A " ++ caption_style
    ++ str " caption that would accompany this image in the campaign"
    ++ [10; 10]%N
    ++ str "Format your response as JSON:" ++ [10%N]
    ++ str "{" ++ [10%N]
    ++ str "  " ++ [34%N] ++ str "image_prompt" ++ [34%N] ++ str ": " ++ [34%N]
    ++ str "detailed prompt for DALL-E..." ++ [34%N] ++ str "," ++ [10%N]
    ++ str "  " ++ [34%N] ++ str "caption" ++ [34%N] ++ str ": " ++ [34%N]
    ++ str "punchy campaign caption..." ++ [34%N] ++ [10%N]
    ++ str "}" ++ [10; 10]%N
    ++ str "Make the image prompt vivid, specific, and aligned with luxury sunglasses marketing.".

(** The exception of [v.attr] on a value without that attribute. *)
Definition AttributeError (v : pyval) (attr : pystr) : exn :=
  mk_exn (str "AttributeError")
    (str "'" ++ Tools.type_name v ++ str "' object has no attribute '"
       ++ attr ++ str "'").

Section Designer.
Context {E : Env}.

(** [try: m  except cls as e: handler(e)], for a class without
    subclasses. *)
Definition try_except_class {A} (cls : pystr) (m : M A) (handler : exn -> M A)
    : M A :=
  fun st =>
    match m st with
    | (Ok a, st') => (Ok a, st')
    | (Raise e, st') =>
        if str_eqb (exn_class e) cls then handler e st' else (Raise e, st')
    end.

(** [v.get(key, default)] *)
Definition get (v : pyval) (key : pystr) (default : pyval) : M pyval :=
  match v with
  | PDict d =>
      ret (match dict_get d key with
           | Some x => x
           | None => default
           end)
  | _ => raise (AttributeError v (str "get"))
  end.

(** Whether [import openai] succeeded, so that [openai_client] is set. *)
Variable openai_client : bool.

(** The statements of the [try] block up to its [return]: the DALL-E
    request, the download, and saving the image under a time-stamped
    name.  They give [(image_url, image_filename)], or raise. *)
Variable generate_and_save :
  pyval -> pystr -> world -> result (pystr * pystr) * world.

(** The [try] block that reads the prompt and the caption off the
    response text. *)
Definition parse_design (response_text : pystr) : M (pyval * pyval) :=
  try_except_class (str "JSONDecodeError")
    (design_data <- (fun st => (json_loads (json_candidate response_text), st)) ;;
     image_prompt <- get design_data (str "image_prompt") (PStr []) ;;
     caption <- get design_data (str "caption") (PStr []) ;;
     ret (image_prompt, caption))
    (fun _ => ret (PStr (slice_to response_text 500),
                   PStr (str "Experience the trend."))).

(** [graphic_designer_agent(trend_insights, model, caption_style, size)];
    the request has no [tools] argument, recorded as the empty list. *)
Definition graphic_designer_agent
    (trend_insights model caption_style size : pystr) : M pydict :=
  response <- create (mk_request model 2048 (Some system_prompt) []
                        [user_message (CStr (prompt trend_insights caption_style))]) ;;
  let response_text := collect_text (resp_content response) in
  parsed <- parse_design response_text ;;
  let (image_prompt, caption) := parsed in
  if openai_client then
    try_except
      (saved <- outside None (generate_and_save image_prompt size) ;;
       let (image_url, image_filename) := saved in
       ret [ (str "image_url", PStr image_url);
             (str "image_path", PStr image_filename);
             (str "prompt", image_prompt);
             (str "caption", caption) ])
      (fun e =>
         ret [ (str "error", PStr (exn_str e));
               (str "prompt", image_prompt);
               (str "caption", caption) ])
  else
    ret [ (str "error", PStr (str "OpenAI client not available"));
          (str "prompt", image_prompt);
          (str "caption", caption) ].

End Designer.

End Pipeline.

(* ================================================================= *)
(** ** multi_agentic/tools.py, the Tavily search *)

Module Tavily.

(** [for x in v]: the items that the loop sees. *)
Definition iterate (v : pyval) : result (list pyval) :=
  match v with
  | PList l => Ok l
  | PStr s => Ok (List.map (fun c => PStr [c]) s)
  | PDict d => Ok (List.map (fun kv => PStr (fst kv)) d)
  | _ => Raise (TypeError (str "'" ++ Tools.type_name v
                             ++ str "' object is not iterable"))
  end.

(** [v.get(key, default)] *)
Definition get (v : pyval) (key : pystr) (default : pyval) : result pyval :=
  match v with
  | PDict d =>
      Ok (match dict_get d key with
          | Some x => x
          | None => default
          end)
  | _ => Raise (Pipeline.AttributeError v (str "get"))
  end.

(** The dictionary appended for one result. *)
Definition entry (r : pyval) : result pyval :=
  match get r (str "title") (PStr []) with
  | Raise e => Raise e
  | Ok title =>
      match get r (str "content") (PStr []) with
      | Raise e => Raise e
      | Ok content =>
          match get r (str "url") (PStr []) with
          | Raise e => Raise e
          | Ok url =>
              Ok (PDict [ (str "title", title);
                          (str "content", content);
                          (str "url", url) ])
          end
      end
  end.

(** [for r in rs: results.append(entry(r))] *)
Fixpoint entries (rs : list pyval) : result (list pyval) :=
  match rs with
  | [] => Ok []
  | r :: rs' =>
      match entry r with
      | Raise e => Raise e
      | Ok x =>
          match entries rs' with
          | Raise e => Raise e
          | Ok xs => Ok (x :: xs)
          end
      end
  end.

(** The statements of the [try] block after the search. *)
Definition collect (response : pyval) (include_images : bool)
    : result (list pyval) :=
  match get response (str "results") (PList []) with
  | Raise e => Raise e
  | Ok rs =>
      match iterate rs with
      | Raise e => Raise e
      | Ok items =>
          match entries items with
          | Raise e => Raise e
          | Ok results =>
              if include_images then
                match get response (str "images") (PList []) with
                | Raise e => Raise e
                | Ok imgs =>
                    match iterate imgs with
                    | Raise e => Raise e
                    | Ok urls =>
                        Ok (results ++
                            List.map (fun u => PDict [(str "image_url", u)]) urls)
                    end
                end
              else Ok results
          end
      end
  end.

Section WithEnv.
Context {E : Env}.

(** [os.getenv(name)] *)
Variable getenv : pystr -> world -> option pystr.

(** [TavilyClient(api_key=..., api_base_url=...)] *)
Variable TavilyClient : pystr -> option pystr -> world -> result unit * world.

(** [client.search(query=..., max_results=..., include_images=...)], on
    the client made from the two settings. *)
Variable client_search :
  pystr -> option pystr -> pyval -> pyval -> bool ->
  world -> result pyval * world.

(** An outside read that cannot fail. *)
Definition read {A} (f : world -> A) : M A :=
  fun st => (Ok (f (st_world st)), st).

(** [tavily_search_tool(query, max_results, include_images)] *)
Definition tavily_search_tool (query max_results : pyval)
    (include_images : bool) : M pyval :=
  api_key <- read (getenv (str "TAVILY_API_KEY")) ;;
  match api_key with
  | None | Some [] =>
      raise (mk_exn (str "ValueError")
               (str "TAVILY_API_KEY not found in environment variables."))
  | Some key =>
      api_base_url <- read (getenv (str "DLAI_TAVILY_BASE_URL")) ;;
      _ <- outside None (TavilyClient key api_base_url) ;;
      try_except
        (response <- outside (Some (EvTool (str "client.search")))
                       (client_search key api_base_url query max_results
                          include_images) ;;
         results <- (fun st => (collect response include_images, st)) ;;
         ret (PList results))
        (fun e => ret (PList [PDict [(str "error", PStr (exn_str e))]]))
  end.

End WithEnv.

End Tavily.

(* ================================================================= *)
(** ** Conversations in which every request is answered *)

Module Shape.

(** Pairs of turns: an assistant turn, and a user turn with one tool
    result for each tool request of that assistant turn, in the order of
    the requests. *)
Fixpoint all_answered (turns : list message) : Prop :=
  match turns with
  | [] => True
  | a :: b :: rest =>
      (exists bs rs, a = assistant_message bs /\
                     b = user_message (CResults rs) /\
                     List.map result_id rs = List.map Some (request_ids bs)) /\
      all_answered rest
  | _ => False
  end.

(** A conversation that starts with the user turn [seed] and goes on
    with such pairs. *)
Definition seeded (seed : pystr) (ms : list message) : Prop :=
  exists turns, ms = user_message (CStr seed) :: turns /\ all_answered turns.

End Shape.

(* ================================================================= *)
(** ** The evaluation of the preferred domains, as the claim words it *)

Module SpecEval.

(** [host] is the domain part of the URL [u]: what stands between the
    [//] of the scheme and the next [/], or the end of the URL. *)
Definition domain_part (u host : pystr) : Prop :=
  exists sch rest,
    u = sch ++ host ++ rest /\ Spec.spec_scheme sch /\
    ~ In 47%N host /\ (rest = [] \/ exists r, rest = 47%N :: r).

(** [needle] occurs in [hay]. *)
Definition contains (needle hay : pystr) : Prop :=
  exists a b, hay = a ++ needle ++ b.

(** The domain part of [u] contains one of the preferred domains. *)
Definition preferred (TOP_DOMAINS : list pystr) (u : pystr) : Prop :=
  exists host td,
    domain_part u host /\ In td TOP_DOMAINS /\ contains td host.

(** [n] of the elements of [l] satisfy [P]. *)
Inductive counted {A : Type} (P : A -> Prop) : list A -> nat -> Prop :=
| counted_nil : counted P [] 0
| counted_yes x l n : P x -> counted P l n -> counted P (x :: l) (S n)
| counted_no x l n : ~ P x -> counted P l n -> counted P (x :: l) n.

(** The fraction [n / total] as a [float], for counts below [2^53]. *)
Definition fraction (n total : nat) : float :=
  PrimFloat.div (PrimFloat.of_uint63 (Uint63.of_Z (Z.of_nat n)))
                (PrimFloat.of_uint63 (Uint63.of_Z (Z.of_nat total))).

End SpecEval.

(* ================================================================= *)
(** ** The conversation that the loop of tools.py builds, pass by pass *)

Module Trace.

(** The first tool request of an answer: identifier, tool name, input. *)
Fixpoint first_request (bs : list block) : option (pystr * pystr * pydict) :=
  match bs with
  | [] => None
  | ToolUseBlock id name input :: _ => Some (id, name, input)
  | _ :: bs' => first_request bs'
  end.

(** One pass of the loop: the answer of the model, and the text that the
    requested tool gave (of no account when the answer requests none). *)
Record pass := mk_pass { answer : response; output : pystr }.

(** The turns that a pass adds to the conversation: the assistant turn
    with the answer and the batch with the one result, or nothing when
    the answer holds no tool request. *)
Definition pass_turns (p : pass) : list message :=
  match first_request (resp_content (answer p)) with
  | Some (id, _, _) =>
      [ assistant_message (resp_content (answer p));
        user_message (CResults [tool_result id (output p)]) ]
  | None => []
  end.

(** The conversation after the passes, from [conversation] on. *)
Fixpoint built (conversation : list message) (passes : list pass)
    : list message :=
  match passes with
  | [] => conversation
  | p :: passes' => built (conversation ++ pass_turns p) passes'
  end.

(** The requests of the passes: each carries the conversation built by
    the passes before it. *)
Fixpoint requests (model : pystr) (tools : list pyval)
    (conversation : list message) (passes : list pass) : list request :=
  match passes with
  | [] => []
  | p :: passes' =>
      mk_request model 4096 None tools conversation
        :: requests model tools (conversation ++ pass_turns p) passes'
  end.

(** The requests that a log records, in order. *)
Fixpoint model_requests (evs : list event) : list request :=
  match evs with
  | [] => []
  | EvModel req :: evs' => req :: model_requests evs'
  | EvTool _ :: evs' => model_requests evs'
  end.

Section WithEnv.
Context {E : Env}.

(** The pass [p] is one that the request [req] can have: the endpoint
    gave the answer to [req], the answer asks for tools, and the output
    is what the tool of its first request returned. *)
Definition happened (req : request) (p : pass) : Prop :=
  (exists w w', messages_create req w = (Ok (answer p), w')) /\
  stop_reason (answer p) = str "tool_use" /\
  match first_request (resp_content (answer p)) with
  | Some (_, name, input) =>
      exists st1 st2,
        Tools.execute_tool name input st1 = (Ok (output p), st2)
  | None => True
  end.

(** The last model call of the log was made with [req], was answered
    with [r], and nothing touched the outside since. *)
Definition last_call (req : request) (r : response) (st : state) : Prop :=
  exists log w,
    st_log st = log ++ [EvModel req] /\
    messages_create req w = (Ok r, st_world st).

End WithEnv.

End Trace.

(* ================================================================= *)
(** ** Facts about strings *)

Lemma str_eqb_eq (a b : pystr) : str_eqb a b = true <-> a = b.
Proof.
  revert b; induction a as [|x a IH]; intros [|y b]; simpl;
    try (split; [discriminate | congruence]); try tauto.
  rewrite andb_true_iff, N.eqb_eq, IH. split.
  - intros [-> ->]; reflexivity.
  - intros E; inversion E; auto.
Qed.

Lemma str_eqb_refl (a : pystr) : str_eqb a a = true.
Proof. apply str_eqb_eq; reflexivity. Qed.

Lemma len_app (a b : pystr) : len (a ++ b) = (len a + len b)%Z.
Proof. unfold len. rewrite length_app. lia. Qed.

Lemma slice_to_nonneg (s : pystr) (stop : Z) :
  (0 <= stop)%Z -> slice_to s stop = firstn (Z.to_nat stop) s.
Proof.
  intros H. unfold slice_to.
  destruct (Z.ltb_spec stop 0); [lia | reflexivity].
Qed.

Lemma len_firstn_le (s : pystr) (n : nat) : (len (firstn n s) <= Z.of_nat n)%Z.
Proof. unfold len. pose proof (firstn_le_length n s). lia. Qed.

(* ================================================================= *)
(** ** truncate_text *)

Example truncate_short :
  Utils.truncate_text (str "hello") 10 = str "hello".
Proof. reflexivity. Qed.

Example truncate_long :
  Utils.truncate_text (str "hello world") 5 = str "hello...".
Proof. reflexivity. Qed.

(** C10, as stated, fails for a negative [max_length]: the slice
    [text[:-1]] drops the last character instead of keeping none, and the
    result is longer than [max_length + 3].  (And the first case is not
    the only one that gives [text] back: a text that ends in three dots
    and is three characters too long is returned by the second.) *)
Lemma truncate_text_negative_length :
  (Utils.truncate_text (str "hello") (-1) = str "hell..." /\
   ~ (len (Utils.truncate_text (str "hello") (-1)) <= -1 + 3)%Z) /\
  (Utils.truncate_text (str "ab...") 2 = str "ab..." /\
   ~ (len (str "ab...") <= 2)%Z).
Proof.
  repeat split; vm_compute; intros H; apply H; reflexivity.
Qed.

(** C10 (amended): for every [text] and every [max_length >= 0],
    [truncate_text] returns [text] when [len(text) <= max_length], and
    otherwise the first [max_length] characters of [text] followed by
    ["..."]; the length of the result never exceeds [max_length + 3]. *)
Theorem truncate_text_spec (text : pystr) (max_length : Z) :
  (0 <= max_length)%Z ->
  ((len text <= max_length)%Z -> Utils.truncate_text text max_length = text) /\
  ((max_length < len text)%Z ->
     Utils.truncate_text text max_length
       = firstn (Z.to_nat max_length) text ++ str "...") /\
  (len (Utils.truncate_text text max_length) <= max_length + 3)%Z.
Proof.
  intros Hm. unfold Utils.truncate_text.
  destruct (Z.leb_spec (len text) max_length) as [Hle|Hgt].
  - repeat split; [lia | lia].
  - rewrite slice_to_nonneg by exact Hm.
    repeat split; [lia | ].
    rewrite len_app. pose proof (len_firstn_le text (Z.to_nat max_length)).
    change (len (str "...")) with 3%Z. lia.
Qed.

Lemma truncate_text_spec_witness :
  (0 <= 5)%Z /\
  Utils.truncate_text (str "hello world") 5 = str "hello...".
Proof.
  split; [lia |].
  destruct (@truncate_text_spec (str "hello world") 5 ltac:(lia)) as (_ & H & _).
  rewrite H by (vm_compute; reflexivity). reflexivity.
Defined.
(* ================================================================= *)
(** ** Facts about the monad and the ghost log *)

Section MonadFacts.
Context {E : Env}.

Lemma bind_ok {A B} (m : M A) (k : A -> M B) st a st' :
  m st = (Ok a, st') -> bind m k st = k a st'.
Proof. intros H. unfold bind. rewrite H. reflexivity. Qed.

Lemma bind_raise {A B} (m : M A) (k : A -> M B) st e st' :
  m st = (Raise e, st') -> bind m k st = (Raise e, st').
Proof. intros H. unfold bind. rewrite H. reflexivity. Qed.

Lemma try_except_ok {A} (m : M A) h st a st' :
  m st = (Ok a, st') -> try_except m h st = (Ok a, st').
Proof. intros H. unfold try_except. rewrite H. reflexivity. Qed.

Lemma try_except_raise {A} (m : M A) h st e st' :
  m st = (Raise e, st') -> try_except m h st = h e st'.
Proof. intros H. unfold try_except. rewrite H. reflexivity. Qed.

Lemma model_calls_app (l1 l2 : list event) :
  model_calls (l1 ++ l2) = model_calls l1 + model_calls l2.
Proof. unfold model_calls. rewrite filter_app, length_app. reflexivity. Qed.

Lemma model_calls_tool (log : list event) (n : pystr) :
  model_calls (log ++ [EvTool n]) = model_calls log.
Proof. unfold model_calls. rewrite filter_app, length_app. simpl. lia. Qed.

Lemma model_calls_model (log : list event) (req : request) :
  model_calls (log ++ [EvModel req]) = S (model_calls log).
Proof. unfold model_calls. rewrite filter_app, length_app. simpl. lia. Qed.

Lemma create_run (req : request) st r w :
  messages_create req (st_world st) = (r, w) ->
  create req st = (r, mk_state w (st_log st ++ [EvModel req])).
Proof. intros H. unfold create, outside. rewrite H. reflexivity. Qed.

(** *** Computations that call no model *)

Lemma nmc_ret {A} (a : A) : Spec.no_model_call (ret a).
Proof. intros st r st' H. inversion H; reflexivity. Qed.

Lemma nmc_raise {A} (e : exn) : Spec.no_model_call (@raise E A e).
Proof. intros st r st' H. inversion H; reflexivity. Qed.

Lemma nmc_bind {A B} (m : M A) (k : A -> M B) :
  Spec.no_model_call m -> (forall a, Spec.no_model_call (k a)) ->
  Spec.no_model_call (bind m k).
Proof.
  intros Hm Hk st r st' H. unfold bind in H.
  destruct (m st) as [[a|e] st1] eqn:Em.
  - rewrite (Hk a _ _ _ H). exact (Hm _ _ _ Em).
  - inversion H; subst. exact (Hm _ _ _ Em).
Qed.

Lemma nmc_try_except {A} (m : M A) h :
  Spec.no_model_call m -> (forall e, Spec.no_model_call (h e)) ->
  Spec.no_model_call (try_except m h).
Proof.
  intros Hm Hh st r st' H. unfold try_except in H.
  destruct (m st) as [[a|e] st1] eqn:Em.
  - inversion H; subst. exact (Hm _ _ _ Em).
  - rewrite (Hh e _ _ _ H). exact (Hm _ _ _ Em).
Qed.

Lemma nmc_outside {A} (act : world -> result A * world) :
  Spec.no_model_call (outside None act).
Proof.
  intros st r st' H. unfold outside in H.
  destruct (act (st_world st)); inversion H; reflexivity.
Qed.

Lemma nmc_enter (name : string) : Spec.no_model_call (Tools.enter name).
Proof.
  intros st r st' H. unfold Tools.enter, outside in H.
  inversion H; subst; simpl. apply model_calls_tool.
Qed.

Lemma nmc_result {A} (r : result A) :
  Spec.no_model_call (fun st : state => (r, st)).
Proof. intros st r0 st' H. inversion H; reflexivity. Qed.

Lemma nmc_dict_getitem d k : Spec.no_model_call (dict_getitem d k).
Proof.
  unfold dict_getitem. destruct (dict_get d k); [apply nmc_ret | apply nmc_raise].
Qed.

End MonadFacts.

Create HintDb nmc.
#[local] Hint Resolve nmc_ret nmc_raise nmc_outside nmc_enter
  nmc_dict_getitem : nmc.

Ltac nmc :=
  repeat first
    [ apply nmc_bind; [| intros ? ]
    | apply nmc_try_except; [| intros ? ]
    | solve [ auto with nmc ]
    | match goal with
      | |- Spec.no_model_call (if ?c then _ else _) => destruct c
      | |- Spec.no_model_call (match ?x with _ => _ end) => destruct x
      end ].

Section ToolFacts.
Context {E : Env}.

Lemma nmc_execute_tool name input :
  Spec.no_model_call (Tools.execute_tool name input).
Proof.
  unfold Tools.execute_tool, Tools.get_current_time,
    Tools.get_weather_from_ip, Tools.write_txt_file, Tools.generate_qr_code.
  nmc.
Qed.

Lemma nmc_handle_tool_call_claude name input :
  Spec.no_model_call (MultiTools.handle_tool_call_claude name input).
Proof.
  unfold MultiTools.handle_tool_call_claude, MultiTools.call_tavily_search_tool,
    MultiTools.call_product_catalog_tool.
  destruct (str_eqb name (str "tavily_search_tool")).
  - apply nmc_bind; [apply nmc_result | intros bound]. nmc.
  - nmc.
Qed.

Lemma nmc_process_tool_call name input :
  Spec.no_model_call (ComponentEval.process_tool_call name input).
Proof. unfold ComponentEval.process_tool_call. nmc. Qed.

(** [process_tool_call] returns a string whatever the tool does. *)
Lemma process_tool_call_returns name input :
  Spec.returns (ComponentEval.process_tool_call name input).
Proof.
  intros st.
  destruct (ComponentEval.process_tool_call name input st) as [r st'] eqn:H.
  pose proof (nmc_process_tool_call name input _ H) as Hc.
  unfold ComponentEval.process_tool_call, try_except in H.
  match type of H with
  | context [match ?m st with _ => _ end] =>
      destruct (m st) as [[a|e] st1]
  end; inversion H; subst; eauto.
Qed.

End ToolFacts.

(* ================================================================= *)
(** ** Loops that run until their bound *)

Section WhileFacts.
Context {E : Env} {S R : Type}.
Variable cond : S -> bool.
Variable body : S -> M (S + R).

(** [Inv n s st]: the loop is at [s] in [st], with [n] passes to go. *)
Variable Inv : nat -> S -> state -> Prop.
Hypothesis Inv_stop : forall s st, Inv 0 s st -> cond s = false.
Hypothesis Inv_step : forall n s st, Inv (Datatypes.S n) s st ->
  cond s = true /\
  exists s' st', body s st = (Ok (inl s'), st') /\ Inv n s' st'.

Lemma while_loop_runs n : forall s st, Inv n s st ->
  forall extra, exists s' st',
    while_loop (n + extra) cond body s st = (Ok (Some (inl s')), st') /\
    Inv 0 s' st'.
Proof.
  induction n as [|n IH]; intros s st HI extra.
  - exists s, st. split; [| exact HI].
    pose proof (Inv_stop HI) as Hc.
    destruct extra; simpl; rewrite Hc; reflexivity.
  - destruct (Inv_step HI) as (Hc & s1 & st1 & Hb & HI1).
    destruct (IH _ _ HI1 extra) as (s' & st' & Hw & HI').
    exists s', st'. split; [| exact HI'].
    simpl. rewrite Hc. erewrite bind_ok by exact Hb. exact Hw.
Qed.

End WhileFacts.
(* ================================================================= *)
(** ** The loops under a model that never stops asking for tools *)

Lemma result_id_tool_result (id c : pystr) :
  result_id (tool_result id c) = Some id.
Proof. reflexivity. Qed.

Lemma is_error_tool_result (id c : pystr) :
  is_error (tool_result id c) = false.
Proof. reflexivity. Qed.

Lemma result_content_tool_result (id c : pystr) :
  result_content (tool_result id c) = Some c.
Proof. reflexivity. Qed.

Section ToolsLoop.
Context {E : Env}.
Variable tools_list : list pyval.
Variable model : pystr.
Hypothesis insists : Spec.always_tool_use_and Spec.first_tool_returns.

Lemma tools_loop_body_continues (s : Tools.loop_state) (st : state) :
  exists s' st',
    Tools.loop_body tools_list model s st = (Ok (inl s'), st') /\
    Tools.iteration s' = (Tools.iteration s + 1)%Z /\
    model_calls (st_log st') = S (model_calls (st_log st)) /\
    exists rest, Tools.messages s' = Tools.messages s ++ rest.
Proof.
  unfold Tools.loop_body.
  destruct (insists (mk_request model 4096 None tools_list (Tools.messages s))
              (st_world st)) as (r & w' & Hc & Hs & Ht).
  erewrite bind_ok by (apply create_run; exact Hc).
  rewrite Hs, str_eqb_refl.
  unfold Spec.first_tool_returns in Ht.
  destruct (Tools.first_tool_use (resp_content r)) as [[t | id n i |] |].
  - eexists _, _. split; [reflexivity |]. simpl.
    rewrite model_calls_model. repeat split. exists []. now rewrite app_nil_r.
  - destruct (Ht (mk_state w' (st_log st ++
                [EvModel (mk_request model 4096 None tools_list (Tools.messages s))])))
      as (v & st2 & Hex & Hn).
    erewrite bind_ok by exact Hex.
    eexists _, _. split; [reflexivity |]. simpl.
    rewrite Hn. simpl. rewrite model_calls_model. repeat split.
    rewrite <- app_assoc. eexists; reflexivity.
  - eexists _, _. split; [reflexivity |]. simpl.
    rewrite model_calls_model. repeat split. exists []. now rewrite app_nil_r.
  - eexists _, _. split; [reflexivity |]. simpl.
    rewrite model_calls_model. repeat split. exists []. now rewrite app_nil_r.
Qed.

Lemma call_claude_exhausts (prompt : pystr) (k : Z) (st : state) :
  (0 <= k)%Z ->
  exists rest st',
    Tools.call_claude_with_tools prompt tools_list model k st
      = (Ok (Some (str "Max iterations reached",
                   user_message (CStr prompt) :: rest)), st') /\
    model_calls (st_log st') = model_calls (st_log st) + Z.to_nat k.
Proof.
  intros Hk. unfold Tools.call_claude_with_tools.
  set (Inv := fun (n : nat) (s : Tools.loop_state) (st1 : state) =>
    Tools.iteration s = (k - Z.of_nat n)%Z /\
    model_calls (st_log st1) + n = model_calls (st_log st) + Z.to_nat k /\
    exists rest, Tools.messages s = user_message (CStr prompt) :: rest).
  assert (Hrun := @while_loop_runs E _ (pystr * list message)
    (fun s => (Tools.iteration s <? k)%Z) (Tools.loop_body tools_list model) Inv).
  destruct (Hrun) with (n := Z.to_nat k) (extra := 0)
      (s := Tools.mk_loop 0 [user_message (CStr prompt)]) (st := st)
    as (s' & st' & Hw & Hi & Hn & rest & Hm).
  - intros s st1 (Hi & _). rewrite Hi. apply Z.ltb_ge. lia.
  - intros n s st1 (Hi & Hn & rest & Hm). split.
    + rewrite Hi. apply Z.ltb_lt. lia.
    + destruct (tools_loop_body_continues s st1)
        as (s1 & st2 & Hb & Hi1 & Hn1 & rest1 & Hm1).
      exists s1, st2. split; [exact Hb |]. unfold Inv. repeat split.
      * lia.
      * lia.
      * rewrite Hm1, Hm. eexists; reflexivity.
  - unfold Inv; cbn [Tools.iteration Tools.messages].
    repeat split; try lia; eexists; reflexivity.
  - rewrite Nat.add_0_r in Hw. erewrite bind_ok by exact Hw.
    exists rest, st'. rewrite Hm. split; [reflexivity | lia].
Qed.

End ToolsLoop.

Section ResearchLoop.
Context {E : Env}.
Variable model : pystr.
Hypothesis insists : Spec.always_tool_use.

Lemma research_run_tools_returns (bs : list block) (st : state) :
  exists rs st',
    ComponentEval.run_tools bs st = (Ok rs, st') /\
    model_calls (st_log st') = model_calls (st_log st) /\
    List.map result_id rs = List.map Some (request_ids bs).
Proof.
  revert st. induction bs as [|b bs IH]; intros st.
  - exists [], st. repeat split.
  - destruct b as [t | id n i |]; simpl.
    + apply IH.
    + destruct (process_tool_call_returns n i st) as (c & st1 & Hp & Hn1).
      destruct (IH st1) as (rs & st2 & Hr & Hn2 & Hids).
      erewrite bind_ok by exact Hp. erewrite bind_ok by exact Hr.
      eexists _, _. split; [reflexivity |]. split; [congruence |].
      simpl. rewrite Hids. reflexivity.
    + apply IH.
Qed.

Lemma research_loop_body_continues (s : ComponentEval.loop_state) (st : state) :
  exists s' st',
    ComponentEval.loop_body model s st = (Ok (inl s'), st') /\
    ComponentEval.iteration s' = (ComponentEval.iteration s + 1)%Z /\
    model_calls (st_log st') = S (model_calls (st_log st)) /\
    stop_reason (ComponentEval.response s') = str "tool_use" /\
    Spec.last_answer (ComponentEval.response s') st'.
Proof.
  unfold ComponentEval.loop_body.
  destruct (research_run_tools_returns
              (resp_content (ComponentEval.response s)) st)
    as (rs & st1 & Hr & Hn1 & _).
  erewrite bind_ok by exact Hr.
  match goal with
  | |- context [create ?req] =>
      destruct (insists req (st_world st1)) as (r & w' & Hc & Hs);
      erewrite bind_ok by (apply create_run; exact Hc)
  end.
  eexists _, _. split; [reflexivity |]. simpl.
  rewrite model_calls_model, Hn1. repeat split; [exact Hs |].
  eexists _, _, _. split; [reflexivity | exact Hc].
Qed.

Lemma find_references_exhausts (task : pystr) (return_messages : bool)
    (st : state) :
  exists r msgs st',
    ComponentEval.find_references task model return_messages st
      = (Ok (Some (if return_messages
                   then RetPair (collect_text (resp_content r)) msgs
                   else RetText (collect_text (resp_content r)))), st') /\
    model_calls (st_log st') = model_calls (st_log st) + 6 /\
    stop_reason r = str "tool_use" /\
    Spec.last_answer r st'.
Proof.
  unfold ComponentEval.find_references.
  destruct (now_strftime (str "%Y-%m-%d") (st_world st)) as [today w0] eqn:Hnow.
  erewrite bind_ok
    by (unfold outside; rewrite Hnow; reflexivity).
  set (st0 := mk_state w0 (st_log st)).
  set (seed := [user_message (CStr (ComponentEval.research_prompt task today))]).
  destruct (insists (ComponentEval.research_request model seed) (st_world st0))
    as (r0 & w1 & Hc & Hs).
  set (st1 := mk_state w1 (st_log st0 ++
                 [EvModel (ComponentEval.research_request model seed)])).
  set (Inv := fun (n : nat) (s : ComponentEval.loop_state) (st2 : state) =>
    ComponentEval.iteration s = (5 - Z.of_nat n)%Z /\
    model_calls (st_log st2) + n = model_calls (st_log st) + 6 /\
    stop_reason (ComponentEval.response s) = str "tool_use" /\
    Spec.last_answer (ComponentEval.response s) st2).
  assert (Hrun := @while_loop_runs E _ Empty_set
    (fun s => str_eqb (stop_reason (ComponentEval.response s)) (str "tool_use")
              && (ComponentEval.iteration s <? ComponentEval.max_iterations)%Z)
    (ComponentEval.loop_body model) Inv).
  destruct (Hrun) with (n := 5) (extra := 0)
      (s := ComponentEval.mk_loop r0 0 seed) (st := st1)
    as (s' & st' & Hw & Hi & Hn & Hs' & Hl).
  - intros s st2 (Hi & _). rewrite Hi. apply andb_false_iff. right.
    apply Z.ltb_ge. unfold ComponentEval.max_iterations. lia.
  - intros n s st2 (Hi & Hn & Hs2 & _). split.
    + rewrite Hs2, str_eqb_refl. simpl. apply Z.ltb_lt.
      unfold ComponentEval.max_iterations. lia.
    + destruct (research_loop_body_continues s st2)
        as (s1 & st3 & Hb & Hi1 & Hn1 & Hs1 & Hl1).
      exists s1, st3. split; [exact Hb |]. unfold Inv. repeat split;
        [lia | lia | exact Hs1 | exact Hl1].
  - unfold Inv; simpl. rewrite model_calls_model. repeat split;
      [lia | exact Hs |].
    eexists _, _, _. split; [reflexivity | exact Hc].
  - exists (ComponentEval.response s'), (ComponentEval.messages s'), st'.
    split; [| repeat split; [lia | exact Hs' | exact Hl]].
    apply try_except_ok.
    erewrite bind_ok by (apply create_run; exact Hc).
    change (Z.to_nat ComponentEval.max_iterations) with (5 + 0).
    erewrite bind_ok by exact Hw. reflexivity.
Qed.

End ResearchLoop.

Section CampaignLoop.
Context {E : Env}.
Variable model : pystr.
Variable return_messages : bool.
Hypothesis insists : Spec.always_tool_use_and Spec.all_tools_return.

Lemma campaign_run_tools_ids (bs : list block) (st : state) rs st' :
  Campaign.run_tools bs st = (Ok rs, st') ->
  List.map result_id rs = List.map Some (request_ids bs).
Proof.
  revert st rs. induction bs as [|b bs IH]; intros st rs H.
  - inversion H; reflexivity.
  - destruct b as [t | id n i |]; simpl in H.
    + eapply IH; exact H.
    + unfold bind in H.
      destruct (MultiTools.handle_tool_call_claude n i st) as [[v|e] st1];
        [| discriminate].
      destruct (Campaign.run_tools bs st1) as [[rs1|e] st2] eqn:Hr;
        [| discriminate].
      inversion H; subst. simpl. f_equal. eapply IH; exact Hr.
    + eapply IH; exact H.
Qed.

Lemma campaign_run_tools_returns (bs : list block) (st : state) :
  (forall id name input, In (ToolUseBlock id name input) bs ->
     Spec.returns (MultiTools.handle_tool_call_claude name input)) ->
  exists rs st',
    Campaign.run_tools bs st = (Ok rs, st') /\
    model_calls (st_log st') = model_calls (st_log st).
Proof.
  revert st. induction bs as [|b bs IH]; intros st Hok.
  - exists [], st. split; reflexivity.
  - assert (Hok' : forall id name input, In (ToolUseBlock id name input) bs ->
                Spec.returns (MultiTools.handle_tool_call_claude name input))
      by (intros; eapply Hok; right; eassumption).
    destruct b as [t | id n i |]; simpl.
    + apply IH; exact Hok'.
    + destruct (Hok id n i (or_introl eq_refl) st) as (v & st1 & Hp & Hn1).
      destruct (IH st1 Hok') as (rs & st2 & Hr & Hn2).
      erewrite bind_ok by exact Hp. erewrite bind_ok by exact Hr.
      eexists _, _. split; [reflexivity | congruence].
    + apply IH; exact Hok'.
Qed.

Lemma campaign_loop_body_continues (s : Campaign.loop_state) (st : state) :
  exists s' st',
    Campaign.loop_body model return_messages s st = (Ok (inl s'), st') /\
    Campaign.iteration s' = (Campaign.iteration s + 1)%Z /\
    model_calls (st_log st') = S (model_calls (st_log st)).
Proof.
  unfold Campaign.loop_body.
  match goal with
  | |- context [create ?req] =>
      destruct (insists req (st_world st)) as (r & w' & Hc & Hs & Ht);
      erewrite bind_ok by (apply create_run; exact Hc)
  end.
  rewrite Hs, str_eqb_refl.
  match goal with
  | |- context [Campaign.run_tools _] =>
      match goal with
      | |- context [bind _ _ ?st1] =>
          destruct (campaign_run_tools_returns (resp_content r) st1 Ht)
            as (rs & st2 & Hr & Hn)
      end
  end.
  erewrite bind_ok by exact Hr.
  eexists _, _. split; [reflexivity |]. simpl.
  rewrite Hn. simpl. rewrite model_calls_model. split; reflexivity.
Qed.

Lemma market_research_exhausts (st : state) :
  exists st',
    Campaign.market_research_agent model return_messages st
      = (Ok (Some (RetText Campaign.max_iterations_message)), st') /\
    model_calls (st_log st') = model_calls (st_log st) + 10.
Proof.
  unfold Campaign.market_research_agent.
  destruct (now_strftime (str "%Y-%m-%d") (st_world st)) as [today w0] eqn:Hnow.
  erewrite bind_ok
    by (unfold outside; rewrite Hnow; reflexivity).
  set (st0 := mk_state w0 (st_log st)).
  set (Inv := fun (n : nat) (s : Campaign.loop_state) (st2 : state) =>
    Campaign.iteration s = (10 - Z.of_nat n)%Z /\
    model_calls (st_log st2) + n = model_calls (st_log st) + 10).
  assert (Hrun := @while_loop_runs E _ agent_return
    (fun s => (Campaign.iteration s <? Campaign.max_iterations)%Z)
    (Campaign.loop_body model return_messages) Inv).
  destruct (Hrun) with (n := 10) (extra := 0)
      (s := Campaign.mk_loop 0
              [user_message (CStr (Campaign.research_prompt today))])
      (st := st0)
    as (s' & st' & Hw & Hi & Hn).
  - intros s st2 (Hi & _). rewrite Hi. apply Z.ltb_ge.
    unfold Campaign.max_iterations. lia.
  - intros n s st2 (Hi & Hn). split.
    + rewrite Hi. apply Z.ltb_lt. unfold Campaign.max_iterations. lia.
    + destruct (campaign_loop_body_continues s st2)
        as (s1 & st3 & Hb & Hi1 & Hn1).
      exists s1, st3. split; [exact Hb |]. unfold Inv. split; lia.
  - unfold Inv; simpl. split; lia.
  - exists st'. split; [| lia].
    change (Z.to_nat Campaign.max_iterations) with (10 + 0).
    erewrite bind_ok by exact Hw. reflexivity.
Qed.

End CampaignLoop.
(* ================================================================= *)
(** ** The fuel of the loops is enough

    The three agent functions give their loop as much fuel as the bound
    on [iteration] allows passes; whatever the model and the tools do,
    none of them stops for want of fuel. *)

Section EnoughFuel.
Context {E : Env} {S R : Type}.
Variable cond : S -> bool.
Variable body : S -> M (S + R).
Variable measure : S -> nat.
Hypothesis measure_pos : forall s, cond s = true -> 0 < measure s.
Hypothesis measure_decreases : forall s st s' st',
  cond s = true -> body s st = (Ok (inl s'), st') -> measure s' < measure s.

Lemma while_loop_enough_fuel fuel : forall s st,
  measure s <= fuel -> fst (while_loop fuel cond body s st) <> Ok None.
Proof.
  induction fuel as [|fuel IH]; intros s st Hm; simpl.
  - destruct (cond s) eqn:Hc; [| discriminate].
    apply measure_pos in Hc. lia.
  - destruct (cond s) eqn:Hc; [| discriminate].
    unfold bind. destruct (body s st) as [[[s'|r]|e] st'] eqn:Hb;
      [| discriminate | discriminate].
    apply IH. pose proof (measure_decreases Hc Hb). lia.
Qed.

End EnoughFuel.

Lemma tools_loop_body_counts {E : Env} tools_list model s st s' st' :
  Tools.loop_body tools_list model s st = (Ok (inl s'), st') ->
  Tools.iteration s' = (Tools.iteration s + 1)%Z.
Proof.
  unfold Tools.loop_body, bind.
  destruct (create _ st) as [[r|e] st1]; [| discriminate].
  destruct (str_eqb (stop_reason r) (str "tool_use")); [| discriminate].
  destruct (Tools.first_tool_use (resp_content r)) as [[t | id n i |] |];
    try (intros H; inversion H; reflexivity).
  destruct (Tools.execute_tool n i st1) as [[c|e] st2]; [| discriminate].
  intros H; inversion H; reflexivity.
Qed.

Theorem call_claude_with_tools_total {E : Env} prompt tools_list model k st :
  fst (Tools.call_claude_with_tools prompt tools_list model k st) <> Ok None.
Proof.
  unfold Tools.call_claude_with_tools, bind.
  match goal with
  | |- context [while_loop ?f ?c ?b ?init st] =>
      pose proof (@while_loop_enough_fuel E _ _ c b
                    (fun s => Z.to_nat (k - Tools.iteration s))) as Hfuel;
      specialize (Hfuel ltac:(intros s0 H; cbv beta in *;
                              apply Z.ltb_lt in H; lia));
      destruct (while_loop f c b init st) as [[[[s'|r]|]|e] st'] eqn:Hw;
      try discriminate
  end.
  exfalso. eapply Hfuel; [| | rewrite Hw; reflexivity].
  - intros s0 st0 s1 st1 Hc Hb. cbv beta in *. apply Z.ltb_lt in Hc.
    apply tools_loop_body_counts in Hb. lia.
  - simpl. lia.
Qed.

Lemma research_loop_body_counts {E : Env} model s st s' st' :
  ComponentEval.loop_body model s st = (Ok (inl s'), st') ->
  ComponentEval.iteration s' = (ComponentEval.iteration s + 1)%Z.
Proof.
  unfold ComponentEval.loop_body, bind.
  destruct (ComponentEval.run_tools _ st) as [[rs|e] st1]; [| discriminate].
  destruct (create _ st1) as [[r|e] st2]; [| discriminate].
  intros H; inversion H; reflexivity.
Qed.

Theorem find_references_total {E : Env} task model return_messages st :
  fst (ComponentEval.find_references task model return_messages st) <> Ok None.
Proof.
  unfold ComponentEval.find_references, bind at 1.
  destruct (outside None _ st) as [[today|e] st0]; [| discriminate].
  unfold try_except, bind.
  destruct (create _ st0) as [[r0|e] st1]; [| discriminate].
  match goal with
  | |- context [while_loop ?f ?c ?b ?init st1] =>
      pose proof (@while_loop_enough_fuel E _ _ c b
                    (fun s => Z.to_nat (5 - ComponentEval.iteration s))) as Hfuel;
      specialize (Hfuel ltac:(intros s0 H; cbv beta in *;
                              apply andb_true_iff in H;
                              destruct H as [_ H]; apply Z.ltb_lt in H;
                              unfold ComponentEval.max_iterations in H; lia));
      destruct (while_loop f c b init st1) as [[[[s'|r]|]|e] st'] eqn:Hw;
      try discriminate
  end.
  - destruct r.
  - exfalso. eapply Hfuel; [| | rewrite Hw; reflexivity].
    + intros s0 st2 s1 st3 Hc Hb. cbv beta in *. apply andb_true_iff in Hc.
      destruct Hc as [_ Hc]. apply Z.ltb_lt in Hc.
      unfold ComponentEval.max_iterations in Hc.
      apply research_loop_body_counts in Hb. lia.
    + simpl. lia.
Qed.

Lemma campaign_loop_body_counts {E : Env} model rm s st s' st' :
  Campaign.loop_body model rm s st = (Ok (inl s'), st') ->
  Campaign.iteration s' = (Campaign.iteration s + 1)%Z.
Proof.
  unfold Campaign.loop_body, bind.
  destruct (create _ st) as [[r|e] st1]; [| discriminate].
  destruct (str_eqb (stop_reason r) (str "tool_use")); [| discriminate].
  destruct (Campaign.run_tools _ st1) as [[rs|e] st2]; [| discriminate].
  intros H; inversion H; reflexivity.
Qed.

Theorem market_research_agent_total {E : Env} model return_messages st :
  fst (Campaign.market_research_agent model return_messages st) <> Ok None.
Proof.
  unfold Campaign.market_research_agent, bind at 1.
  destruct (outside None _ st) as [[today|e] st0]; [| discriminate].
  unfold bind.
  match goal with
  | |- context [while_loop ?f ?c ?b ?init st0] =>
      pose proof (@while_loop_enough_fuel E _ _ c b
                    (fun s => Z.to_nat (10 - Campaign.iteration s))) as Hfuel;
      specialize (Hfuel ltac:(intros s0 H; cbv beta in *;
                              apply Z.ltb_lt in H;
                              unfold Campaign.max_iterations in H; lia));
      destruct (while_loop f c b init st0) as [[[[s'|r]|]|e] st'] eqn:Hw;
      try discriminate
  end.
  exfalso. eapply Hfuel; [| | rewrite Hw; reflexivity].
  - intros s0 st2 s1 st3 Hc Hb. cbv beta in *. apply Z.ltb_lt in Hc.
    unfold Campaign.max_iterations in Hc.
    apply campaign_loop_body_counts in Hb. lia.
  - simpl. lia.
Qed.
(* ================================================================= *)
(** ** The bounded loops: termination and what comes back *)

Lemma always_tool_use_and_weaken {E : Env} (P Q : response -> Prop) :
  (forall r, P r -> Q r) ->
  Spec.always_tool_use_and P -> Spec.always_tool_use_and Q.
Proof.
  intros HPQ H req w. destruct (H req w) as (r & w' & Hc & Hs & HP).
  exists r, w'. auto.
Qed.

Lemma always_tool_use_and_forget {E : Env} (P : response -> Prop) :
  Spec.always_tool_use_and P -> Spec.always_tool_use.
Proof.
  intros H req w. destruct (H req w) as (r & w' & Hc & Hs & _).
  exists r, w'. auto.
Qed.

(** A model that keeps asking for the current time, used to run the
    theorems below. *)
Lemma script_insists_time :
  @Spec.always_tool_use_and Script.time_world
    (@Spec.first_tool_returns Script.time_world).
Proof.
  intros req w. eexists _, _. split; [reflexivity |]. split; [reflexivity |].
  intros st. eexists _, _. split; [reflexivity |].
  simpl. apply model_calls_tool.
Defined.

(** A model that keeps asking for a tool that no script knows. *)
Lemma script_insists_bogus :
  @Spec.always_tool_use_and Script.bogus_world
    (fun r => @Spec.first_tool_returns Script.bogus_world r /\
              @Spec.all_tools_return Script.bogus_world r).
Proof.
  intros req w. eexists _, _. split; [reflexivity |]. split; [reflexivity |].
  split.
  - intros st. eexists _, _. split; reflexivity.
  - intros id name input [H | []]. inversion H; subst.
    intros st. eexists _, _. split; reflexivity.
Defined.






(* ================================================================= *)
(** ** A direct answer *)

(** C6, as stated, fails: the conversation that comes back with a direct
    answer holds the seeded user turn only; its length is 1, not 2. *)
Lemma scenario_A_one_turn :
  let E := Script.answer_world in
  let run := @Tools.call_claude_with_tools E (str "what is 2+2") []
               Script.model_name 5 (Script.start E 0) in
  fst run = Ok (Some (str "4", [user_message (CStr (str "what is 2+2"))])) /\
  (forall text conversation,
     fst run = Ok (Some (text, conversation)) -> length conversation <> 2).
Proof.
  vm_compute. split; [reflexivity |].
  intros text conversation H. inversion H. discriminate.
Qed.

(** C6 (amended): if the first answer of the model is final (its
    [stop_reason] is not ["tool_use"]) and [max_iterations > 0], then
    [call_claude_with_tools] returns the text of that answer -- ["4"] when
    the answer is the one text block ["4"] -- together with a conversation
    of one turn, the seeded user turn; the final assistant turn is not
    appended.  One model call is made. *)
Theorem direct_completion {E : Env} (tools_list : list pyval)
    (model prompt : pystr) (k : Z) (st : state) (r : response) (w' : world) :
  (0 < k)%Z ->
  messages_create
    (mk_request model 4096 None tools_list [user_message (CStr prompt)])
    (st_world st) = (Ok r, w') ->
  stop_reason r <> str "tool_use" ->
  exists st',
    Tools.call_claude_with_tools prompt tools_list model k st
      = (Ok (Some (collect_text (resp_content r),
                   [user_message (CStr prompt)])), st') /\
    length [user_message (CStr prompt)] = 1 /\
    model_calls (st_log st') = S (model_calls (st_log st)).
Proof.
  intros Hk Hc Hs. unfold Tools.call_claude_with_tools.
  assert (Hne : str_eqb (stop_reason r) (str "tool_use") = false).
  { destruct (str_eqb (stop_reason r) (str "tool_use")) eqn:Eq; [| reflexivity].
    apply str_eqb_eq in Eq. contradiction. }
  destruct (Z.to_nat k) as [|n] eqn:Ek; [lia |].
  cbn [while_loop Tools.iteration].
  replace (0 <? k)%Z with true by (symmetry; apply Z.ltb_lt; lia).
  unfold Tools.loop_body. cbn [Tools.messages Tools.iteration].
  erewrite bind_ok.
  2:{ erewrite bind_ok.
      2:{ erewrite bind_ok by (apply create_run; exact Hc).
          rewrite Hne. reflexivity. }
      reflexivity. }
  eexists. split; [reflexivity |]. split; [reflexivity |].
  simpl. apply model_calls_model.
Qed.

Lemma direct_completion_witness :
  let E := Script.answer_world in
  exists st',
    @Tools.call_claude_with_tools E (str "what is 2+2") []
        Script.model_name 5 (Script.start E 0)
      = (Ok (Some (str "4", [user_message (CStr (str "what is 2+2"))])), st').
Proof.
  intros E.
  destruct (@direct_completion E [] Script.model_name (str "what is 2+2") 5
              (Script.start E 0)
              (mk_response (str "end_turn") [TextBlock (str "4")]) 1
              ltac:(lia) eq_refl ltac:(discriminate))
    as (st' & H & _).
  exists st'. exact H.
Defined.

(* ================================================================= *)
(** ** A tool-use answer without a tool-use block *)

(** C8: in [call_claude_with_tools], when an answer has
    [stop_reason = "tool_use"] and no block of type ["tool_use"], the pass
    appends nothing to [messages]; only [iteration] advances (and the model
    call is logged), so the next request carries the same conversation. *)
Theorem tool_use_without_block {E : Env} (tools_list : list pyval)
    (model : pystr) (s : Tools.loop_state) (st : state)
    (r : response) (w' : world) :
  let req := mk_request model 4096 None tools_list (Tools.messages s) in
  messages_create req (st_world st) = (Ok r, w') ->
  stop_reason r = str "tool_use" ->
  (forall b, In b (resp_content r) -> is_tool_use b = false) ->
  Tools.loop_body tools_list model s st
    = (Ok (inl (Tools.mk_loop (Tools.iteration s + 1) (Tools.messages s))),
       mk_state w' (st_log st ++ [EvModel req])).
Proof.
  intros req Hc Hs Hnone. unfold Tools.loop_body.
  erewrite bind_ok by (apply create_run; exact Hc).
  rewrite Hs, str_eqb_refl.
  unfold Tools.first_tool_use.
  destruct (find is_tool_use (resp_content r)) as [b|] eqn:Hf.
  - apply find_some in Hf. destruct Hf as [Hin Ht].
    rewrite (Hnone b Hin) in Ht. discriminate.
  - reflexivity.
Qed.

Lemma tool_use_without_block_witness :
  let E := Script.env (Script.insists [TextBlock (str "thinking...")])
             Script.no_tools in
  let s := Tools.mk_loop 0 [user_message (CStr (str "hi"))] in
  fst (@Tools.loop_body E [] Script.model_name s (Script.start E 0))
    = Ok (inl (Tools.mk_loop 1 [user_message (CStr (str "hi"))])).
Proof.
  intros E s.
  rewrite (@tool_use_without_block E [] Script.model_name s (Script.start E 0)
             (mk_response (str "tool_use") [TextBlock (str "thinking...")]) 1
             eq_refl eq_refl).
  - reflexivity.
  - intros b [H | []]. subst b. reflexivity.
Defined.
(* ================================================================= *)
(** ** Requests and results, turn by turn *)

Lemma paired_app (ms : list message) (bs : list block) (rs : list pydict) :
  Spec.paired ms ->
  List.map result_id rs = List.map Some (request_ids bs) ->
  Spec.paired (ms ++ [assistant_message bs; user_message (CResults rs)]).
Proof.
  intros Hp Hids.
  assert (Hend : Spec.paired [assistant_message bs; user_message (CResults rs)]).
  { simpl. split; [| exact I]. exists bs. split; [reflexivity | exact Hids]. }
  induction ms as [|a ms IH]; [exact Hend |].
  destruct ms as [|b ms'].
  - simpl. split; [exact I | exact Hend].
  - destruct Hp as [Hab Hrest]. change ((a :: b :: ms') ++ _)
      with (a :: b :: (ms' ++ [assistant_message bs; user_message (CResults rs)])).
    split; [exact Hab |]. apply IH. exact Hrest.
Qed.

Section WhileInvariant.
Context {E : Env} {S R : Type}.
Variable cond : S -> bool.
Variable body : S -> M (S + R).
Variable I : S -> Prop.
Variable J : R -> Prop.
Hypothesis body_inl : forall s st s' st',
  I s -> body s st = (Ok (inl s'), st') -> I s'.
Hypothesis body_inr : forall s st r st',
  I s -> body s st = (Ok (inr r), st') -> J r.

Lemma while_loop_invariant fuel : forall s st x st',
  I s -> while_loop fuel cond body s st = (Ok (Some x), st') ->
  match x with inl s' => I s' | inr r => J r end.
Proof.
  induction fuel as [|fuel IH]; intros s st x st' Hs H; simpl in H.
  - destruct (cond s); inversion H; subst; exact Hs.
  - destruct (cond s); [| inversion H; subst; exact Hs].
    unfold bind in H.
    destruct (body s st) as [[[s1|r]|e] st1] eqn:Hb; [| | discriminate].
    + eapply IH; [| exact H]. eapply body_inl; eassumption.
    + inversion H; subst. eapply body_inr; eassumption.
Qed.

End WhileInvariant.

(** In [market_research_agent] every batch of tool results answers the
    requests of the assistant turn before it, one result per request and in
    the order of the requests. *)
Lemma market_research_agent_paired {E : Env} (model : pystr) (st : state)
    (text : pystr) (conversation : list message) (st' : state) :
  Campaign.market_research_agent model true st
    = (Ok (Some (RetPair text conversation)), st') ->
  Spec.paired conversation.
Proof.
  unfold Campaign.market_research_agent, bind at 1.
  destruct (outside None _ st) as [[today|e] st0]; [| discriminate].
  unfold bind.
  destruct (while_loop _ _ _ _ st0) as [[[[s|r]|]|e] st1] eqn:Hw;
    try discriminate.
  intros H. inversion H; subst.
  apply (@while_loop_invariant E _ _ _ _
           (fun s => Spec.paired (Campaign.messages s))
           (fun r => match r with
                     | RetPair _ ms => Spec.paired ms
                     | RetText _ => True
                     end)) in Hw; [exact Hw | | | exact I].
  - intros s st2 s' st3 Hs Hb. unfold Campaign.loop_body, bind in Hb.
    destruct (create _ st2) as [[resp|e] st4]; [| discriminate].
    destruct (str_eqb (stop_reason resp) (str "tool_use")); [| discriminate].
    destruct (Campaign.run_tools (resp_content resp) st4) as [[rs|e] st5] eqn:Hr;
      [| discriminate].
    inversion Hb; subst; simpl. rewrite <- app_assoc. apply paired_app; [exact Hs |].
    eapply campaign_run_tools_ids; exact Hr.
  - intros s st2 r st3 Hs Hb. unfold Campaign.loop_body, bind in Hb.
    destruct (create _ st2) as [[resp|e] st4]; [| discriminate].
    destruct (str_eqb (stop_reason resp) (str "tool_use")).
    + destruct (Campaign.run_tools (resp_content resp) st4) as [[rs|e] st5];
        discriminate.
    + inversion Hb; subst. exact Hs.
Qed.

(** The same holds in [find_references]. *)
Lemma find_references_paired {E : Env} (task model : pystr) (st : state)
    (text : pystr) (conversation : list message) (st' : state) :
  ComponentEval.find_references task model true st
    = (Ok (Some (RetPair text conversation)), st') ->
  Spec.paired conversation.
Proof.
  unfold ComponentEval.find_references, bind at 1.
  destruct (outside None _ st) as [[today|e] st0]; [| discriminate].
  unfold try_except, bind.
  destruct (create _ st0) as [[r0|e] st1]; [| discriminate].
  destruct (while_loop _ _ _ _ st1) as [[[[s|r]|]|e] st2] eqn:Hw;
    try discriminate; [| destruct r].
  intros H. inversion H; subst.
  apply (@while_loop_invariant E _ _ _ _
           (fun s => Spec.paired (ComponentEval.messages s))
           (fun _ => True)) in Hw; [exact Hw | | auto | exact I].
  intros s0 st3 s' st4 Hs Hb. unfold ComponentEval.loop_body, bind in Hb.
  destruct (research_run_tools_returns (resp_content (ComponentEval.response s0)) st3)
    as (rs & st5 & Hr & _ & Hids).
  rewrite Hr in Hb.
  destruct (create _ st5) as [[resp|e] st6]; [| discriminate].
  inversion Hb; subst; simpl. rewrite <- app_assoc.
  apply paired_app; assumption.
Qed.

(** C2 fails on [call_claude_with_tools]: when one answer carries two tool
    requests, only the first is run; the assistant turn is appended with
    both requests and the batch after it with one result.  (The claim
    asks for one result per request.) *)
Theorem second_request_unanswered :
  let E := Script.two_requests_world in
  let run := @Tools.call_claude_with_tools E (str "Time and weather?") []
               Script.model_name 5 (Script.start E 0) in
  let requests := [ToolUseBlock (str "t1") (str "get_current_time") [];
                   ToolUseBlock (str "t2") (str "get_weather_from_ip") []] in
  let batch := [tool_result (str "t1") (str "10:00:00")] in
  let conversation := [user_message (CStr (str "Time and weather?"));
                       assistant_message requests;
                       user_message (CResults batch)] in
  fst run = Ok (Some (str "done", conversation)) /\
  request_ids requests = [str "t1"; str "t2"] /\
  List.map result_id batch = [Some (str "t1")] /\
  tool_calls (st_log (snd run)) = [str "get_current_time"] /\
  ~ Spec.paired conversation.
Proof.
  vm_compute. repeat split.
  intros [_ [(bs & Hbs & Hids) _]].
  inversion Hbs; subst. discriminate.
Qed.

(* ================================================================= *)
(** ** Unknown tools *)

Lemma startswith_app (p s : pystr) : startswith p (p ++ s) = true.
Proof.
  induction p as [|c p IH]; [reflexivity |].
  simpl. rewrite N.eqb_refl. exact IH.
Qed.

Lemma str_contains_app (pre n post : pystr) :
  str_contains n (pre ++ n ++ post) = true.
Proof.
  induction pre as [|c pre IH].
  - simpl. destruct (n ++ post) eqn:Hn; simpl.
    + destruct n; [reflexivity | discriminate].
    + rewrite <- Hn. rewrite startswith_app. reflexivity.
  - simpl. rewrite IH. apply orb_true_r.
Qed.

Lemma str_eqb_neq (a b : pystr) : a <> b -> str_eqb a b = false.
Proof.
  intros H. destruct (str_eqb a b) eqn:Eq; [| reflexivity].
  apply str_eqb_eq in Eq. contradiction.
Qed.

Ltac not_named H :=
  repeat match goal with
  | |- context [str_eqb ?n (str ?lit)] =>
      rewrite (@str_eqb_neq n (str lit))
        by (intros ->; apply H; simpl; tauto)
  end.

(** C3, as stated, fails: the loop stores ["Unknown tool: bogus"] as the
    content of an ordinary tool result, on which no error flag is set; and
    [handle_tool_call] raises [KeyError] on a name outside its table. *)
Lemma unknown_tool_is_not_flagged :
  let E := Script.unknown_world in
  let run := @Tools.call_claude_with_tools E (str "Do it.") []
               Script.model_name 5 (Script.start E 0) in
  (exists r,
     fst run
       = Ok (Some (str "Sorry.",
                   [user_message (CStr (str "Do it."));
                    assistant_message [ToolUseBlock (str "x1") (str "bogus") []];
                    user_message (CResults [r])])) /\
     result_content r = Some (str "Unknown tool: bogus") /\
     is_error r <> true) /\
  (exists e,
     fst (@MultiTools.handle_tool_call E
            (MultiTools.mk_tool_call (str "call_1") (str "bogus") (str "{}"))
            (Script.start E 0)) = Raise e /\
     exn_class e = str "KeyError").
Proof.
  split.
  - eexists. vm_compute. repeat split. discriminate.
  - eexists. vm_compute. split; reflexivity.
Qed.

(** C3 (amended): each dispatcher answers every name outside its own
    chain without raising, running a tool or touching the outside: for [n]
    not a tool of tools.py, [execute_tool] returns the string
    ["Unknown tool: n"]; for [n] not a research tool, [process_tool_call]
    returns the same string; for [n] not a campaign tool,
    [handle_tool_call_claude] returns the dictionary
    [{"error": "Unknown tool: n"}].  The string contains [n]; it is
    stored as an ordinary tool result, without an error flag. *)
Theorem unknown_tool {E : Env} (n : pystr) (input : pydict) (id : pystr)
    (st : state) :
  (~ In n Spec.tools_py_names ->
   Tools.execute_tool n input st = (Ok (str "Unknown tool: " ++ n), st)) /\
  (~ In n Spec.research_names ->
   ComponentEval.process_tool_call n input st
     = (Ok (str "Unknown tool: " ++ n), st)) /\
  (~ In n Spec.campaign_names ->
   MultiTools.handle_tool_call_claude n input st
     = (Ok (PDict [(str "error", PStr (str "Unknown tool: " ++ n))]), st)) /\
  str_contains n (str "Unknown tool: " ++ n) = true /\
  is_error (tool_result id (str "Unknown tool: " ++ n)) = false.
Proof.
  split; [| split; [| split; [| split]]].
  - intros H. unfold Tools.execute_tool. not_named H. reflexivity.
  - intros H. unfold ComponentEval.process_tool_call, try_except, bind.
    not_named H. reflexivity.
  - intros H. unfold MultiTools.handle_tool_call_claude. not_named H.
    reflexivity.
  - rewrite <- (app_nil_r n) at 2. apply str_contains_app.
  - reflexivity.
Qed.

Lemma unknown_tool_witness :
  let E := Script.unknown_world in
  @Tools.execute_tool E (str "tavily_search") [] (Script.start E 0)
    = (Ok (str "Unknown tool: tavily_search"), Script.start E 0) /\
  @ComponentEval.process_tool_call E (str "write_txt_file") []
      (Script.start E 0)
    = (Ok (str "Unknown tool: write_txt_file"), Script.start E 0) /\
  @MultiTools.handle_tool_call_claude E (str "bogus") [] (Script.start E 0)
    = (Ok (PDict [(str "error", PStr (str "Unknown tool: bogus"))]),
       Script.start E 0).
Proof.
  intros E.
  destruct (@unknown_tool E (str "tavily_search") [] (str "x1")
              (Script.start E 0)) as (H1 & _).
  destruct (@unknown_tool E (str "write_txt_file") [] (str "x1")
              (Script.start E 0)) as (_ & H2 & _).
  destruct (@unknown_tool E (str "bogus") [] (str "x1")
              (Script.start E 0)) as (_ & _ & H3 & _).
  split; [| split].
  - apply H1. vm_compute. intuition discriminate.
  - apply H2. vm_compute. intuition discriminate.
  - apply H3. vm_compute. intuition discriminate.
Defined.
(* ================================================================= *)
(** ** Tools that raise *)

Lemma research_tool_name {E : Env} (name : pystr) f :
  Spec.research_tool name = Some f ->
  (name = str "arxiv_search" /\ f = arxiv_search) \/
  (name = str "tavily_search" /\ f = tavily_search) \/
  (name = str "wikipedia_search" /\ f = wikipedia_search).
Proof.
  unfold Spec.research_tool. intros H.
  destruct (str_eqb name (str "arxiv_search")) eqn:E1.
  { apply str_eqb_eq in E1. inversion H. auto. }
  destruct (str_eqb name (str "tavily_search")) eqn:E2.
  { apply str_eqb_eq in E2. inversion H. auto. }
  destruct (str_eqb name (str "wikipedia_search")) eqn:E3.
  { apply str_eqb_eq in E3. inversion H. auto. }
  discriminate.
Qed.

(** What [process_tool_call] does with the outcome of a research tool. *)
Lemma process_tool_call_run {E : Env} (name : pystr) (input : pydict)
    (st : state) f (outcome : result pyval) (w' : world) :
  Spec.research_tool name = Some f ->
  f input (st_world st) = (outcome, w') ->
  ComponentEval.process_tool_call name input st
    = (Ok match outcome with
          | Ok (PStr s) => s
          | Ok other => json_dumps other
          | Raise e => str "Tool error (" ++ name ++ str "): " ++ exn_str e
          end,
       mk_state w' (st_log st ++ [EvTool name])).
Proof.
  intros Hf Hrun.
  destruct (research_tool_name _ Hf) as [[-> ->] | [[-> ->] | [-> ->]]];
    unfold ComponentEval.process_tool_call, try_except, bind, Tools.enter,
      outside; simpl; rewrite Hrun;
    destruct outcome as [[]|]; reflexivity.
Qed.

(** C4, as stated, fails twice.  In [find_references] the message of a
    failing tool is stored as the content of an ordinary tool result, on
    which no error flag is set.  In [call_claude_with_tools] nothing
    catches: a request for [write_txt_file] without a [filename] raises
    [KeyError] out of [execute_tool] and out of the loop. *)
Lemma tool_failure_is_not_flagged :
  (let E := Script.failing_world in
   exists r,
     fst (@ComponentEval.find_references E (str "black holes")
            Script.model_name true (Script.start E 0))
       = Ok (Some (RetPair (str "Sorry.")
               [user_message
                  (CStr (ComponentEval.research_prompt (str "black holes")
                           (str "2025-01-15")));
                assistant_message
                  [ToolUseBlock (str "t1") (str "arxiv_search") []];
                user_message (CResults [r])])) /\
     result_content r
       = Some (str "Tool error (arxiv_search): network is down") /\
     is_error r <> true) /\
  (let E := Script.missing_key_world in
   exists e,
     fst (@Tools.call_claude_with_tools E (str "Write a note.") []
            Script.model_name 5 (Script.start E 0)) = Raise e /\
     exn_class e = str "KeyError").
Proof.
  split.
  - eexists. vm_compute. repeat split. discriminate.
  - eexists. vm_compute. split; reflexivity.
Qed.

(** C4 (amended): when a research tool raises, [process_tool_call] catches
    the exception and returns the string ["Tool error (name): message"]
    with the message of the exception; [process_tool_call] returns from
    every call, so no raise reaches the loop of [find_references].  The
    string is stored as an ordinary tool result, without an error flag. *)
Theorem tool_exception_absorbed {E : Env} (name : pystr) (input : pydict)
    (id : pystr) (st : state) f (e : exn) (w' : world) :
  Spec.research_tool name = Some f ->
  f input (st_world st) = (Raise e, w') ->
  ComponentEval.process_tool_call name input st
    = (Ok (str "Tool error (" ++ name ++ str "): " ++ exn_str e),
       mk_state w' (st_log st ++ [EvTool name])) /\
  is_error (tool_result id (str "Tool error (" ++ name ++ str "): " ++ exn_str e))
    = false /\
  (forall name' input' st0, exists c st1,
     ComponentEval.process_tool_call name' input' st0 = (Ok c, st1)).
Proof.
  intros Hf Hrun. split; [| split].
  - exact (process_tool_call_run name input st Hf Hrun).
  - reflexivity.
  - intros name' input' st0.
    destruct (process_tool_call_returns name' input' st0) as (c & st1 & H & _).
    eauto.
Qed.

Lemma tool_exception_absorbed_witness :
  let E := Script.failing_world in
  fst (@ComponentEval.process_tool_call E (str "arxiv_search") []
         (Script.start E 0))
    = Ok (str "Tool error (arxiv_search): network is down").
Proof.
  intros E.
  destruct (@tool_exception_absorbed E (str "arxiv_search") [] (str "t1")
              (Script.start E 0) arxiv_search
              (mk_exn (str "ConnectionError") (str "network is down")) 0
              eq_refl eq_refl) as (H & _).
  rewrite H. reflexivity.
Defined.

(* ================================================================= *)
(** ** How results are stored *)

Lemma stored_as_text {E : Env} (v : pyval) :
  Spec.stored_as v match v with PStr s => s | other => json_dumps other end.
Proof.
  split.
  - intros s ->. reflexivity.
  - destruct v; try reflexivity. discriminate.
Qed.


(* ================================================================= *)
(** ** The URL scan *)

Lemma span_url_forall (s : pystr) : forallb Re.url_char (Re.span_url s) = true.
Proof.
  induction s as [|c s IH]; [reflexivity |].
  simpl. destruct (Re.url_char c) eqn:Hc; [| reflexivity].
  simpl. rewrite Hc. exact IH.
Qed.

Lemma span_url_prefix (s : pystr) : exists post, s = Re.span_url s ++ post.
Proof.
  induction s as [|c s [post IH]]; [exists []; reflexivity |].
  simpl. destruct (Re.url_char c).
  - exists post. simpl. rewrite <- IH. reflexivity.
  - exists (c :: s). reflexivity.
Qed.

Lemma span_url_app (body post : pystr) :
  body <> [] -> forallb Re.url_char body = true ->
  Re.span_url (body ++ post) <> [].
Proof.
  destruct body as [|c body]; [congruence |].
  simpl. intros _ H. apply andb_true_iff in H. destruct H as [Hc _].
  rewrite Hc. discriminate.
Qed.

Lemma match_sep_some (s rest : pystr) :
  Re.match_sep s = Some rest -> s = (58 :: 47 :: 47 :: rest)%N.
Proof.
  unfold Re.match_sep. intros H.
  repeat match type of H with
  | match ?x with _ => _ end = _ => destruct x; try discriminate
  end.
  inversion H; reflexivity.
Qed.

Lemma match_body_some (scheme rest u : pystr) :
  Re.match_body scheme rest = Some u ->
  exists body post,
    u = scheme ++ body /\ rest = body ++ post /\ body <> [] /\
    forallb Re.url_char body = true.
Proof.
  unfold Re.match_body. intros H.
  destruct (span_url_prefix rest) as [post Hpost].
  pose proof (span_url_forall rest) as Hall.
  destruct (Re.span_url rest) as [|c body] eqn:Hs; [discriminate |].
  inversion H; subst u. exists (c :: body), post.
  repeat split; [exact Hpost | discriminate | exact Hall].
Qed.

(** A match at the head of [s] is a prefix of [s] that the pattern
    describes. *)
Lemma match_at_sound (s u : pystr) :
  Re.match_at s = Some u ->
  Spec.spec_url_match u /\ exists post, s = u ++ post.
Proof.
  unfold Re.match_at.
  destruct s as [|h [|t1 [|t2 [|p r]]]]; try discriminate.
  destruct (Re.is_h h && Re.is_t t1 && Re.is_t t2 && Re.is_p p) eqn:Hc;
    [| discriminate].
  apply andb_true_iff in Hc; destruct Hc as [Hc Hp].
  apply andb_true_iff in Hc; destruct Hc as [Hc Ht2].
  apply andb_true_iff in Hc; destruct Hc as [Hh Ht1].
  assert (Hplain : forall u0,
    match Re.match_sep r with
    | Some rest => Re.match_body [h; t1; t2; p; 58; 47; 47]%N rest
    | None => None
    end = Some u0 ->
    Spec.spec_url_match u0 /\ exists post, h :: t1 :: t2 :: p :: r = u0 ++ post).
  { intros u0 Hu0. destruct (Re.match_sep r) as [rest|] eqn:Hsep; [| discriminate].
    apply match_sep_some in Hsep. subst r.
    apply match_body_some in Hu0.
    destruct Hu0 as (body & post & -> & -> & Hne & Hall). split.
    - exists [h; t1; t2; p; 58; 47; 47]%N, body. repeat split; auto.
      exists h, t1, t2, p. auto 10.
    - exists post. simpl. reflexivity. }
  destruct r as [|c r']; [exact (Hplain u) |].
  destruct (Re.is_s c) eqn:Hsc; [| exact (Hplain u)].
  destruct (Re.match_sep r') as [rest|] eqn:Hsep; [| exact (Hplain u)].
  destruct (Re.match_body [h; t1; t2; p; c; 58; 47; 47]%N rest) as [u1|] eqn:Hb;
    [| exact (Hplain u)].
  intros Hu. inversion Hu; subst u1.
  apply match_sep_some in Hsep. subst r'.
  apply match_body_some in Hb.
  destruct Hb as (body & post & -> & -> & Hne & Hall). split.
  - exists [h; t1; t2; p; c; 58; 47; 47]%N, body. repeat split; auto.
    exists h, t1, t2, p. repeat split; auto. right. exists c. auto.
  - exists post. reflexivity.
Qed.

(** A prefix that the pattern describes is found at the head. *)
Lemma match_at_complete (u post : pystr) :
  Spec.spec_url_match u -> exists u', Re.match_at (u ++ post) = Some u'.
Proof.
  intros (sch & body & -> & (h & t1 & t2 & p & Hh & Ht1 & Ht2 & Hp & Hsch)
            & Hne & Hall).
  pose proof (span_url_app post Hne Hall) as Hspan.
  destruct Hsch as [-> | (c & Hc & ->)]; simpl;
    rewrite Hh, Ht1, Ht2, Hp; simpl.
  - unfold Re.match_body.
    destruct (Re.span_url (body ++ post)); [congruence | eauto].
  - rewrite Hc. unfold Re.match_body.
    destruct (Re.span_url (body ++ post)); [congruence | eauto].
Qed.

Arguments Re.match_at s : simpl never.

(** Every URL that the scan returns is a matching substring. *)
Lemma scan_sound (u : pystr) : forall s skip,
  In u (Re.scan skip s) ->
  Spec.spec_url_match u /\ exists pre post, s = pre ++ u ++ post.
Proof.
  induction s as [|c s IH]; intros skip Hin; [contradiction |].
  assert (Hlater : forall k, In u (Re.scan k s) ->
            Spec.spec_url_match u /\ exists pre post, c :: s = pre ++ u ++ post).
  { intros k Hk. destruct (IH k Hk) as (Hm & pre & post & ->).
    split; [exact Hm |]. exists (c :: pre), post. reflexivity. }
  simpl in Hin. destruct skip as [|k]; [| exact (Hlater k Hin)].
  destruct (Re.match_at (c :: s)) as [u0|] eqn:Hm; [| exact (Hlater 0 Hin)].
  destruct Hin as [-> | Hin]; [| exact (Hlater _ Hin)].
  destruct (match_at_sound _ Hm) as (Hspec & post & Hpost).
  split; [exact Hspec |]. exists [], post. exact Hpost.
Qed.

(** The scan finds something in every text that has a matching
    substring. *)
Lemma scan_complete (pre u post : pystr) :
  Spec.spec_url_match u -> Re.scan 0 (pre ++ u ++ post) <> [].
Proof.
  intros Hu. induction pre as [|c pre IH].
  - destruct (match_at_complete post Hu) as [u' Hm]. simpl.
    destruct (u ++ post) as [|c s] eqn:Hs.
    + destruct Hu as (sch & body & -> & (h & t1 & t2 & p & _ & _ & _ & _ & Hsch) & _).
      destruct Hsch as [-> | (c & _ & ->)]; discriminate.
    + simpl. rewrite Hm. discriminate.
  - simpl. destruct (Re.match_at (c :: pre ++ u ++ post)); [discriminate |].
    exact IH.
Qed.

Lemma findall_has_url (raw : pystr) :
  Re.findall raw <> [] <-> Spec.has_url raw.
Proof.
  unfold Re.findall. split.
  - intros Hne. destruct (Re.scan 0 raw) as [|u l] eqn:Hs; [congruence |].
    destruct (@scan_sound u raw 0) as (Hm & pre & post & Hraw).
    { rewrite Hs. left. reflexivity. }
    exists pre, u, post. auto.
  - intros (pre & u & post & -> & Hu). apply scan_complete. exact Hu.
Qed.

Example findall_example :
  Re.findall (str "see https://arxiv.org/abs/1 and (http://foo.com/x) HTTP://a ")
    = [str "https://arxiv.org/abs/1"; str "http://foo.com/x"; str "HTTP://a"].
Proof. reflexivity. Qed.

(* ================================================================= *)
(** ** evaluate_tavily_results *)

Lemma count_urls (TOP : list pystr) (urls : list pystr) : forall n details,
  fold_left (ComponentEval.count_url TOP) urls (n, details)
    = (n + length (filter (ComponentEval.is_preferred TOP) urls),
       details ++ List.map
                    (fun u => ComponentEval.detail u
                                (ComponentEval.is_preferred TOP u)) urls).
Proof.
  induction urls as [|u urls IH]; intros n details; simpl.
  - rewrite Nat.add_0_r, app_nil_r. reflexivity.
  - unfold ComponentEval.count_url at 2. simpl. rewrite IH.
    rewrite <- app_assoc. simpl.
    destruct (ComponentEval.is_preferred TOP u); simpl; f_equal; lia.
Qed.

Lemma split_on_nonempty (sep : N) (s : pystr) :
  exists piece pieces, split_on sep s = piece :: pieces.
Proof.
  induction s as [|c s (x & l & IH)]; simpl; [eauto |].
  destruct (N.eqb c sep); [eauto |]. rewrite IH. eauto.
Qed.

Lemma split_on_third (c : N) (s : pystr) :
  N.eqb c 47 = false ->
  nth_error (split_on 47 (c :: s)) 2 = nth_error (split_on 47 s) 2.
Proof.
  intros Hc. destruct (split_on_nonempty 47 s) as (x & l & Hs).
  simpl. rewrite Hc, Hs. reflexivity.
Qed.

Lemma scheme_letter_not_slash (c : N) :
  (Re.is_h c || Re.is_t c || Re.is_p c || Re.is_s c || N.eqb c 58)%bool = true ->
  N.eqb c 47 = false.
Proof.
  intros Hc. destruct (N.eqb_spec c 47) as [-> |]; [discriminate | reflexivity].
Qed.

(** The domain of a found URL is cut out without an [IndexError]. *)
Lemma url_domain_found (u : pystr) :
  Spec.spec_url_match u ->
  exists d, ComponentEval.getitem (split_on 47 u) 2 = Ok d.
Proof.
  intros (sch & body & -> & (h & t1 & t2 & p & Hh & Ht1 & Ht2 & Hp & Hsch) & _).
  assert (Hslashes : exists d,
            nth_error (split_on 47 (47 :: 47 :: body)%N) 2 = Some d).
  { destruct (split_on_nonempty 47 body) as (d & l & Hs).
    exists d. simpl. rewrite Hs. reflexivity. }
  destruct Hslashes as [d Hd].
  exists d. unfold ComponentEval.getitem.
  destruct Hsch as [-> | (c & Hc & ->)]; simpl app;
    repeat (rewrite split_on_third
              by (apply scheme_letter_not_slash;
                  rewrite ?Hh, ?Ht1, ?Ht2, ?Hp, ?Hc; simpl;
                  rewrite ?orb_true_r; reflexivity));
    rewrite Hd; reflexivity.
Qed.

(** The default threshold, [0.4] as a [float]. *)
Example default_min_ratio_is_0_4 :
  PrimFloat.eqb 0x1.999999999999ap-2 (PrimFloat.div 4 10) = true.
Proof. reflexivity. Qed.

Example evaluate_one_of_three :
  exists report,
    ComponentEval.evaluate_tavily_results (fun _ _ => str "?")
      ComponentEval.TOP_DOMAINS
      (str "see https://arxiv.org/abs/1 and (http://foo.com/x) HTTP://a ")
      0x1.999999999999ap-2
    = Ok (false, report).
Proof. eexists. vm_compute. reflexivity. Qed.

Example evaluate_two_of_five :
  exists report,
    ComponentEval.evaluate_tavily_results (fun _ _ => str "?")
      ComponentEval.TOP_DOMAINS
      (str "https://arxiv.org/abs/1 http://en.wikipedia.org/wiki/X http://a.b http://c.d http://e.f")
      0x1.999999999999ap-2
    = Ok (true, report).
Proof. eexists. vm_compute. reflexivity. Qed.

(* ================================================================= *)
(** ** More on the loops: what a run can add to the log *)

Section OnlyToolEvents.
Context {E : Env}.

Lemma ote_ret {A} (a : A) : Props.only_tool_events (ret a).
Proof. intros st r st' H. inversion H. exists []. simpl. now rewrite app_nil_r. Qed.

Lemma ote_raise {A} (e : exn) : Props.only_tool_events (@raise E A e).
Proof. intros st r st' H. inversion H. exists []. simpl. now rewrite app_nil_r. Qed.

Lemma ote_bind {A B} (m : M A) (k : A -> M B) :
  Props.only_tool_events m -> (forall a, Props.only_tool_events (k a)) ->
  Props.only_tool_events (bind m k).
Proof.
  intros Hm Hk st r st' H. unfold bind in H.
  destruct (m st) as [[a|e] st1] eqn:Em.
  - destruct (Hm _ _ _ Em) as [n1 H1]. destruct (Hk a _ _ _ H) as [n2 H2].
    exists (n1 ++ n2). rewrite H2, H1, map_app, app_assoc. reflexivity.
  - inversion H; subst. exact (Hm _ _ _ Em).
Qed.

Lemma ote_try_except {A} (m : M A) h :
  Props.only_tool_events m -> (forall e, Props.only_tool_events (h e)) ->
  Props.only_tool_events (try_except m h).
Proof.
  intros Hm Hh st r st' H. unfold try_except in H.
  destruct (m st) as [[a|e] st1] eqn:Em.
  - inversion H; subst. exact (Hm _ _ _ Em).
  - destruct (Hm _ _ _ Em) as [n1 H1]. destruct (Hh e _ _ _ H) as [n2 H2].
    exists (n1 ++ n2). rewrite H2, H1, map_app, app_assoc. reflexivity.
Qed.

Lemma ote_outside {A} (act : world -> result A * world) :
  Props.only_tool_events (outside None act).
Proof.
  intros st r st' H. unfold outside in H.
  destruct (act (st_world st)); inversion H. exists []. simpl.
  now rewrite app_nil_r.
Qed.

Lemma ote_enter (name : string) : Props.only_tool_events (Tools.enter name).
Proof.
  intros st r st' H. unfold Tools.enter, outside in H.
  inversion H; subst; simpl. exists [str name]. reflexivity.
Qed.

Lemma ote_result {A} (r : result A) :
  Props.only_tool_events (fun st : state => (r, st)).
Proof.
  intros st r0 st' H. inversion H; subst. exists []. simpl.
  now rewrite app_nil_r.
Qed.

Lemma ote_dict_getitem d k : Props.only_tool_events (dict_getitem d k).
Proof.
  unfold dict_getitem. destruct (dict_get d k); [apply ote_ret | apply ote_raise].
Qed.

End OnlyToolEvents.

Create HintDb ote.
#[local] Hint Resolve ote_ret ote_raise ote_outside ote_enter
  ote_dict_getitem : ote.

Ltac ote :=
  repeat first
    [ apply ote_bind; [| intros ? ]
    | apply ote_try_except; [| intros ? ]
    | solve [ auto with ote ]
    | match goal with
      | |- Props.only_tool_events (if ?c then _ else _) => destruct c
      | |- Props.only_tool_events (match ?x with _ => _ end) => destruct x
      end ].

Lemma ote_execute_tool {E : Env} name input :
  Props.only_tool_events (Tools.execute_tool name input).
Proof.
  unfold Tools.execute_tool, Tools.get_current_time,
    Tools.get_weather_from_ip, Tools.write_txt_file, Tools.generate_qr_code.
  ote.
Qed.

Lemma ote_handle_tool_call_claude {E : Env} name input :
  Props.only_tool_events (MultiTools.handle_tool_call_claude name input).
Proof.
  unfold MultiTools.handle_tool_call_claude, MultiTools.call_tavily_search_tool,
    MultiTools.call_product_catalog_tool.
  destruct (str_eqb name (str "tavily_search_tool")).
  - apply ote_bind; [apply ote_result | intros bound]. ote.
  - ote.
Qed.

Lemma ote_process_tool_call {E : Env} name input :
  Props.only_tool_events (ComponentEval.process_tool_call name input).
Proof. unfold ComponentEval.process_tool_call. ote. Qed.

Lemma ote_campaign_run_tools {E : Env} bs :
  Props.only_tool_events (Campaign.run_tools bs).
Proof.
  induction bs as [|[t | id n i |] bs IH]; simpl; auto with ote.
  apply ote_bind; [apply ote_handle_tool_call_claude | intros v].
  apply ote_bind; [exact IH | intros rs; apply ote_ret].
Qed.

Lemma ote_research_run_tools {E : Env} bs :
  Props.only_tool_events (ComponentEval.run_tools bs).
Proof.
  induction bs as [|[t | id n i |] bs IH]; simpl; auto with ote.
  apply ote_bind; [apply ote_process_tool_call | intros v].
  apply ote_bind; [exact IH | intros rs; apply ote_ret].
Qed.

Lemma model_calls_tools (log : list event) (names : list pystr) :
  model_calls (log ++ List.map EvTool names) = model_calls log.
Proof.
  rewrite model_calls_app.
  assert (H : model_calls (List.map EvTool names) = 0)
    by (induction names; [reflexivity | exact IHnames]).
  rewrite H. lia.
Qed.

(* ================================================================= *)
(** ** Loops in general: what holds however a run ends *)

Section WhileOutcome.
Context {E : Env} {S R : Type}.
Variable cond : S -> bool.
Variable body : S -> M (S + R).
Variable Inv : S -> state -> Prop.
Variable Post : result (option (S + R)) -> state -> Prop.
Hypothesis at_exit : forall s st,
  Inv s st -> cond s = false -> Post (Ok (Some (inl s))) st.
Hypothesis at_fuel : forall s st, Inv s st -> Post (Ok None) st.
Hypothesis at_step : forall s st s' st',
  Inv s st -> cond s = true -> body s st = (Ok (inl s'), st') -> Inv s' st'.
Hypothesis at_return : forall s st r st',
  Inv s st -> cond s = true -> body s st = (Ok (inr r), st') ->
  Post (Ok (Some (inr r))) st'.
Hypothesis at_raise : forall s st e st',
  Inv s st -> cond s = true -> body s st = (Raise e, st') -> Post (Raise e) st'.

Lemma while_loop_outcome fuel : forall s st out st',
  Inv s st -> while_loop fuel cond body s st = (out, st') -> Post out st'.
Proof.
  induction fuel as [|fuel IH]; intros s st out st' Hi H; simpl in H.
  - destruct (cond s) eqn:Hc; inversion H; subst; eauto.
  - destruct (cond s) eqn:Hc; [| inversion H; subst; eauto].
    unfold bind in H.
    destruct (body s st) as [[[s1|r]|e] st1] eqn:Hb.
    + eapply IH; [| exact H]. eauto.
    + inversion H; subst. eauto.
    + inversion H; subst. eauto.
Qed.

End WhileOutcome.

(** One pass of the loop of tools.py, outcome by outcome. *)
Lemma tools_loop_body_cases {E : Env} tools_list model s st out st' :
  Tools.loop_body tools_list model s st = (out, st') ->
  let req := mk_request model 4096 None tools_list (Tools.messages s) in
  exists r w',
    messages_create req (st_world st) = (r, w') /\
    let st1 := mk_state w' (st_log st ++ [EvModel req]) in
    match r with
    | Raise e => out = Raise e /\ st' = st1
    | Ok resp =>
        if str_eqb (stop_reason resp) (str "tool_use") then
          match Tools.first_tool_use (resp_content resp) with
          | Some (ToolUseBlock id name input) =>
              exists x, Tools.execute_tool name input st1 = (x, st') /\
                match x with
                | Ok c =>
                    out = Ok (inl (Tools.mk_loop (Tools.iteration s + 1)
                            (Tools.messages s
                               ++ [assistant_message (resp_content resp);
                                   user_message (CResults [tool_result id c])])))
                | Raise e => out = Raise e
                end
          | _ =>
              out = Ok (inl (Tools.mk_loop (Tools.iteration s + 1)
                               (Tools.messages s))) /\ st' = st1
          end
        else
          out = Ok (inr (collect_text (resp_content resp), Tools.messages s)) /\
          st' = st1
    end.
Proof.
  intros H req.
  destruct (messages_create req (st_world st)) as [r w'] eqn:Hc.
  exists r, w'. split; [reflexivity |].
  unfold Tools.loop_body, bind in H. fold req in H.
  rewrite (create_run _ _ Hc) in H.
  destruct r as [resp|e]; [| inversion H; auto].
  destruct (str_eqb (stop_reason resp) (str "tool_use")); [| inversion H; auto].
  destruct (Tools.first_tool_use (resp_content resp)) as [[t | id n i |] |];
    try (inversion H; auto; fail).
  cbv zeta.
  destruct (Tools.execute_tool n i _) as [[c|e] st2] eqn:Hx.
  - inversion H; subst. eexists. split; [reflexivity |].
    rewrite <- app_assoc. reflexivity.
  - inversion H; subst. eexists. split; [reflexivity |]. reflexivity.
Qed.

Lemma execute_tool_calls {E : Env} name input st x st' :
  Tools.execute_tool name input st = (x, st') ->
  model_calls (st_log st') = model_calls (st_log st).
Proof. apply nmc_execute_tool. Qed.

(** X1: whatever the model answers and whatever the tools do -- also when
    the run ends in an exception -- [call_claude_with_tools] makes at most
    [max_iterations] model calls (none when [max_iterations <= 0]). *)
Theorem call_claude_with_tools_budget {E : Env} (prompt : pystr)
    (tools_list : list pyval) (model : pystr) (k : Z) (st : state) :
  model_calls
    (st_log (snd (Tools.call_claude_with_tools prompt tools_list model k st)))
  <= model_calls (st_log st) + Z.to_nat k.
Proof.
  unfold Tools.call_claude_with_tools, bind.
  match goal with
  | |- context [while_loop ?f ?c ?b ?init st] =>
      destruct (while_loop f c b init st) as [out st1] eqn:Hw
  end.
  assert (Hpost : model_calls (st_log st1) <= model_calls (st_log st) + Z.to_nat k).
  { apply (@while_loop_outcome E _ _ _ _
             (fun s st2 => (0 <= Tools.iteration s <= Z.max k 0)%Z /\
                           model_calls (st_log st2)
                           <= model_calls (st_log st) + Z.to_nat (Tools.iteration s))
             (fun _ st2 => model_calls (st_log st2)
                           <= model_calls (st_log st) + Z.to_nat k))
      in Hw; [exact Hw | | | | | | simpl; lia].
    - intros s st2 (Hi & Hn) _. lia.
    - intros s st2 (Hi & Hn). lia.
    - intros s st2 s' st3 (Hi & Hn) Hc Hb. apply Z.ltb_lt in Hc.
      pose proof (tools_loop_body_counts _ _ _ _ Hb) as Hit.
      apply tools_loop_body_cases in Hb.
      destruct Hb as (r & w' & _ & Hb). cbv zeta in Hb.
      destruct r as [resp|e]; [| destruct Hb; discriminate].
      destruct (str_eqb (stop_reason resp) (str "tool_use"));
        [| destruct Hb; discriminate].
      assert (Hcalls : model_calls (st_log st3) = S (model_calls (st_log st2))).
      { destruct (Tools.first_tool_use (resp_content resp)) as [[t | id n i |] |];
          try (destruct Hb as [_ ->]; simpl; apply model_calls_model).
        destruct Hb as (x & Hx & _). apply execute_tool_calls in Hx.
        rewrite Hx. simpl. apply model_calls_model. }
      split; lia.
    - intros s st2 r st3 (Hi & Hn) Hc Hb. apply Z.ltb_lt in Hc.
      apply tools_loop_body_cases in Hb.
      destruct Hb as (r0 & w' & _ & Hb). cbv zeta in Hb.
      destruct r0 as [resp|e]; [| destruct Hb; discriminate].
      destruct (str_eqb (stop_reason resp) (str "tool_use")).
      + destruct (Tools.first_tool_use (resp_content resp)) as [[t | id n i |] |];
          try (destruct Hb; discriminate).
        destruct Hb as ([c|e] & _ & Hb); discriminate.
      + destruct Hb as [_ ->]. simpl. rewrite model_calls_model. lia.
    - intros s st2 e st3 (Hi & Hn) Hc Hb. apply Z.ltb_lt in Hc.
      apply tools_loop_body_cases in Hb.
      destruct Hb as (r0 & w' & _ & Hb). cbv zeta in Hb.
      destruct r0 as [resp|e0].
      + destruct (str_eqb (stop_reason resp) (str "tool_use"));
          [| destruct Hb; discriminate].
        destruct (Tools.first_tool_use (resp_content resp)) as [[t | id n i |] |];
          try (destruct Hb; discriminate).
        destruct Hb as (x & Hx & _). apply execute_tool_calls in Hx.
        rewrite Hx. simpl. rewrite model_calls_model. lia.
      + destruct Hb as [_ ->]. simpl. rewrite model_calls_model. lia. }
  destruct out as [[[s|[text conv]]|]|e]; simpl; exact Hpost.
Qed.

Lemma pair_induction {A} (P : list A -> Prop) :
  P [] -> (forall a, P [a]) -> (forall a b l, P l -> P (a :: b :: l)) ->
  forall l, P l.
Proof.
  intros H0 H1 H2.
  assert (H : forall l, P l /\ forall a, P (a :: l)).
  { induction l as [|b l [IHl IHal]]; split; auto. }
  intros l. apply H.
Qed.

Lemma first_answered_app (t1 t2 : list message) :
  Props.first_answered t1 -> Props.first_answered t2 ->
  Props.first_answered (t1 ++ t2).
Proof.
  induction t1 as [| a | a b l IH] using pair_induction; intros H1 H2.
  - exact H2.
  - contradiction.
  - destruct H1 as [Hab Hl]. simpl. split; [exact Hab | auto].
Qed.

Lemma tools_loop_body_shape_step {E : Env} prompt tools_list model s st s' st' :
  Props.seeded_first_answered prompt (Tools.messages s) ->
  Tools.loop_body tools_list model s st = (Ok (inl s'), st') ->
  Props.seeded_first_answered prompt (Tools.messages s').
Proof.
  intros (turns & Hm & Hf) Hb.
  apply tools_loop_body_cases in Hb.
  destruct Hb as (r & w' & _ & Hb). cbv zeta in Hb.
  destruct r as [resp|e]; [| destruct Hb; discriminate].
  destruct (str_eqb (stop_reason resp) (str "tool_use"));
    [| destruct Hb; discriminate].
  destruct (Tools.first_tool_use (resp_content resp))
    as [[t | id n i |] |] eqn:Hfirst;
    try (destruct Hb as [Hb _]; inversion Hb; subst; simpl;
         exists turns; auto; fail).
  destruct Hb as ([c|e] & _ & Hb); [| discriminate].
  inversion Hb; subst; simpl. rewrite Hm.
  eexists. split; [reflexivity |].
  apply first_answered_app; [exact Hf |].
  simpl. split; [| exact I].
  eexists _, _. repeat split. exists id, n, i, c. auto.
Qed.

Lemma tools_loop_body_shape_return {E : Env} prompt tools_list model s st
    (r : pystr * list message) st' :
  Props.seeded_first_answered prompt (Tools.messages s) ->
  Tools.loop_body tools_list model s st = (Ok (inr r), st') ->
  Props.seeded_first_answered prompt (snd r).
Proof.
  intros Hs Hb.
  apply tools_loop_body_cases in Hb.
  destruct Hb as (r0 & w' & _ & Hb). cbv zeta in Hb.
  destruct r0 as [resp|e]; [| destruct Hb; discriminate].
  destruct (str_eqb (stop_reason resp) (str "tool_use")).
  - destruct (Tools.first_tool_use (resp_content resp))
      as [[t | id n i |] |]; try (destruct Hb; discriminate).
    destruct Hb as ([c|e] & _ & Hb); discriminate.
  - destruct Hb as [Hb _]. inversion Hb; subst. exact Hs.
Qed.

Lemma first_answered_even (turns : list message) :
  Props.first_answered turns -> exists n, length turns = 2 * n.
Proof.
  induction turns as [| a | a b l IH] using pair_induction; intros Hf.
  - exists 0. reflexivity.
  - contradiction.
  - destruct Hf as [_ Hl]. destruct (IH Hl) as [n Hn].
    exists (S n). simpl. rewrite Hn. lia.
Qed.

(** X2: the conversation that [call_claude_with_tools] returns is the
    seeded user turn followed by pairs of turns: an assistant turn, and a
    user turn with exactly one tool result, which answers the first tool
    request of that assistant turn.  So roles alternate and the
    conversation has an odd number of turns. *)
Theorem call_claude_conversation_shape {E : Env} (prompt : pystr)
    (tools_list : list pyval) (model : pystr) (k : Z) (st : state)
    (text : pystr) (conversation : list message) (st' : state) :
  Tools.call_claude_with_tools prompt tools_list model k st
    = (Ok (Some (text, conversation)), st') ->
  exists turns,
    conversation = user_message (CStr prompt) :: turns /\
    Props.first_answered turns /\
    Nat.Odd (length conversation).
Proof.
  intros H.
  assert (Hshape : Props.seeded_first_answered prompt conversation).
  { unfold Tools.call_claude_with_tools, bind in H.
    match type of H with
    | context [while_loop ?f ?c ?b ?init st] =>
        destruct (while_loop f c b init st) as [[[x|]|e] st1] eqn:Hw;
        try discriminate
    end.
    apply (@while_loop_invariant E _ _ _ _
             (fun s => Props.seeded_first_answered prompt (Tools.messages s))
             (fun r => Props.seeded_first_answered prompt (snd r))) in Hw.
    - destruct x as [s|[t c0]]; inversion H; subst; exact Hw.
    - intros; eapply tools_loop_body_shape_step; eassumption.
    - intros; eapply tools_loop_body_shape_return; eassumption.
    - exists []. split; [reflexivity | exact I]. }
  destruct Hshape as (turns & -> & Hf).
  exists turns. repeat split; [exact Hf |].
  destruct (first_answered_even _ Hf) as [n Hn].
  exists n. simpl. lia.
Qed.

Lemma call_claude_conversation_shape_witness :
  let E := Script.two_requests_world in
  exists text conversation turns,
    fst (@Tools.call_claude_with_tools E (str "Time and weather?") []
           Script.model_name 5 (Script.start E 0))
      = Ok (Some (text, conversation)) /\
    conversation = user_message (CStr (str "Time and weather?")) :: turns /\
    Props.first_answered turns /\
    Nat.Odd (length conversation).
Proof.
  intros E.
  destruct (@Tools.call_claude_with_tools E (str "Time and weather?") []
              Script.model_name 5 (Script.start E 0))
    as [[[[text conversation]|]|e] st'] eqn:Hrun; try (vm_compute in Hrun; discriminate).
  destruct (call_claude_conversation_shape _ _ _ _ _ Hrun)
    as (turns & Hconv & Hturns & Hodd).
  exists text, conversation, turns. repeat split; assumption.
Defined.


(* ================================================================= *)
(** ** The conversation only grows *)

Lemma prefix_of_refl {A} (l : list A) : Props.prefix_of l l.
Proof. exists []. now rewrite app_nil_r. Qed.

Lemma prefix_of_app {A} (p l extra : list A) :
  Props.prefix_of p l -> Props.prefix_of p (l ++ extra).
Proof. intros [rest ->]. exists (rest ++ extra). now rewrite app_assoc. Qed.

Lemma requests_within_grow model system tools conv extra evs :
  Props.requests_within model system tools conv evs ->
  Props.requests_within model system tools (conv ++ extra) evs.
Proof.
  unfold Props.requests_within. intros H.
  eapply Forall_impl; [| exact H].
  intros [req|n]; [| auto]. intros (Hm & Hs & Ht & Hp).
  repeat split; auto. apply prefix_of_app. exact Hp.
Qed.

Lemma requests_within_tools model system tools conv evs names :
  Props.requests_within model system tools conv evs ->
  Props.requests_within model system tools conv (evs ++ List.map EvTool names).
Proof.
  unfold Props.requests_within. intros H. apply Forall_app. split; [exact H |].
  apply Forall_forall. intros ev Hin. apply in_map_iff in Hin.
  destruct Hin as (n & <- & _). exact I.
Qed.

Lemma requests_within_request model system tools conv evs :
  Props.requests_within model system tools conv evs ->
  Props.requests_within model system tools conv
    (evs ++ [EvModel (mk_request model 4096 system tools conv)]).
Proof.
  unfold Props.requests_within. intros H. apply Forall_app. split; [exact H |].
  constructor; [| constructor]. simpl. repeat split. apply prefix_of_refl.
Qed.

(** The log after a run from [st], as what was added to the log of [st]. *)
Lemma tools_loop_requests {E : Env} tools_list model (st0 : state) s st out st' :
  (exists evs, st_log st = st_log st0 ++ evs /\
     Props.requests_within model None tools_list (Tools.messages s) evs) ->
  Tools.loop_body tools_list model s st = (out, st') ->
  match out with
  | Ok x =>
      exists evs, st_log st' = st_log st0 ++ evs /\
        Props.requests_within model None tools_list
          match x with inl s' => Tools.messages s' | inr r => snd r end evs
  | Raise _ => True
  end.
Proof.
  intros (evs & Hlog & Hreq) Hb.
  apply tools_loop_body_cases in Hb.
  destruct Hb as (r & w' & _ & Hb). cbv zeta in Hb.
  pose proof (requests_within_request Hreq) as Hreq1.
  destruct r as [resp|e]; [| destruct Hb as [-> _]; exact I].
  destruct (str_eqb (stop_reason resp) (str "tool_use")).
  - destruct (Tools.first_tool_use (resp_content resp)) as [[t | id n i |] |];
      try (destruct Hb as [-> ->]; simpl; rewrite Hlog, <- app_assoc;
           eexists; split; [reflexivity | exact Hreq1]; fail).
    destruct Hb as (x & Hx & Hout).
    destruct (ote_execute_tool n i _ Hx) as [names Hnames].
    destruct x as [c|e]; subst out; [| exact I].
    simpl in Hnames. rewrite Hnames, Hlog.
    match type of Hreq1 with
    | Props.requests_within _ _ _ _ ?l => exists (l ++ List.map EvTool names)
    end.
    split; [now rewrite !app_assoc |]. simpl.
    apply requests_within_grow, requests_within_tools. exact Hreq1.
  - destruct Hb as [-> ->]. simpl. rewrite Hlog, <- app_assoc.
    eexists. split; [reflexivity | exact Hreq1].
Qed.

(** X3: in a run of [call_claude_with_tools] that returns, every request
    sent to the model names the given model and tool list and carries an
    initial part of the conversation that is returned in the end: the
    conversation is only ever appended to. *)
Theorem call_claude_requests_are_prefixes {E : Env} (prompt : pystr)
    (tools_list : list pyval) (model : pystr) (k : Z) (st : state)
    (text : pystr) (conversation : list message) (st' : state) :
  Tools.call_claude_with_tools prompt tools_list model k st
    = (Ok (Some (text, conversation)), st') ->
  exists evs,
    st_log st' = st_log st ++ evs /\
    Props.requests_within model None tools_list conversation evs.
Proof.
  intros H. unfold Tools.call_claude_with_tools, bind in H.
  match type of H with
  | context [while_loop ?f ?c ?b ?init st] =>
      destruct (while_loop f c b init st) as [[[x|]|e] st1] eqn:Hw;
      try discriminate
  end.
  apply (@while_loop_outcome E _ _ _ _
           (fun s st2 => exists evs, st_log st2 = st_log st ++ evs /\
              Props.requests_within model None tools_list (Tools.messages s) evs)
           (fun out st2 =>
              match out with
              | Ok (Some x) =>
                  exists evs, st_log st2 = st_log st ++ evs /\
                    Props.requests_within model None tools_list
                      match x with inl s' => Tools.messages s' | inr r => snd r end
                      evs
              | _ => True
              end)) in Hw.
  - destruct x as [s|[t c0]]; inversion H; subst; exact Hw.
  - intros s st2 Hi _. exact Hi.
  - intros; exact I.
  - intros s st2 s' st3 Hi _ Hb.
    exact (tools_loop_requests st s st2 Hi Hb).
  - intros s st2 r st3 Hi _ Hb.
    exact (tools_loop_requests st s st2 Hi Hb).
  - intros; exact I.
  - exists []. split; [now rewrite app_nil_r | constructor].
Qed.

Lemma call_claude_requests_are_prefixes_witness :
  let E := Script.two_requests_world in
  exists text conversation st' evs,
    @Tools.call_claude_with_tools E (str "Time and weather?") []
        Script.model_name 5 (Script.start E 0)
      = (Ok (Some (text, conversation)), st') /\
    st_log st' = evs /\
    Props.requests_within Script.model_name None [] conversation evs.
Proof.
  intros E.
  destruct (@Tools.call_claude_with_tools E (str "Time and weather?") []
              Script.model_name 5 (Script.start E 0))
    as [[[[text conversation]|]|e] st'] eqn:Hrun; try (vm_compute in Hrun; discriminate).
  destruct (call_claude_requests_are_prefixes _ _ _ _ _ Hrun)
    as (evs & Hlog & Hreq).
  exists text, conversation, st', evs. repeat split; assumption.
Defined.

(* ================================================================= *)
(** ** Call budgets of the other loops *)

Section WhileBudget.
Context {E : Env} {S R : Type}.
Variable cond : S -> bool.
Variable body : S -> M (S + R).
Variable count : S -> Z.
Variable bound : Z.
Hypothesis cond_bound : forall s, cond s = true -> (count s < bound)%Z.
Hypothesis body_one_call : forall s st out st',
  body s st = (out, st') ->
  model_calls (st_log st') = Datatypes.S (model_calls (st_log st)) /\
  forall s', out = Ok (inl s') -> count s' = (count s + 1)%Z.

Lemma while_loop_budget fuel (c0 : nat) : forall s st out st',
  (0 <= count s <= Z.max bound 0)%Z ->
  model_calls (st_log st) <= c0 + Z.to_nat (count s) ->
  while_loop fuel cond body s st = (out, st') ->
  model_calls (st_log st') <= c0 + Z.to_nat bound.
Proof.
  intros s st out st' Hc Hn Hw.
  apply (@while_loop_outcome E _ _ cond body
           (fun s st2 => (0 <= count s <= Z.max bound 0)%Z /\
                         model_calls (st_log st2) <= c0 + Z.to_nat (count s))
           (fun _ st2 => model_calls (st_log st2) <= c0 + Z.to_nat bound))
    in Hw; [exact Hw | | | | | | auto].
  - intros s0 st0 (Hi & Hm) _. lia.
  - intros s0 st0 (Hi & Hm). lia.
  - intros s0 st0 s1 st1 (Hi & Hm) Hcond Hb. apply cond_bound in Hcond.
    destruct (body_one_call Hb) as (H1 & H2). rewrite (H2 _ eq_refl). lia.
  - intros s0 st0 r st1 (Hi & Hm) Hcond Hb. apply cond_bound in Hcond.
    destruct (body_one_call Hb) as (H1 & _). lia.
  - intros s0 st0 e st1 (Hi & Hm) Hcond Hb. apply cond_bound in Hcond.
    destruct (body_one_call Hb) as (H1 & _). lia.
Qed.

End WhileBudget.

Lemma campaign_run_tools_calls {E : Env} bs st out st' :
  Campaign.run_tools bs st = (out, st') ->
  model_calls (st_log st') = model_calls (st_log st).
Proof.
  intros H. destruct (ote_campaign_run_tools bs _ H) as [names ->].
  apply model_calls_tools.
Qed.

Lemma research_run_tools_calls {E : Env} bs st out st' :
  ComponentEval.run_tools bs st = (out, st') ->
  model_calls (st_log st') = model_calls (st_log st).
Proof.
  intros H. destruct (ote_research_run_tools bs _ H) as [names ->].
  apply model_calls_tools.
Qed.

Lemma campaign_loop_body_one_call {E : Env} model rm s st out st' :
  Campaign.loop_body model rm s st = (out, st') ->
  model_calls (st_log st') = S (model_calls (st_log st)) /\
  forall s', out = Ok (inl s') ->
    Campaign.iteration s' = (Campaign.iteration s + 1)%Z.
Proof.
  intros H. split.
  - unfold Campaign.loop_body, bind in H.
    match type of H with
    | context [create ?req st] =>
        destruct (messages_create req (st_world st)) as [r w'] eqn:Hc;
        rewrite (create_run _ _ Hc) in H
    end.
    destruct r as [resp|e]; [| inversion H; subst; simpl; apply model_calls_model].
    destruct (str_eqb (stop_reason resp) (str "tool_use"));
      [| inversion H; subst; simpl; apply model_calls_model].
    destruct (Campaign.run_tools (resp_content resp) _) as [[rs|e] st2] eqn:Hr;
      apply campaign_run_tools_calls in Hr; inversion H; subst;
      rewrite Hr; simpl; apply model_calls_model.
  - intros s' ->. eapply campaign_loop_body_counts; exact H.
Qed.

Lemma research_loop_body_one_call {E : Env} model s st out st' :
  ComponentEval.loop_body model s st = (out, st') ->
  model_calls (st_log st') = S (model_calls (st_log st)) /\
  forall s', out = Ok (inl s') ->
    ComponentEval.iteration s' = (ComponentEval.iteration s + 1)%Z.
Proof.
  intros H. split.
  - unfold ComponentEval.loop_body, bind in H.
    destruct (ComponentEval.run_tools _ st) as [[rs|e] st1] eqn:Hr.
    + apply research_run_tools_calls in Hr.
      match type of H with
      | context [create ?req st1] =>
          destruct (messages_create req (st_world st1)) as [r w'] eqn:Hc;
          rewrite (create_run _ _ Hc) in H
      end.
      destruct r; inversion H; subst; simpl; rewrite model_calls_model; lia.
    + destruct (research_run_tools_returns
                  (resp_content (ComponentEval.response s)) st)
        as (rs & st2 & Hr' & _). congruence.
  - intros s' ->. eapply research_loop_body_counts; exact H.
Qed.

(** X4: whatever the model answers and whatever the tools do,
    [market_research_agent] makes at most 10 model calls. *)
Theorem market_research_agent_budget {E : Env} (model : pystr)
    (return_messages : bool) (st : state) :
  model_calls
    (st_log (snd (Campaign.market_research_agent model return_messages st)))
  <= model_calls (st_log st) + 10.
Proof.
  unfold Campaign.market_research_agent, bind at 1.
  destruct (outside None _ st) as [[today|e] st0] eqn:Hnow.
  2:{ apply nmc_outside in Hnow. simpl. lia. }
  apply nmc_outside in Hnow. unfold bind.
  match goal with
  | |- context [while_loop ?f ?c ?b ?init st0] =>
      destruct (while_loop f c b init st0) as [out st1] eqn:Hw
  end.
  apply (@while_loop_budget E _ _ _ _ Campaign.iteration Campaign.max_iterations)
    with (c0 := model_calls (st_log st)) in Hw.
  - change (Z.to_nat Campaign.max_iterations) with 10 in Hw.
    destruct out as [[[s|r]|]|e]; simpl; exact Hw.
  - intros s H. apply Z.ltb_lt in H. exact H.
  - intros s st2 out0 st3 Hb. eapply campaign_loop_body_one_call; exact Hb.
  - simpl. unfold Campaign.max_iterations. lia.
  - simpl. lia.
Qed.

(** X5: [find_references] never raises and makes at most 6 model calls:
    every failure of the model endpoint or of a tool ends in a returned
    value. *)
Theorem find_references_never_raises {E : Env} (task model : pystr)
    (return_messages : bool) (st : state) :
  exists v st',
    ComponentEval.find_references task model return_messages st
      = (Ok (Some v), st') /\
    model_calls (st_log st') <= model_calls (st_log st) + 6.
Proof.
  pose proof (find_references_total task model return_messages st) as Htotal.
  destruct (ComponentEval.find_references task model return_messages st)
    as [out st'] eqn:Hrun0.
  simpl in Htotal.
  unfold ComponentEval.find_references in Hrun0. unfold bind at 1 in Hrun0.
  destruct (outside None _ st) as [[today|e] st0] eqn:Hnow.
  2:{ unfold outside in Hnow.
      destruct (now_strftime _ _); discriminate. }
  apply nmc_outside in Hnow.
  assert (Hok : exists v, out = Ok v).
  { unfold try_except in Hrun0.
    match type of Hrun0 with
    | context [match ?m st0 with _ => _ end] =>
        destruct (m st0) as [[a|e0] st2]; inversion Hrun0; eauto
    end. }
  destruct Hok as [[v|] ->]; [| contradiction].
  exists v, st'. split; [reflexivity |].
  unfold try_except, bind in Hrun0.
  match type of Hrun0 with
  | context [create ?req st0] =>
      destruct (messages_create req (st_world st0)) as [r w'] eqn:Hc;
      rewrite (create_run _ _ Hc) in Hrun0
  end.
  destruct r as [r0|e].
  2:{ inversion Hrun0; subst. simpl. rewrite model_calls_model. lia. }
  match type of Hrun0 with
  | context [while_loop ?f ?c ?b ?init ?st1] =>
      destruct (while_loop f c b init st1) as [wout st2] eqn:Hw
  end.
  apply (@while_loop_budget E _ _ _ _ ComponentEval.iteration
           ComponentEval.max_iterations)
    with (c0 := S (model_calls (st_log st))) in Hw.
  - change (Z.to_nat ComponentEval.max_iterations) with 5 in Hw.
    destruct wout as [[[s|[]]|]|e]; inversion Hrun0; subst; lia.
  - intros s H. apply andb_true_iff in H. destruct H as [_ H].
    apply Z.ltb_lt in H. exact H.
  - intros s st3 out0 st4 Hb. eapply research_loop_body_one_call; exact Hb.
  - simpl. unfold ComponentEval.max_iterations. lia.
  - simpl. rewrite model_calls_model. lia.
Qed.
(* ================================================================= *)
(** ** find_references when the model endpoint fails *)

(** X6: when the first model call of [find_references] raises, the
    function returns the plain string ["[Model Error: message]"] -- also
    when [return_messages] is set, so that the caller gets a string where
    a pair was asked for -- after that one model call. *)
Theorem find_references_model_error {E : Env} (task model : pystr)
    (return_messages : bool) (st : state) (today : pystr) (w0 w1 : world)
    (e : exn) :
  now_strftime (str "%Y-%m-%d") (st_world st) = (today, w0) ->
  messages_create
    (ComponentEval.research_request model
       [user_message (CStr (ComponentEval.research_prompt task today))])
    w0 = (Raise e, w1) ->
  let run := ComponentEval.find_references task model return_messages st in
  fst run = Ok (Some (RetText (str "[Model Error: " ++ exn_str e ++ str "]"))) /\
  model_calls (st_log (snd run)) = S (model_calls (st_log st)).
Proof.
  intros Hnow Hc run. subst run. unfold ComponentEval.find_references.
  erewrite bind_ok by (unfold outside; rewrite Hnow; reflexivity).
  erewrite try_except_raise.
  2:{ apply bind_raise. apply create_run. exact Hc. }
  simpl. split; [reflexivity | apply model_calls_model].
Qed.

Lemma find_references_model_error_witness :
  fst (@ComponentEval.find_references Worlds.down (str "black holes")
         Script.model_name true (Script.start Worlds.down 0))
    = Ok (Some (RetText (str "[Model Error: Connection error.]"))).
Proof.
  destruct (@find_references_model_error Worlds.down (str "black holes")
              Script.model_name true (Script.start Worlds.down 0)
              (str "2025-01-15") 0 1
              (mk_exn (str "APIConnectionError") (str "Connection error."))
              eq_refl eq_refl) as [H _].
  exact H.
Defined.

(* ================================================================= *)
(** ** execute_tool and its tools *)

Lemma dict_getitem_none {E : Env} d k st :
  dict_get d k = None -> dict_getitem d k st = (Raise (KeyError k), st).
Proof. intros H. unfold dict_getitem. rewrite H. reflexivity. Qed.

Lemma dict_getitem_some {E : Env} d k v st :
  dict_get d k = Some v -> dict_getitem d k st = (Ok v, st).
Proof. intros H. unfold dict_getitem. rewrite H. reflexivity. Qed.

(** X7: when the input of [write_txt_file] or [generate_qr_code] lacks
    one of the keys that [execute_tool] reads, [execute_tool] raises
    [KeyError] for the first missing key in the order in which it reads
    them ([filename], [content]; [data], [filename], [image_path]),
    before the tool is entered: nothing is written and the outside is
    untouched. *)
Theorem execute_tool_missing_key {E : Env} (tool_name : pystr)
    (tool_input : pydict) (st : state) (before : list pystr) (key : pystr)
    (after : list pystr) :
  Props.required_keys tool_name = before ++ key :: after ->
  Forall (fun k => dict_get tool_input k <> None) before ->
  dict_get tool_input key = None ->
  Tools.execute_tool tool_name tool_input st = (Raise (KeyError key), st).
Proof.
  unfold Props.required_keys, Tools.execute_tool.
  destruct (str_eqb tool_name (str "get_current_time")) eqn:E1.
  { apply str_eqb_eq in E1. subst. simpl. intros H.
    destruct before; discriminate. }
  destruct (str_eqb tool_name (str "get_weather_from_ip")) eqn:E2.
  { apply str_eqb_eq in E2. subst. simpl. intros H.
    destruct before; discriminate. }
  destruct (str_eqb tool_name (str "write_txt_file")) eqn:E3.
  { intros Hkeys Hbefore Hkey.
    destruct before as [|k1 [|k2 [|k3 before]]].
    - inversion Hkeys; subst.
      erewrite bind_raise by (apply dict_getitem_none; exact Hkey).
      reflexivity.
    - inversion Hkeys; subst. inversion Hbefore; subst.
      destruct (dict_get tool_input (str "filename")) as [f|] eqn:Hf;
        [| congruence].
      erewrite bind_ok by (apply dict_getitem_some; exact Hf).
      erewrite bind_raise by (apply dict_getitem_none; exact Hkey).
      reflexivity.
    - inversion Hkeys; try (destruct before; discriminate).
    - inversion Hkeys; try (destruct before; discriminate). }
  destruct (str_eqb tool_name (str "generate_qr_code")) eqn:E4;
    [| intros H; destruct before; discriminate].
  intros Hkeys Hbefore Hkey.
  destruct before as [|k1 [|k2 [|k3 [|k4 before]]]].
  - inversion Hkeys; subst.
    erewrite bind_raise by (apply dict_getitem_none; exact Hkey).
    reflexivity.
  - inversion Hkeys; subst. inversion Hbefore; subst.
    destruct (dict_get tool_input (str "data")) as [d|] eqn:Hd; [| congruence].
    erewrite bind_ok by (apply dict_getitem_some; exact Hd).
    erewrite bind_raise by (apply dict_getitem_none; exact Hkey).
    reflexivity.
  - inversion Hkeys; subst.
    inversion Hbefore as [|? ? Hd' Hrest]; subst.
    inversion Hrest as [|? ? Hf' _]; subst.
    destruct (dict_get tool_input (str "data")) as [d|] eqn:Hd; [| congruence].
    destruct (dict_get tool_input (str "filename")) as [f|] eqn:Hf;
      [| congruence].
    erewrite bind_ok by (apply dict_getitem_some; exact Hd).
    erewrite bind_ok by (apply dict_getitem_some; exact Hf).
    erewrite bind_raise by (apply dict_getitem_none; exact Hkey).
    reflexivity.
  - inversion Hkeys; try (destruct before; discriminate).
  - inversion Hkeys; try (destruct before; discriminate).
Qed.

Lemma execute_tool_missing_key_witness :
  let E := Script.time_world in
  @Tools.execute_tool E (str "generate_qr_code")
      [(str "data", PStr (str "www.deeplearning.ai"));
       (str "image_path", PStr (str "dl_logo.jpg"))] (Script.start E 0)
    = (Raise (KeyError (str "filename")), Script.start E 0).
Proof.
  intros E.
  apply (@execute_tool_missing_key E (str "generate_qr_code")
           [(str "data", PStr (str "www.deeplearning.ai"));
            (str "image_path", PStr (str "dl_logo.jpg"))]
           (Script.start E 0) [str "data"] (str "filename")
           [str "image_path"]).
  - reflexivity.
  - constructor; [discriminate | constructor].
  - reflexivity.
Defined.

Lemma startswith_rev_app (suffix s : pystr) :
  Tools.endswith suffix (s ++ suffix) = true.
Proof.
  unfold Tools.endswith. rewrite rev_app_distr. apply startswith_app.
Qed.

(** X8: [write_txt_file] opens one file at most, and its name ends in
    [.txt]: the given name when it already does, that name with [.txt]
    appended otherwise.  A failure to write is raised; after a successful
    write the returned message names the file that was written. *)
Theorem write_txt_file_names_txt {E : Env} (filename : pystr) (content : pyval)
    (st : state) :
  exists final,
    Tools.endswith (str ".txt") final = true /\
    (Tools.endswith (str ".txt") filename = true -> final = filename) /\
    (Tools.endswith (str ".txt") filename = false ->
     final = filename ++ str ".txt") /\
    let st1 := mk_state (st_world st) (st_log st ++ [EvTool (str "write_txt_file")]) in
    Tools.write_txt_file (PStr filename) content st
      = match open_write final content (st_world st) with
        | (Ok _, w') =>
            (Ok (str "Successfully wrote content to " ++ final),
             mk_state w' (st_log st1))
        | (Raise e, w') => (Raise e, mk_state w' (st_log st1))
        end.
Proof.
  exists (if Tools.endswith (str ".txt") filename then filename
          else filename ++ str ".txt").
  destruct (Tools.endswith (str ".txt") filename) eqn:Hend.
  - repeat split; try congruence.
    unfold Tools.write_txt_file, bind, Tools.enter, outside. simpl.
    rewrite Hend. destruct (open_write filename content (st_world st)) as [[[]|e] w'];
      reflexivity.
  - repeat split; try congruence; [apply startswith_rev_app |].
    unfold Tools.write_txt_file, bind, Tools.enter, outside. simpl.
    rewrite Hend.
    destruct (open_write (filename ++ str ".txt") content (st_world st))
      as [[[]|e] w']; reflexivity.
Qed.

(** X9: apart from the two tools that take input, [execute_tool]
    returns a string whenever the [import requests] at the head of
    [get_weather_from_ip] succeeds: for [get_current_time], for
    [get_weather_from_ip] (which turns a failed lookup into a message) and
    for every unknown name.  A failed import is outside the [try] block of
    [get_weather_from_ip], and is raised out of [execute_tool]. *)
Theorem execute_tool_returns {E : Env} (tool_name : pystr)
    (tool_input : pydict) (st : state) :
  tool_name <> str "write_txt_file" ->
  tool_name <> str "generate_qr_code" ->
  ((tool_name = str "get_weather_from_ip" ->
    exists w', import_requests (st_world st) = (Ok tt, w')) ->
   exists text st',
     Tools.execute_tool tool_name tool_input st = (Ok text, st')) /\
  (forall e w',
     tool_name = str "get_weather_from_ip" ->
     import_requests (st_world st) = (Raise e, w') ->
     Tools.execute_tool tool_name tool_input st
       = (Raise e,
          mk_state w' (st_log st ++ [EvTool (str "get_weather_from_ip")]))).
Proof.
  intros H1 H2. unfold Tools.execute_tool.
  rewrite (str_eqb_neq H1), (str_eqb_neq H2).
  destruct (str_eqb tool_name (str "get_current_time")) eqn:E1.
  { apply str_eqb_eq in E1. subst tool_name. split.
    - intros _.
      unfold Tools.get_current_time, bind, Tools.enter, outside. simpl.
      destruct (now_strftime _ _). eexists _, _; reflexivity.
    - intros e w' Hn. discriminate. }
  destruct (str_eqb tool_name (str "get_weather_from_ip")) eqn:E2.
  { apply str_eqb_eq in E2. split.
    - intros Himport. destruct (Himport E2) as [w' Hw].
      unfold Tools.get_weather_from_ip, bind, try_except, Tools.enter, outside.
      simpl. rewrite Hw. cbn [st_world st_log].
      destruct (weather_lookup w') as [[s|e] w2]; eexists _, _; reflexivity.
    - intros e w' _ Hw.
      unfold Tools.get_weather_from_ip, bind, Tools.enter, outside.
      simpl. rewrite Hw. reflexivity. }
  split.
  - intros _. eexists _, _; reflexivity.
  - intros e w' Hn. subst tool_name. discriminate.
Qed.

Lemma execute_tool_returns_witness :
  let E := Script.time_world in
  exists text st',
    @Tools.execute_tool E (str "get_weather_from_ip") [] (Script.start E 0)
      = (Ok text, st').
Proof.
  intros E.
  destruct (@execute_tool_returns E (str "get_weather_from_ip") []
              (Script.start E 0)) as [H _]; try discriminate.
  apply H. intros _. exists 0. reflexivity.
Defined.

(* ================================================================= *)
(** ** handle_tool_call *)

(** X10: [handle_tool_call] returns a value only when the arguments of
    the call parse to a JSON object and the function name is one of the
    two in its table; for [product_catalog_tool] the object must also be
    empty.  Every other call raises. *)
Theorem handle_tool_call_returns_only {E : Env} (tc : MultiTools.tool_call)
    (st : state) (v : pyval) (st' : state) :
  MultiTools.handle_tool_call tc st = (Ok v, st') ->
  exists d,
    json_loads (MultiTools.function_arguments tc) = Ok (PDict d) /\
    (MultiTools.function_name tc = str "tavily_search_tool" \/
     (MultiTools.function_name tc = str "product_catalog_tool" /\
      d = [] /\ v = MultiTools.product_catalog_tool)).
Proof.
  unfold MultiTools.handle_tool_call, bind.
  destruct (json_loads (MultiTools.function_arguments tc)) as [a|e];
    [| discriminate].
  destruct (str_eqb (MultiTools.function_name tc) (str "tavily_search_tool")) eqn:E1.
  { apply str_eqb_eq in E1. simpl.
    destruct a; try discriminate. eauto. }
  destruct (str_eqb (MultiTools.function_name tc) (str "product_catalog_tool")) eqn:E2;
    [| discriminate].
  apply str_eqb_eq in E2. simpl.
  destruct a as [| | | | | | d]; try discriminate.
  destruct d as [|[k x] d]; [| discriminate].
  intros H. inversion H. eauto 10.
Qed.

Lemma handle_tool_call_returns_only_witness :
  let E := Script.time_world in
  exists d,
    json_loads (str "{}") = Ok (PDict d) /\ d = [].
Proof.
  intros E.
  destruct (@handle_tool_call_returns_only E
              (MultiTools.mk_tool_call (str "call_1")
                 (str "product_catalog_tool") (str "{}"))
              (Script.start E 0) MultiTools.product_catalog_tool
              (@mk_state E 0 [EvTool (str "product_catalog_tool")]) eq_refl)
    as (d & Hd & [H | (_ & -> & _)]).
  - discriminate.
  - exists []. split; [exact Hd | reflexivity].
Defined.

(** X11: [get_available_tools] declares a parameter [max_items] for
    [product_catalog_tool], but the definition of that function that is in
    force takes none: [handle_tool_call] raises [TypeError] on every call
    of [product_catalog_tool] that passes an argument, and the catalog is
    not read. *)
Theorem product_catalog_tool_takes_no_argument {E : Env}
    (tc : MultiTools.tool_call) (st : state) (k : pystr) (x : pyval)
    (d : pydict) :
  MultiTools.function_name tc = str "product_catalog_tool" ->
  json_loads (MultiTools.function_arguments tc) = Ok (PDict ((k, x) :: d)) ->
  In (str "max_items")
     (OpenAITools.declared_parameters OpenAITools.get_available_tools
        (str "product_catalog_tool")) /\
  exists e,
    MultiTools.handle_tool_call tc st = (Raise e, st) /\
    exn_class e = str "TypeError".
Proof.
  intros Hname Hargs. split; [simpl; auto |].
  unfold MultiTools.handle_tool_call, bind. rewrite Hargs, Hname. simpl.
  eexists. split; reflexivity.
Qed.

Lemma product_catalog_tool_takes_no_argument_witness :
  let E := Worlds.max_items in
  exists e,
    @MultiTools.handle_tool_call E
        (MultiTools.mk_tool_call (str "call_1") (str "product_catalog_tool")
           Worlds.max_items_json) (Script.start E 0)
      = (Raise e, Script.start E 0) /\
    exn_class e = str "TypeError".
Proof.
  intros E.
  destruct (@product_catalog_tool_takes_no_argument E
              (MultiTools.mk_tool_call (str "call_1") (str "product_catalog_tool")
                 Worlds.max_items_json) (Script.start E 0)
              (str "max_items") (PInt 5) [] eq_refl eq_refl) as [_ H].
  exact H.
Defined.
(* ================================================================= *)
(** ** More on the URL scan *)

Lemma span_url_split (s : pystr) :
  exists post,
    s = Re.span_url s ++ post /\
    match post with [] => True | c :: _ => Re.url_char c = false end.
Proof.
  induction s as [|c s (post & IH & Hpost)]; [exists []; split; auto |].
  simpl. destruct (Re.url_char c) eqn:Hc.
  - exists post. split; [simpl; congruence | exact Hpost].
  - exists (c :: s). split; [reflexivity | exact Hc].
Qed.

Lemma match_body_split (scheme rest u : pystr) :
  Re.match_body scheme rest = Some u ->
  exists body post,
    u = scheme ++ body /\ rest = body ++ post /\ body <> [] /\
    forallb Re.url_char body = true /\
    match post with [] => True | c :: _ => Re.url_char c = false end.
Proof.
  unfold Re.match_body. intros H.
  destruct (span_url_split rest) as (post & Hrest & Hpost).
  pose proof (span_url_forall rest) as Hall.
  destruct (Re.span_url rest) as [|c body] eqn:Hs; [discriminate |].
  inversion H; subst u. exists (c :: body), post.
  repeat split; auto. discriminate.
Qed.

(** A match at the head of [s], with what is left of [s] behind it. *)
Lemma match_at_split (s u : pystr) :
  Re.match_at s = Some u ->
  Spec.spec_url_match u /\
  exists post, s = u ++ post /\
    match post with [] => True | c :: _ => Re.url_char c = false end.
Proof.
  unfold Re.match_at.
  destruct s as [|h [|t1 [|t2 [|p r]]]]; try discriminate.
  destruct (Re.is_h h && Re.is_t t1 && Re.is_t t2 && Re.is_p p) eqn:Hc;
    [| discriminate].
  apply andb_true_iff in Hc; destruct Hc as [Hc Hp].
  apply andb_true_iff in Hc; destruct Hc as [Hc Ht2].
  apply andb_true_iff in Hc; destruct Hc as [Hh Ht1].
  assert (Hplain : forall u0,
    match Re.match_sep r with
    | Some rest => Re.match_body [h; t1; t2; p; 58; 47; 47]%N rest
    | None => None
    end = Some u0 ->
    Spec.spec_url_match u0 /\
    exists post, h :: t1 :: t2 :: p :: r = u0 ++ post /\
      match post with [] => True | c :: _ => Re.url_char c = false end).
  { intros u0 Hu0. destruct (Re.match_sep r) as [rest|] eqn:Hsep; [| discriminate].
    apply match_sep_some in Hsep. subst r.
    apply match_body_split in Hu0.
    destruct Hu0 as (body & post & -> & -> & Hne & Hall & Hpost). split.
    - exists [h; t1; t2; p; 58; 47; 47]%N, body. repeat split; auto.
      exists h, t1, t2, p. auto 10.
    - exists post. split; [reflexivity | exact Hpost]. }
  destruct r as [|c r']; [exact (Hplain u) |].
  destruct (Re.is_s c) eqn:Hsc; [| exact (Hplain u)].
  destruct (Re.match_sep r') as [rest|] eqn:Hsep; [| exact (Hplain u)].
  destruct (Re.match_body [h; t1; t2; p; c; 58; 47; 47]%N rest) as [u1|] eqn:Hb;
    [| exact (Hplain u)].
  intros Hu. inversion Hu; subst u1.
  apply match_sep_some in Hsep. subst r'.
  apply match_body_split in Hb.
  destruct Hb as (body & post & -> & -> & Hne & Hall & Hpost). split.
  - exists [h; t1; t2; p; c; 58; 47; 47]%N, body. repeat split; auto.
    exists h, t1, t2, p. repeat split; auto. right. exists c. auto.
  - exists post. split; [reflexivity | exact Hpost].
Qed.

Lemma scan_skip : forall (s : pystr) (k : nat),
  Re.scan k s = Re.scan 0 (skipn k s).
Proof.
  induction s as [|c s IH]; intros k.
  - destruct k; reflexivity.
  - destruct k as [|k]; [reflexivity |]. simpl. apply IH.
Qed.

Lemma spec_url_match_length (u : pystr) :
  Spec.spec_url_match u -> 8 <= length u.
Proof.
  intros (sch & body & -> & (h & t1 & t2 & p & _ & _ & _ & _ & Hsch) & Hne & _).
  rewrite length_app. destruct body; [congruence |].
  destruct Hsch as [-> | (c & _ & ->)]; simpl; lia.
Qed.

Lemma findall_match (u post : pystr) :
  Re.match_at (u ++ post) = Some u -> Spec.spec_url_match u ->
  Re.findall (u ++ post) = u :: Re.findall post.
Proof.
  intros Hm Hu. pose proof (spec_url_match_length Hu) as Hlen.
  unfold Re.findall.
  destruct u as [|c u']; [simpl in Hlen; lia |].
  change ((c :: u') ++ post) with (c :: (u' ++ post)) in *.
  cbn [Re.scan]. rewrite Hm. f_equal.
  rewrite scan_skip. simpl. rewrite Nat.sub_0_r.
  rewrite skipn_app, skipn_all, Nat.sub_diag. reflexivity.
Qed.

Lemma findall_no_match (c : N) (s : pystr) :
  Re.match_at (c :: s) = None -> Re.findall (c :: s) = Re.findall s.
Proof. intros H. unfold Re.findall. cbn [Re.scan]. rewrite H. reflexivity. Qed.

Lemma no_match_no_start (s : pystr) :
  Re.match_at s = None -> ~ Props.starts_url s.
Proof.
  intros H (u & post & -> & Hu).
  destruct (match_at_complete post Hu) as [u' Hu']. congruence.
Qed.

Lemma laid_out_cons (urls : list pystr) (c : N) (s : pystr) :
  Re.match_at (c :: s) = None ->
  Props.laid_out urls s -> Props.laid_out urls (c :: s).
Proof.
  intros Hm. pose proof (no_match_no_start Hm) as Hno.
  destruct urls as [|u urls]; simpl.
  - intros Hnone (pre & u & post & Heq & Hu).
    destruct pre as [|c' pre].
    + apply Hno. exists u, post. auto.
    + inversion Heq; subst. apply Hnone. exists pre, u, post. auto.
  - intros (pre & rest & -> & Hu & Hrest & Hgap & Hl).
    exists (c :: pre), rest. repeat split; auto.
    intros p1 p2 Heq Hne.
    destruct p1 as [|c' p1].
    + simpl in Heq. subst p2. exact Hno.
    + inversion Heq; subst. apply (Hgap p1 p2); auto.
Qed.

(** The scan lays its matches out from left to right. *)
Lemma findall_laid_out (text : pystr) : Props.laid_out (Re.findall text) text.
Proof.
  remember (length text) as n eqn:Hn.
  assert (Hle : length text <= n) by lia. clear Hn.
  revert text Hle. induction n as [|n IH]; intros text Hle.
  - destruct text; [| simpl in Hle; lia].
    simpl. intros H. apply findall_has_url in H. apply H. reflexivity.
  - destruct text as [|c s].
    + simpl. intros H. apply findall_has_url in H. apply H. reflexivity.
    + destruct (Re.match_at (c :: s)) as [u|] eqn:Hm.
      * destruct (match_at_split _ Hm) as (Hu & post & Heq & Hpost).
        rewrite Heq in Hm |- *. rewrite (findall_match _ Hm Hu).
        simpl. exists [], post. repeat split; auto.
        -- intros p1 p2 Hnil Hne. destruct p1, p2; try discriminate.
           congruence.
        -- apply IH. pose proof (spec_url_match_length Hu).
           assert (length (c :: s) = length (u ++ post)) by congruence.
           rewrite length_app in *. simpl in *. lia.
      * rewrite findall_no_match by exact Hm. apply laid_out_cons; [exact Hm |].
        apply IH. simpl in Hle. lia.
Qed.

(** X12: [extract_urls] (and the scan of [evaluate_tavily_results])
    returns the matches of the URL pattern from left to right: they lie in
    the text in the order returned and do not overlap, each runs on up to
    the end of the text or the next whitespace or closing delimiter, no
    match starts in the text skipped before a returned URL, and the text
    after the last one holds no URL. *)
Theorem extract_urls_layout (text : pystr) :
  Props.laid_out (Utils.extract_urls text) text.
Proof. unfold Utils.extract_urls. apply findall_laid_out. Qed.

(** X13: every URL that [evaluate_tavily_results] extracts has a third
    piece when split at [/], so its [IndexError] handler is never entered:
    the domain is always the piece between [//] and the next [/]. *)
Theorem extracted_url_has_domain (raw u : pystr) :
  In u (Re.findall raw) ->
  exists pre domain,
    split_on 47 u = pre :: [] :: domain :: skipn 3 (split_on 47 u) /\
    ComponentEval.url_domain u = domain /\
    Props.no_slash domain.
Proof.
  intros Hin. apply scan_sound in Hin. destruct Hin as [Hu _].
  assert (Hpieces : forall s, Forall Props.no_slash (split_on 47 s)).
  { induction s as [|c s IH]; simpl; [repeat constructor |].
    destruct (N.eqb c 47) eqn:Hc; [constructor; [reflexivity | exact IH] |].
    destruct (split_on 47 s) as [|x l].
    - constructor; [| constructor]. unfold Props.no_slash. simpl.
      rewrite Hc. reflexivity.
    - inversion IH; subst. constructor; [| assumption].
      unfold Props.no_slash in *. simpl. rewrite Hc. assumption. }
  destruct Hu as (sch & body & -> & (h & t1 & t2 & p & Hh & Ht1 & Ht2 & Hp & Hsch) & _).
  assert (Hslashes : forall pre, Props.no_slash pre ->
            exists d l,
              split_on 47 (pre ++ 47 :: 47 :: body)%N = pre :: [] :: d :: l).
  { intros pre Hpre. destruct (split_on_nonempty 47 body) as (d & l & Hs).
    exists d, l. induction pre as [|c pre IH]; simpl.
    - rewrite Hs. reflexivity.
    - unfold Props.no_slash in Hpre. simpl in Hpre.
      apply andb_true_iff in Hpre. destruct Hpre as [Hc Hpre].
      apply negb_true_iff in Hc. rewrite Hc, (IH Hpre). reflexivity. }
  assert (Hsplit : exists pre d l, split_on 47 (sch ++ body) = pre :: [] :: d :: l).
  { destruct Hsch as [-> | (c & Hc & ->)].
    - destruct (Hslashes [h; t1; t2; p; 58]%N) as (d & l & Hs).
      + unfold Props.no_slash. simpl.
        rewrite !(@scheme_letter_not_slash h), !(@scheme_letter_not_slash t1),
          !(@scheme_letter_not_slash t2), !(@scheme_letter_not_slash p);
          try reflexivity;
          rewrite ?Hh, ?Ht1, ?Ht2, ?Hp; simpl; rewrite ?orb_true_r; reflexivity.
      + exists [h; t1; t2; p; 58]%N, d, l. exact Hs.
    - destruct (Hslashes [h; t1; t2; p; c; 58]%N) as (d & l & Hs).
      + unfold Props.no_slash. simpl.
        rewrite !(@scheme_letter_not_slash h), !(@scheme_letter_not_slash t1),
          !(@scheme_letter_not_slash t2), !(@scheme_letter_not_slash p),
          !(@scheme_letter_not_slash c);
          try reflexivity;
          rewrite ?Hh, ?Ht1, ?Ht2, ?Hp, ?Hc; simpl; rewrite ?orb_true_r;
          reflexivity.
      + exists [h; t1; t2; p; c; 58]%N, d, l. exact Hs. }
  destruct Hsplit as (pre & d & l & Hs).
  exists pre, d. pose proof (Hpieces (sch ++ body)) as Hall.
  rewrite Hs in Hall |- *. split; [reflexivity |]. split.
  - unfold ComponentEval.url_domain, ComponentEval.getitem. rewrite Hs.
    reflexivity.
  - inversion Hall as [|? ? _ Hall1]; inversion Hall1 as [|? ? _ Hall2];
      inversion Hall2; assumption.
Qed.

Lemma extracted_url_has_domain_witness :
  ComponentEval.url_domain (str "https://arxiv.org/abs/1706.03762")
    = str "arxiv.org".
Proof.
  destruct (@extracted_url_has_domain
              (str "see (https://arxiv.org/abs/1706.03762) and more")
              (str "https://arxiv.org/abs/1706.03762"))
    as (pre & domain & Hsplit & Hdom & _).
  - vm_compute. left. reflexivity.
  - rewrite Hdom. vm_compute in Hsplit.
    injection Hsplit as _ Hd. rewrite <- Hd. reflexivity.
Defined.


(* ================================================================= *)
(** ** Which URLs are preferred *)

Lemma startswith_prefix (p s : pystr) :
  startswith p s = true -> exists post, s = p ++ post.
Proof.
  revert s. induction p as [|c p IH]; intros s H; [exists s; reflexivity |].
  destruct s as [|c' s]; [discriminate |]. simpl in H.
  apply andb_true_iff in H. destruct H as [Hc H].
  apply N.eqb_eq in Hc. subst c'. destruct (IH _ H) as [post ->].
  exists post. reflexivity.
Qed.

Lemma str_contains_iff (n h : pystr) :
  str_contains n h = true <-> exists a b, h = a ++ n ++ b.
Proof.
  split.
  - induction h as [|c h IH]; simpl; intros H.
    + rewrite orb_false_r in H. apply startswith_prefix in H.
      destruct H as [post H]. exists [], post. exact H.
    + apply orb_true_iff in H. destruct H as [H | H].
      * apply startswith_prefix in H. destruct H as [post H].
        exists [], post. exact H.
      * destruct (IH H) as (a & b & ->). exists (c :: a), b. reflexivity.
  - intros (a & b & ->). apply str_contains_app.
Qed.

Lemma split_on_no_sep (d : pystr) :
  Props.no_slash d -> split_on 47 d = [d].
Proof.
  unfold Props.no_slash. induction d as [|c d IH]; [reflexivity |].
  simpl. intros H. apply andb_true_iff in H. destruct H as [Hc H].
  apply negb_true_iff in Hc. rewrite Hc, (IH H). reflexivity.
Qed.

Lemma split_on_app_sep (d r : pystr) :
  Props.no_slash d -> split_on 47 (d ++ 47%N :: r) = d :: split_on 47 r.
Proof.
  unfold Props.no_slash. induction d as [|c d IH]; [reflexivity |].
  simpl. intros H. apply andb_true_iff in H. destruct H as [Hc H].
  apply negb_true_iff in Hc. rewrite Hc, (IH H). reflexivity.
Qed.

Lemma spec_scheme_split (sch : pystr) :
  Spec.spec_scheme sch ->
  exists pre, sch = pre ++ [47; 47]%N /\ Props.no_slash pre.
Proof.
  intros (h & t1 & t2 & p & Hh & Ht1 & Ht2 & Hp & Hsch).
  assert (Hn : forall c, (Re.is_h c || Re.is_t c || Re.is_p c || Re.is_s c
                          || N.eqb c 58)%bool = true ->
                         negb (N.eqb c 47) = true).
  { intros c Hc. rewrite (scheme_letter_not_slash c Hc). reflexivity. }
  destruct Hsch as [-> | (c & Hc & ->)].
  - exists [h; t1; t2; p; 58]%N. split; [reflexivity |].
    unfold Props.no_slash. simpl.
    rewrite !Hn; try reflexivity;
      rewrite ?Hh, ?Ht1, ?Ht2, ?Hp; simpl; rewrite ?orb_true_r; reflexivity.
  - exists [h; t1; t2; p; c; 58]%N. split; [reflexivity |].
    unfold Props.no_slash. simpl.
    rewrite !Hn; try reflexivity;
      rewrite ?Hh, ?Ht1, ?Ht2, ?Hp, ?Hc; simpl; rewrite ?orb_true_r; reflexivity.
Qed.

Lemma url_domain_host (sch host rest : pystr) :
  Spec.spec_scheme sch -> Props.no_slash host ->
  rest = [] \/ (exists r, rest = 47%N :: r) ->
  ComponentEval.url_domain (sch ++ host ++ rest) = host.
Proof.
  intros Hsch Hhost Hrest.
  destruct (spec_scheme_split Hsch) as (pre & -> & Hpre).
  unfold ComponentEval.url_domain, ComponentEval.getitem.
  rewrite <- app_assoc. change ([47; 47]%N ++ host ++ rest)
    with (47%N :: ([] ++ 47%N :: host ++ rest)).
  rewrite (split_on_app_sep _ Hpre), (@split_on_app_sep [] (host ++ rest) eq_refl).
  destruct Hrest as [-> | (r & ->)].
  - rewrite app_nil_r, (split_on_no_sep Hhost). reflexivity.
  - rewrite (split_on_app_sep _ Hhost). reflexivity.
Qed.

(** X14: for a URL [scheme://host/path] (the path may be missing), the
    domain that [evaluate_tavily_results] looks at is [host], and the URL
    counts as preferred exactly when [host] contains one of the preferred
    domains somewhere: the path plays no part, and a host that merely
    contains the name of a preferred domain counts like the domain
    itself. *)
Theorem preferred_iff_host_contains (TOP_DOMAINS : list pystr)
    (sch host rest : pystr) :
  Spec.spec_scheme sch -> Props.no_slash host ->
  rest = [] \/ (exists r, rest = 47%N :: r) ->
  ComponentEval.url_domain (sch ++ host ++ rest) = host /\
  (ComponentEval.is_preferred TOP_DOMAINS (sch ++ host ++ rest) = true <->
   exists td a b, In td TOP_DOMAINS /\ host = a ++ td ++ b).
Proof.
  intros Hsch Hhost Hrest.
  pose proof (url_domain_host Hsch Hhost Hrest) as Hd.
  split; [exact Hd |].
  unfold ComponentEval.is_preferred. rewrite Hd, existsb_exists. split.
  - intros (td & Hin & Hc). apply str_contains_iff in Hc.
    destruct Hc as (a & b & ->). eauto.
  - intros (td & a & b & Hin & ->). exists td. split; [exact Hin |].
    apply str_contains_app.
Qed.

Lemma preferred_iff_host_contains_witness :
  ComponentEval.is_preferred ComponentEval.TOP_DOMAINS
    (str "https://" ++ str "arxiv.org.example.net" ++ str "/paper") = true.
Proof.
  destruct (@preferred_iff_host_contains ComponentEval.TOP_DOMAINS
              (str "https://") (str "arxiv.org.example.net") (str "/paper"))
    as (_ & _ & H).
  - exists 104%N, 116%N, 116%N, 112%N. repeat split; try reflexivity.
    right. exists 115%N. split; reflexivity.
  - reflexivity.
  - right. eexists. reflexivity.
  - apply H. exists (str "arxiv.org"), [], (str ".example.net").
    split; [simpl; auto 20 | reflexivity].
Defined.
(* ================================================================= *)
(** ** The token estimate of utils.py *)

Lemma agrees_from_spec (n : nat) (w k : Z) :
  UtilsEstimate.agrees_from n w = true ->
  (w <= k < w + Z.of_nat n)%Z ->
  UtilsEstimate.estimate_agrees k = true.
Proof.
  revert w. induction n as [|n IH]; intros w H Hk; [lia |].
  simpl in H. destruct (UtilsEstimate.estimate_agrees w) eqn:Hw; [| discriminate].
  destruct (Z.eq_dec k w) as [-> | Hne]; [exact Hw |].
  apply (IH (w + 1)%Z H). lia.
Qed.

Lemma estimate_table :
  UtilsEstimate.agrees_from (Z.to_nat 30001) 0 = true.
Proof. vm_cast_no_check (eq_refl true). Qed.

Lemma split_blank (s : pystr) : Str.blank s -> Str.split s = [].
Proof.
  unfold Str.blank. induction s as [|c s IH]; [reflexivity |].
  simpl. intros H. apply andb_true_iff in H. destruct H as [Hc H].
  rewrite Hc. exact (IH H).
Qed.

Lemma split_nonempty (c : N) (s : pystr) :
  Re.is_space c = false -> Str.split (c :: s) <> [].
Proof.
  intros Hc. simpl. rewrite Hc. destruct s as [|d s]; [discriminate |].
  destruct (Re.is_space d); [discriminate |].
  destruct (Str.split (d :: s)); discriminate.
Qed.

(** Where the text has a whitespace character, its words are the words
    before it and the words after it. *)
Lemma split_app (a b : pystr) (sp : N) :
  Re.is_space sp = true ->
  Str.split (a ++ sp :: b) = Str.split a ++ Str.split b.
Proof.
  intros Hsp. induction a as [|c a IH].
  - simpl. rewrite Hsp. reflexivity.
  - change ((c :: a) ++ sp :: b) with (c :: (a ++ sp :: b)).
    cbn [Str.split]. destruct (Re.is_space c) eqn:Hc; [exact IH |].
    destruct a as [|d a].
    + simpl. rewrite Hsp. reflexivity.
    + change ((d :: a) ++ sp :: b) with (d :: (a ++ sp :: b)) in *.
      rewrite IH. destruct (Re.is_space d) eqn:Hd; [reflexivity |].
      pose proof (@split_nonempty d a Hd) as Hne.
      destruct (Str.split (d :: a)) as [|w ws]; [contradiction |].
      reflexivity.
Qed.

Lemma split_word (w : pystr) : Str.word w -> Str.split w = [w].
Proof.
  intros [Hne Hw]. induction w as [|c w IH]; [contradiction |].
  simpl in Hw. apply andb_true_iff in Hw. destruct Hw as [Hc Hw].
  apply negb_true_iff in Hc. cbn [Str.split]. rewrite Hc.
  destruct w as [|d w]; [reflexivity |].
  assert (Hd : Re.is_space d = false).
  { simpl in Hw. apply andb_true_iff in Hw. destruct Hw as [Hd _].
    apply negb_true_iff in Hd. exact Hd. }
  rewrite Hd, IH; [reflexivity | discriminate | exact Hw].
Qed.

Lemma split_join (ws : list pystr) :
  Forall Str.word ws -> Str.split (join (str " ") ws) = ws.
Proof.
  induction 1 as [|w ws Hw Hws IH]; [reflexivity |].
  destruct ws as [|w' ws]; [exact (split_word Hw) |].
  change (join (str " ") (w :: w' :: ws))
    with (w ++ 32%N :: join (str " ") (w' :: ws)).
  rewrite split_app by reflexivity. rewrite (split_word Hw), IH. reflexivity.
Qed.

(** X15: for a text of up to 30000 words, [count_tokens_estimate]
    returns [13 * words // 10], the integer part of 1.3 times the number
    of words: the binary rounding of [1.3] and of the product never
    shows.  The words are the maximal runs of non-whitespace characters. *)
Theorem count_tokens_estimate_value (text : pystr) :
  (Z.of_nat (length (Str.split text)) <= 30000)%Z ->
  UtilsEstimate.count_tokens_estimate text
    = Ok (13 * Z.of_nat (length (Str.split text)) / 10)%Z.
Proof.
  intros Hlen.
  pose proof (@agrees_from_spec (Z.to_nat 30001) 0
                (Z.of_nat (length (Str.split text))) estimate_table) as H.
  assert (Hk : (0 <= Z.of_nat (length (Str.split text))
                < 0 + Z.of_nat (Z.to_nat 30001))%Z) by lia.
  specialize (H Hk). unfold UtilsEstimate.estimate_agrees in H.
  unfold UtilsEstimate.count_tokens_estimate, ComponentEval.float_of_nat.
  destruct (Str.int_of_float _) as [z|e]; [| discriminate].
  apply Z.eqb_eq in H. rewrite H. reflexivity.
Qed.

Lemma count_tokens_estimate_value_witness :
  UtilsEstimate.count_tokens_estimate (str "  the quick  brown fox ")
    = Ok 5%Z.
Proof.
  apply (@count_tokens_estimate_value (str "  the quick  brown fox ")).
  vm_compute. discriminate.
Defined.

(** X16: for [n] words (non-empty strings without whitespace, at most
    30000 of them) joined by single spaces, [count_tokens_estimate]
    returns [13 * n // 10]: splitting the text gives the words back. *)
Theorem count_tokens_estimate_words (ws : list pystr) :
  Forall Str.word ws ->
  (Z.of_nat (length ws) <= 30000)%Z ->
  Str.split (join (str " ") ws) = ws /\
  UtilsEstimate.count_tokens_estimate (join (str " ") ws)
    = Ok (13 * Z.of_nat (length ws) / 10)%Z.
Proof.
  intros Hws Hlen. split; [exact (split_join Hws) |].
  rewrite count_tokens_estimate_value; rewrite split_join by exact Hws;
    [reflexivity | exact Hlen].
Qed.

Lemma count_tokens_estimate_words_witness :
  UtilsEstimate.count_tokens_estimate (str "to be or not to be") = Ok 7%Z.
Proof.
  destruct (@count_tokens_estimate_words
              (List.map str ["to"; "be"; "or"; "not"; "to"; "be"]%string))
    as [_ H].
  - repeat constructor; discriminate.
  - vm_compute. discriminate.
  - exact H.
Defined.

(* ================================================================= *)
(** ** venv/reflection_lab.py *)

(** X17: [_normalize_model] never raises; it removes one leading
    ["openai:"] from the model name, and returns every other name
    unchanged. *)
Theorem normalize_model_strips_prefix (model : pystr) :
  exists name,
    ReflectionLab._normalize_model model = Ok name /\
    (model = str "openai:" ++ name \/
     (startswith (str "openai:") model = false /\ name = model)).
Proof.
  unfold ReflectionLab._normalize_model.
  destruct (startswith (str "openai:") model) eqn:Hs.
  - apply startswith_prefix in Hs. destruct Hs as [post ->].
    exists post. split; [reflexivity | left; reflexivity].
  - exists model. split; [reflexivity | right; split; reflexivity].
Qed.

Lemma lstrip_blank (s : pystr) : Str.blank s -> Str.lstrip s = [].
Proof.
  unfold Str.blank. induction s as [|c s IH]; [reflexivity |].
  simpl. intros H. apply andb_true_iff in H. destruct H as [Hc H].
  rewrite Hc. exact (IH H).
Qed.

Lemma lstrip_app_blank (pre s : pystr) :
  Str.blank pre -> Str.lstrip (pre ++ s) = Str.lstrip s.
Proof.
  unfold Str.blank. induction pre as [|c pre IH]; [reflexivity |].
  simpl. intros H. apply andb_true_iff in H. destruct H as [Hc H].
  rewrite Hc. exact (IH H).
Qed.

Lemma blank_rev (s : pystr) : Str.blank s -> Str.blank (rev s).
Proof.
  unfold Str.blank. rewrite !forallb_forall. intros H c Hc.
  apply H. apply in_rev. exact Hc.
Qed.

Lemma rstrip_app_blank (s post : pystr) :
  Str.blank post -> Str.rstrip (s ++ post) = Str.rstrip s.
Proof.
  intros H. unfold Str.rstrip. rewrite rev_app_distr.
  rewrite lstrip_app_blank by (apply blank_rev; exact H). reflexivity.
Qed.

Lemma lstrip_cases (s : pystr) :
  (Str.blank s /\ Str.lstrip s = []) \/
  (exists c r, Str.lstrip s = c :: r /\ Re.is_space c = false /\
               forall post, Str.lstrip (s ++ post) = Str.lstrip s ++ post).
Proof.
  induction s as [|c s IH]; [left; split; reflexivity |].
  simpl. destruct (Re.is_space c) eqn:Hc.
  - destruct IH as [[Hb Hl] | (d & r & Hl & Hd & Happ)].
    + left. split; [| exact Hl]. unfold Str.blank in *. simpl.
      rewrite Hc. exact Hb.
    + right. exists d, r. repeat split; assumption.
  - right. exists c, s.
    split; [reflexivity | split; [exact Hc | reflexivity]].
Qed.

Lemma strip_padding (pre t post : pystr) :
  Str.blank pre -> Str.blank post ->
  Str.strip (pre ++ t ++ post) = Str.strip t.
Proof.
  intros Hpre Hpost. unfold Str.strip.
  rewrite lstrip_app_blank by exact Hpre.
  destruct (lstrip_cases t) as [[Hb Hl] | (c & r & Hl & Hc & Happ)].
  - rewrite Hl. rewrite lstrip_blank; [reflexivity |].
    unfold Str.blank in *. rewrite forallb_app, Hb, Hpost. reflexivity.
  - rewrite Happ. apply rstrip_app_blank. exact Hpost.
Qed.

Lemma strip_blank (t : pystr) : Str.blank t -> Str.strip t = [].
Proof.
  intros H. unfold Str.strip. rewrite lstrip_blank by exact H. reflexivity.
Qed.

(** X18: [generate_draft] treats a missing topic, an empty topic and a
    topic of whitespace alike: each is replaced by the default topic, so
    the call behaves as the call with the default topic spelled out. *)
Theorem generate_draft_blank_topic {E : Env}
    (chat_create : pystr -> list pydict -> float -> world ->
                   result ReflectionLab.chat_response * world)
    (topic model : pystr) (st : state) :
  Str.blank topic ->
  ReflectionLab.generate_draft chat_create (Some topic) model st
    = ReflectionLab.generate_draft chat_create
        (Some ReflectionLab.default_topic) model st /\
  ReflectionLab.generate_draft chat_create None model st
    = ReflectionLab.generate_draft chat_create
        (Some ReflectionLab.default_topic) model st.
Proof.
  intros Hb. unfold ReflectionLab.generate_draft.
  rewrite (strip_blank Hb).
  assert (Hd : Str.strip ReflectionLab.default_topic
               = ReflectionLab.default_topic) by (vm_compute; reflexivity).
  rewrite Hd. split; reflexivity.
Qed.

Lemma generate_draft_blank_topic_witness :
  let E := Script.answer_world in
  let chat := fun (_ : pystr) (ms : list pydict) (_ : float) (w : @world E) =>
                (Ok (ReflectionLab.Shaped (PList (List.map PDict ms))), w) in
  @ReflectionLab.generate_draft E chat (Some (str "   ")) (str "openai:gpt-4o")
      (Script.start E 0)
    = @ReflectionLab.generate_draft E chat None (str "openai:gpt-4o")
        (Script.start E 0).
Proof.
  intros E chat.
  destruct (@generate_draft_blank_topic E chat (str "   ") (str "openai:gpt-4o")
              (Script.start E 0) eq_refl) as [H1 H2].
  rewrite H1, H2. reflexivity.
Defined.

(** X19: whitespace around the topic does not matter to
    [generate_draft]: the topic is stripped before it is put into the
    prompt. *)
Theorem generate_draft_ignores_padding {E : Env}
    (chat_create : pystr -> list pydict -> float -> world ->
                   result ReflectionLab.chat_response * world)
    (pre topic post model : pystr) (st : state) :
  Str.blank pre -> Str.blank post ->
  ReflectionLab.generate_draft chat_create (Some (pre ++ topic ++ post)) model st
    = ReflectionLab.generate_draft chat_create (Some topic) model st.
Proof.
  intros Hpre Hpost. unfold ReflectionLab.generate_draft.
  rewrite (strip_padding topic Hpre Hpost). reflexivity.
Qed.

Lemma generate_draft_ignores_padding_witness :
  let E := Script.answer_world in
  let chat := fun (_ : pystr) (ms : list pydict) (_ : float) (w : @world E) =>
                (Ok (ReflectionLab.Shaped (PList (List.map PDict ms))), w) in
  @ReflectionLab.generate_draft E chat (Some (str "  Tea " ))
      (str "openai:gpt-4o") (Script.start E 0)
    = @ReflectionLab.generate_draft E chat (Some (str "Tea"))
        (str "openai:gpt-4o") (Script.start E 0).
Proof.
  intros E chat.
  exact (@generate_draft_ignores_padding E chat (str "  ") (str "Tea")
           (str " ") (str "openai:gpt-4o") (Script.start E 0) eq_refl eq_refl).
Defined.

(** X20: the OpenAI backend of the lab does not let a failed request
    reach its caller: when the last message has a string as content (or
    there is no message), [create] returns; if the SDK call raised, what
    it returns is a response whose content names the error and repeats
    that last content.  The SDK is called with the normalised model
    name. *)
Theorem wrapper_create_never_raises {E : Env}
    (openai_create : pystr -> list pydict -> float -> world ->
                     result ReflectionLab.chat_response * world)
    (model : pystr) (messages : list pydict) (temperature : float)
    (st : state) (tail : pystr) :
  (messages = [] /\ tail = []) \/
  (exists init last, messages = init ++ [last] /\
                     dict_get last (str "content") = Some (PStr tail)) ->
  exists name r st',
    ReflectionLab._normalize_model model = Ok name /\
    ReflectionLab.wrapper_create openai_create model messages temperature st
      = (Ok r, st') /\
    st_world st'
      = snd (openai_create name messages temperature (st_world st)) /\
    match fst (openai_create name messages temperature (st_world st)) with
    | Ok r0 => r = r0
    | Raise e =>
        r = ReflectionLab.Shaped
              (PStr (str "[FALLBACK due to OpenAI error: " ++ exn_str e
                       ++ str "]" ++ [10; 10]%N ++ tail))
    end.
Proof.
  intros Hlast.
  destruct (normalize_model_strips_prefix model) as (name & Hname & _).
  exists name. unfold ReflectionLab.wrapper_create, bind at 1.
  rewrite Hname. unfold try_except, outside.
  destruct (openai_create name messages temperature (st_world st))
    as [[r0|e] w'] eqn:Hcall.
  - eexists _, _. repeat split.
  - assert (Hl : forall st0, ReflectionLab.last_content messages st0
                             = (Ok tail, st0)).
    { intros st0. unfold ReflectionLab.last_content.
      destruct Hlast as [[-> ->] | (init & last & -> & Hc)]; [reflexivity |].
      rewrite rev_app_distr. simpl. unfold bind, dict_getitem.
      rewrite Hc. reflexivity. }
    unfold bind. rewrite Hl. eexists _, _. repeat split.
Qed.

Lemma wrapper_create_never_raises_witness :
  let E := Script.answer_world in
  let sdk := fun (_ : pystr) (_ : list pydict) (_ : float) (w : @world E) =>
               (@Raise ReflectionLab.chat_response
                  (mk_exn (str "RateLimitError") (str "quota")), w) in
  exists r st',
    @ReflectionLab.wrapper_create E sdk (str "openai:gpt-4o")
        [ReflectionLab.chat_message (str "user") (str "Hello")]
        PrimFloat.one (Script.start E 0)
      = (Ok r, st').
Proof.
  intros E sdk.
  destruct (@wrapper_create_never_raises E sdk (str "openai:gpt-4o")
              [ReflectionLab.chat_message (str "user") (str "Hello")]
              PrimFloat.one (Script.start E 0) (str "Hello"))
    as (name & r & st' & _ & H & _).
  - right. exists [], (ReflectionLab.chat_message (str "user") (str "Hello")).
    split; reflexivity.
  - exists r, st'. exact H.
Defined.
(* ================================================================= *)
(** ** The JSON candidate of the campaign agents *)

Lemma upto_last_close_none (s : pystr) :
  Pipeline.upto_last_close s = None <-> ~ In 125%N s.
Proof.
  induction s as [|c s IH]; simpl.
  - split; [intros _ [] | reflexivity].
  - destruct (Pipeline.upto_last_close s) as [m|].
    + split; [discriminate |]. intros H. exfalso.
      assert (Hs : ~ In 125%N s) by (intros Hin; apply H; right; exact Hin).
      apply IH in Hs. discriminate.
    + destruct (N.eqb c 125) eqn:Hc.
      * split; [discriminate |]. intros H. exfalso. apply H. left.
        apply N.eqb_eq in Hc. exact Hc.
      * split; [| reflexivity]. intros _ [Heq | Hin].
        -- apply N.eqb_neq in Hc. contradiction.
        -- destruct IH as [IH _]. exact (IH eq_refl Hin).
Qed.

Lemma upto_last_close_sound (s m : pystr) :
  Pipeline.upto_last_close s = Some m ->
  exists body post,
    s = body ++ 125%N :: post /\ ~ In 125%N post /\ m = body ++ [125%N].
Proof.
  revert m. induction s as [|c s IH]; intros m H; [discriminate |].
  simpl in H. destruct (Pipeline.upto_last_close s) as [m'|] eqn:Hs.
  - inversion H; subst. destruct (IH _ eq_refl) as (body & post & -> & Hp & ->).
    exists (c :: body), post. split; [reflexivity | split; [exact Hp | reflexivity]].
  - destruct (N.eqb c 125) eqn:Hc; [| discriminate].
    inversion H; subst. apply N.eqb_eq in Hc. subst c.
    exists [], s. split; [reflexivity | split; [| reflexivity]].
    apply upto_last_close_none. exact Hs.
Qed.

Lemma upto_last_close_complete (body post : pystr) :
  ~ In 125%N post ->
  Pipeline.upto_last_close (body ++ 125%N :: post) = Some (body ++ [125%N]).
Proof.
  intros Hp. induction body as [|c body IH]; simpl.
  - apply upto_last_close_none in Hp. rewrite Hp. reflexivity.
  - rewrite IH. reflexivity.
Qed.

Lemma brace_search_cons (c : N) (s : pystr) :
  Pipeline.brace_search (c :: s)
    = match Pipeline.brace_match_at (c :: s) with
      | Some m => Some m
      | None => Pipeline.brace_search s
      end.
Proof. reflexivity. Qed.

Lemma brace_search_sound (s m : pystr) :
  Pipeline.brace_search s = Some m ->
  exists pre body post,
    s = pre ++ 123%N :: body ++ 125%N :: post /\
    ~ In 123%N pre /\ ~ In 125%N post /\ m = 123%N :: body ++ [125%N].
Proof.
  revert m. induction s as [|c s IH]; intros m H; [discriminate |].
  rewrite brace_search_cons in H. unfold Pipeline.brace_match_at in H.
  destruct (N.eqb c 123) eqn:Hc.
  - apply N.eqb_eq in Hc. subst c.
    destruct (Pipeline.upto_last_close s) as [m'|] eqn:Hs.
    + inversion H; subst.
      destruct (upto_last_close_sound _ Hs) as (body & post & -> & Hp & ->).
      exists [], body, post.
      split; [reflexivity | split; [intros [] | split; [exact Hp | reflexivity]]].
    + exfalso. destruct (IH _ H) as (pre & body & post & -> & _).
      apply upto_last_close_none in Hs. apply Hs.
      apply in_or_app. right. right. apply in_or_app. right. left. reflexivity.
  - destruct (IH _ H) as (pre & body & post & -> & Hpre & Hpost & ->).
    exists (c :: pre), body, post.
    split; [reflexivity | split; [| split; [exact Hpost | reflexivity]]].
    intros [Heq | Hin]; [| exact (Hpre Hin)].
    apply N.eqb_neq in Hc. contradiction.
Qed.

Lemma not_in_cons_neq (c x : N) (l : list N) :
  ~ In x (c :: l) -> N.eqb c x = false /\ ~ In x l.
Proof.
  intros H. split.
  - apply N.eqb_neq. intros ->. apply H. left. reflexivity.
  - intros Hin. apply H. right. exact Hin.
Qed.

Lemma brace_search_complete (pre body post : pystr) :
  ~ In 123%N pre -> ~ In 125%N post ->
  Pipeline.brace_search (pre ++ 123%N :: body ++ 125%N :: post)
    = Some (123%N :: body ++ [125%N]).
Proof.
  intros Hpre Hpost. induction pre as [|c pre IH].
  - simpl app. rewrite brace_search_cons. unfold Pipeline.brace_match_at.
    rewrite N.eqb_refl. rewrite upto_last_close_complete by exact Hpost.
    reflexivity.
  - apply not_in_cons_neq in Hpre. destruct Hpre as [Hc Hpre].
    change ((c :: pre) ++ 123%N :: body ++ 125%N :: post)
      with (c :: (pre ++ 123%N :: body ++ 125%N :: post)).
    rewrite brace_search_cons. unfold Pipeline.brace_match_at.
    rewrite Hc. exact (IH Hpre).
Qed.

Lemma brace_search_finds (pre rest : pystr) :
  In 125%N rest ->
  exists m, Pipeline.brace_search (pre ++ 123%N :: rest) = Some m.
Proof.
  intros Hin. induction pre as [|c pre IH].
  - simpl app. rewrite brace_search_cons. unfold Pipeline.brace_match_at.
    rewrite N.eqb_refl.
    destruct (Pipeline.upto_last_close rest) as [m|] eqn:Hr; [eauto |].
    apply upto_last_close_none in Hr. contradiction.
  - change ((c :: pre) ++ 123%N :: rest) with (c :: (pre ++ 123%N :: rest)).
    rewrite brace_search_cons.
    destruct (Pipeline.brace_match_at _) as [m|]; [eauto | exact IH].
Qed.

(** X21: the JSON text that [graphic_designer_agent] and
    [copywriter_agent] cut out of the answer with
    [re.search(r'\{.*\}', text, re.DOTALL)] runs from the first [{] of the
    answer to its last [}], whatever lies between them; there is no match
    exactly when no [}] follows a [{]. *)
Theorem brace_search_spec (s : pystr) :
  (forall m,
     Pipeline.brace_search s = Some m <->
     exists pre body post,
       s = pre ++ 123%N :: body ++ 125%N :: post /\
       ~ In 123%N pre /\ ~ In 125%N post /\ m = 123%N :: body ++ [125%N]) /\
  (Pipeline.brace_search s = None <->
   ~ exists pre body post, s = pre ++ 123%N :: body ++ 125%N :: post).
Proof.
  split.
  - intros m. split; [apply brace_search_sound |].
    intros (pre & body & post & -> & Hpre & Hpost & ->).
    apply brace_search_complete; assumption.
  - split.
    + intros Hnone (pre & body & post & ->).
      destruct (@brace_search_finds pre (body ++ 125%N :: post)) as [m Hm].
      * apply in_or_app. right. left. reflexivity.
      * rewrite Hm in Hnone. discriminate.
    + intros Hno. destruct (Pipeline.brace_search s) as [m|] eqn:Hs; [| reflexivity].
      exfalso. apply Hno.
      destruct (brace_search_sound _ Hs) as (pre & body & post & Heq & _).
      eauto.
Qed.

(* ================================================================= *)
(** ** graphic_designer_agent *)

Section DesignerFacts.
Context {E : Env}.

Lemma parse_design_object (text : pystr) (d : pydict) (st : state) :
  json_loads (Pipeline.json_candidate text) = Ok (PDict d) ->
  Pipeline.parse_design text st
    = (Ok (match dict_get d (str "image_prompt") with
           | Some x => x
           | None => PStr []
           end,
           match dict_get d (str "caption") with
           | Some x => x
           | None => PStr []
           end), st).
Proof.
  intros H. unfold Pipeline.parse_design, Pipeline.try_except_class, bind.
  rewrite H. reflexivity.
Qed.

Lemma parse_design_other (text : pystr) (v : pyval) (st : state) :
  json_loads (Pipeline.json_candidate text) = Ok v ->
  (forall d, v <> PDict d) ->
  Pipeline.parse_design text st
    = (Raise (Pipeline.AttributeError v (str "get")), st).
Proof.
  intros H Hv. unfold Pipeline.parse_design, Pipeline.try_except_class, bind.
  rewrite H. destruct v; try reflexivity. exfalso. exact (Hv _ eq_refl).
Qed.

Lemma parse_design_invalid (text : pystr) (e : exn) (st : state) :
  json_loads (Pipeline.json_candidate text) = Raise e ->
  exn_class e = str "JSONDecodeError" ->
  Pipeline.parse_design text st
    = (Ok (PStr (slice_to text 500), PStr (str "Experience the trend.")), st).
Proof.
  intros H Hc. unfold Pipeline.parse_design, Pipeline.try_except_class, bind.
  rewrite H, Hc. reflexivity.
Qed.

(** What follows the parsing, for a prompt and a caption. *)
Lemma designer_finish (openai_client : bool)
    (generate_and_save : pyval -> pystr -> world -> result (pystr * pystr) * world)
    (trend_insights model caption_style size : pystr) (st : state)
    (r : response) (w' : world) (image_prompt caption : pyval) :
  let req := mk_request model 2048 (Some Pipeline.system_prompt) []
               [user_message (CStr (Pipeline.prompt trend_insights caption_style))] in
  messages_create req (st_world st) = (Ok r, w') ->
  (forall st0, Pipeline.parse_design (collect_text (resp_content r)) st0
               = (Ok (image_prompt, caption), st0)) ->
  exists d st',
    Pipeline.graphic_designer_agent openai_client generate_and_save
      trend_insights model caption_style size st = (Ok d, st') /\
    st_log st' = st_log st ++ [EvModel req] /\
    dict_get d (str "prompt") = Some image_prompt /\
    dict_get d (str "caption") = Some caption /\
    ((exists url path,
        dict_get d (str "image_url") = Some (PStr url) /\
        dict_get d (str "image_path") = Some (PStr path) /\
        dict_get d (str "error") = None) \/
     (exists msg,
        dict_get d (str "error") = Some (PStr msg) /\
        dict_get d (str "image_path") = None)).
Proof.
  intros req Hcall Hparse. unfold Pipeline.graphic_designer_agent.
  erewrite bind_ok by (apply create_run; exact Hcall).
  erewrite bind_ok by apply Hparse.
  destruct openai_client.
  - unfold try_except, bind, outside. cbn [st_world st_log].
    destruct (generate_and_save image_prompt size w') as [[[url path]|e] w2].
    + eexists _, _. split; [reflexivity |]. split; [reflexivity |].
      split; [reflexivity |]. split; [reflexivity |].
      left. exists url, path. repeat split.
    + eexists _, _. split; [reflexivity |]. split; [reflexivity |].
      split; [reflexivity |]. split; [reflexivity |].
      right. exists (exn_str e). split; reflexivity.
  - eexists _, _. split; [reflexivity |]. split; [reflexivity |].
    split; [reflexivity |]. split; [reflexivity |].
    right. eexists. split; reflexivity.
Qed.

End DesignerFacts.

(** X22: when the model answers and the JSON candidate of the answer is
    a JSON object or is not valid JSON, [graphic_designer_agent] returns a
    dictionary after that one model call, whatever happens to the image:
    it always holds a ["prompt"] and a ["caption"], and either an
    ["image_url"] with an ["image_path"] and no ["error"], or an ["error"]
    and no ["image_path"].  A failed image generation is never raised. *)
Theorem graphic_designer_agent_returns {E : Env} (openai_client : bool)
    (generate_and_save : pyval -> pystr -> world -> result (pystr * pystr) * world)
    (trend_insights model caption_style size : pystr) (st : state)
    (r : response) (w' : world) :
  let req := mk_request model 2048 (Some Pipeline.system_prompt) []
               [user_message (CStr (Pipeline.prompt trend_insights caption_style))] in
  messages_create req (st_world st) = (Ok r, w') ->
  match json_loads (Pipeline.json_candidate (collect_text (resp_content r))) with
  | Ok (PDict _) => True
  | Ok _ => False
  | Raise e => exn_class e = str "JSONDecodeError"
  end ->
  exists d st',
    Pipeline.graphic_designer_agent openai_client generate_and_save
      trend_insights model caption_style size st = (Ok d, st') /\
    st_log st' = st_log st ++ [EvModel req] /\
    dict_get d (str "prompt") <> None /\
    dict_get d (str "caption") <> None /\
    ((exists url path,
        dict_get d (str "image_url") = Some (PStr url) /\
        dict_get d (str "image_path") = Some (PStr path) /\
        dict_get d (str "error") = None) \/
     (exists msg,
        dict_get d (str "error") = Some (PStr msg) /\
        dict_get d (str "image_path") = None)).
Proof.
  intros req Hcall Hjson.
  destruct (json_loads (Pipeline.json_candidate (collect_text (resp_content r))))
    as [v|e] eqn:Hl.
  - destruct v as [| | | | | |dd]; try contradiction.
    destruct (@designer_finish E openai_client generate_and_save trend_insights
                model caption_style size st r w' _ _ Hcall
                (fun st0 => parse_design_object _ st0 Hl))
      as (d & st' & Hrun & Hlog & Hp & Hc & Himg).
    exists d, st'. rewrite Hp, Hc.
    split; [exact Hrun |]. split; [exact Hlog |].
    split; [discriminate |]. split; [discriminate | exact Himg].
  - destruct (@designer_finish E openai_client generate_and_save trend_insights
                model caption_style size st r w' _ _ Hcall
                (fun st0 => parse_design_invalid _ st0 Hl Hjson))
      as (d & st' & Hrun & Hlog & Hp & Hc & Himg).
    exists d, st'. rewrite Hp, Hc.
    split; [exact Hrun |]. split; [exact Hlog |].
    split; [discriminate |]. split; [discriminate | exact Himg].
Qed.

Lemma graphic_designer_agent_returns_witness :
  let E := Script.env (Script.answers "A bold look: {}") Script.no_tools in
  let save := fun (_ : pyval) (_ : pystr) (w : @world E) =>
                (@Raise (pystr * pystr)
                   (mk_exn (str "BadRequestError") (str "empty prompt")), w) in
  exists d st',
    @Pipeline.graphic_designer_agent E true save (str "Retro frames")
        Script.model_name (str "short punchy") (str "1024x1024")
        (Script.start E 0)
      = (Ok d, st') /\
    dict_get d (str "error") = Some (PStr (str "empty prompt")).
Proof.
  intros E save.
  destruct (@graphic_designer_agent_returns E true save (str "Retro frames")
              Script.model_name (str "short punchy") (str "1024x1024")
              (Script.start E 0)
              (mk_response (str "end_turn") [TextBlock (str "A bold look: {}")])
              1 eq_refl I)
    as (d & st' & Hrun & _).
  exists d, st'. split; [exact Hrun |].
  vm_compute in Hrun. inversion Hrun. reflexivity.
Defined.

(** X23: when the JSON candidate of the model's answer is not valid
    JSON, [graphic_designer_agent] does not fail: the image prompt is the
    first 500 characters of the answer and the caption is "Experience the
    trend.". *)
Theorem graphic_designer_agent_json_fallback {E : Env} (openai_client : bool)
    (generate_and_save : pyval -> pystr -> world -> result (pystr * pystr) * world)
    (trend_insights model caption_style size : pystr) (st : state)
    (r : response) (w' : world) (e : exn) :
  let req := mk_request model 2048 (Some Pipeline.system_prompt) []
               [user_message (CStr (Pipeline.prompt trend_insights caption_style))] in
  let text := collect_text (resp_content r) in
  messages_create req (st_world st) = (Ok r, w') ->
  json_loads (Pipeline.json_candidate text) = Raise e ->
  exn_class e = str "JSONDecodeError" ->
  exists d st',
    Pipeline.graphic_designer_agent openai_client generate_and_save
      trend_insights model caption_style size st = (Ok d, st') /\
    dict_get d (str "prompt") = Some (PStr (slice_to text 500)) /\
    dict_get d (str "caption") = Some (PStr (str "Experience the trend.")).
Proof.
  intros req text Hcall Hl Hc.
  destruct (@designer_finish E openai_client generate_and_save trend_insights
              model caption_style size st r w' _ _ Hcall
              (fun st0 => parse_design_invalid _ st0 Hl Hc))
    as (d & st' & Hrun & _ & Hp & Hcap & _).
  exists d, st'. split; [exact Hrun |]. split; assumption.
Qed.

Lemma graphic_designer_agent_json_fallback_witness :
  let E := Script.env (Script.answers "Sunlit chrome frames") Script.no_tools in
  let save := fun (_ : pyval) (_ : pystr) (w : @world E) =>
                (Ok (str "https://img.example/1.png", str "campaign_image.png"), w) in
  exists d st',
    @Pipeline.graphic_designer_agent E true save (str "Retro frames")
        Script.model_name (str "short punchy") (str "1024x1024")
        (Script.start E 0)
      = (Ok d, st') /\
    dict_get d (str "prompt") = Some (PStr (str "Sunlit chrome frames")).
Proof.
  intros E save.
  destruct (@graphic_designer_agent_json_fallback E true save (str "Retro frames")
              Script.model_name (str "short punchy") (str "1024x1024")
              (Script.start E 0)
              (mk_response (str "end_turn") [TextBlock (str "Sunlit chrome frames")])
              1 (mk_exn (str "JSONDecodeError") (str "Expecting value"))
              eq_refl eq_refl eq_refl)
    as (d & st' & Hrun & Hp & _).
  exists d, st'. split; [exact Hrun | exact Hp].
Defined.

(** X24: when the JSON candidate parses to something that is not an
    object (the answer has no [{...}] and is, say, [null], a number or a
    list), [graphic_designer_agent] raises [AttributeError]: the handler
    of the parsing step catches [JSONDecodeError] only.  The exception
    leaves right after the model call; no image is requested. *)
Theorem graphic_designer_agent_not_an_object {E : Env} (openai_client : bool)
    (generate_and_save : pyval -> pystr -> world -> result (pystr * pystr) * world)
    (trend_insights model caption_style size : pystr) (st : state)
    (r : response) (w' : world) (v : pyval) :
  let req := mk_request model 2048 (Some Pipeline.system_prompt) []
               [user_message (CStr (Pipeline.prompt trend_insights caption_style))] in
  messages_create req (st_world st) = (Ok r, w') ->
  json_loads (Pipeline.json_candidate (collect_text (resp_content r))) = Ok v ->
  (forall d, v <> PDict d) ->
  Pipeline.graphic_designer_agent openai_client generate_and_save
    trend_insights model caption_style size st
    = (Raise (Pipeline.AttributeError v (str "get")),
       mk_state w' (st_log st ++ [EvModel req])).
Proof.
  intros req Hcall Hl Hv. unfold Pipeline.graphic_designer_agent.
  erewrite bind_ok by (apply create_run; exact Hcall).
  erewrite bind_raise by (apply parse_design_other; eassumption).
  reflexivity.
Qed.

Lemma graphic_designer_agent_not_an_object_witness :
  let E := Worlds.with_json_loads
             (Script.env (Script.answers "null") Script.no_tools)
             (fun s => if str_eqb s (str "null") then Ok PNone
                       else Raise (mk_exn (str "JSONDecodeError")
                                     (str "Expecting value"))) in
  let save := fun (_ : pyval) (_ : pystr) (w : @world E) =>
                (Ok (str "https://img.example/1.png", str "campaign_image.png"), w) in
  fst (@Pipeline.graphic_designer_agent E true save (str "Retro frames")
         Script.model_name (str "short punchy") (str "1024x1024")
         (@mk_state E 0 []))
    = Raise (mk_exn (str "AttributeError")
               (str "'NoneType' object has no attribute 'get'")).
Proof.
  intros E save.
  rewrite (@graphic_designer_agent_not_an_object E true save (str "Retro frames")
             Script.model_name (str "short punchy") (str "1024x1024")
             (@mk_state E 0 [])
             (mk_response (str "end_turn") [TextBlock (str "null")])
             1%nat PNone eq_refl eq_refl ltac:(discriminate)).
  reflexivity.
Defined.
(* ================================================================= *)
(** ** The conversations of the research and campaign loops *)

Lemma all_answered_app (t1 t2 : list message) :
  Shape.all_answered t1 -> Shape.all_answered t2 ->
  Shape.all_answered (t1 ++ t2).
Proof.
  induction t1 as [| a | a b l IH] using pair_induction; intros H1 H2.
  - exact H2.
  - contradiction.
  - destruct H1 as [Hab Hl]. simpl. split; [exact Hab | auto].
Qed.

Lemma all_answered_even (turns : list message) :
  Shape.all_answered turns -> exists n, length turns = 2 * n.
Proof.
  induction turns as [| a | a b l IH] using pair_induction; intros Hf.
  - exists 0. reflexivity.
  - contradiction.
  - destruct Hf as [_ Hl]. destruct (IH Hl) as [n Hn].
    exists (S n). simpl. rewrite Hn. lia.
Qed.

Lemma seeded_grow (seed : pystr) (ms : list message) (bs : list block)
    (rs : list pydict) :
  Shape.seeded seed ms ->
  List.map result_id rs = List.map Some (request_ids bs) ->
  Shape.seeded seed
    ((ms ++ [assistant_message bs]) ++ [user_message (CResults rs)]).
Proof.
  intros (turns & -> & Hf) Hids.
  exists (turns ++ [assistant_message bs; user_message (CResults rs)]).
  split.
  - rewrite <- app_assoc. reflexivity.
  - apply all_answered_app; [exact Hf |]. simpl. split; [| exact I].
    exists bs, rs. split; [reflexivity | split; [reflexivity | exact Hids]].
Qed.

Lemma seeded_odd (seed : pystr) (ms : list message) :
  Shape.seeded seed ms -> Nat.Odd (length ms).
Proof.
  intros (turns & -> & Hf). destruct (all_answered_even _ Hf) as [n Hn].
  exists n. simpl. rewrite Hn. lia.
Qed.

(** X25: the conversation that [market_research_agent] returns with
    [return_messages=True] is the research prompt, written for the
    current date, followed by pairs of turns: an assistant turn, and a
    user turn with one tool result for every tool request of that
    assistant turn, in the order of the requests.  So every request is
    answered, and the conversation has an odd number of turns. *)
Theorem market_research_agent_conversation {E : Env} (model : pystr)
    (st : state) (text : pystr) (conversation : list message) (st' : state) :
  Campaign.market_research_agent model true st
    = (Ok (Some (RetPair text conversation)), st') ->
  Shape.seeded
    (Campaign.research_prompt (fst (now_strftime (str "%Y-%m-%d") (st_world st))))
    conversation /\
  Nat.Odd (length conversation).
Proof.
  intros H.
  assert (Hs : Shape.seeded
                 (Campaign.research_prompt
                    (fst (now_strftime (str "%Y-%m-%d") (st_world st))))
                 conversation).
  { revert H. unfold Campaign.market_research_agent, bind at 1.
    unfold outside at 1.
    destruct (now_strftime (str "%Y-%m-%d") (st_world st)) as [today w0].
    cbn [fst]. unfold bind.
    destruct (while_loop _ _ _ _ _) as [[[[s|r]|]|e] st1] eqn:Hw;
      try discriminate.
    intros H. inversion H; subst.
    apply (@while_loop_invariant E _ _ _ _
             (fun s => Shape.seeded (Campaign.research_prompt today)
                         (Campaign.messages s))
             (fun r => match r with
                       | RetPair _ ms =>
                           Shape.seeded (Campaign.research_prompt today) ms
                       | RetText _ => True
                       end)) in Hw.
    - exact Hw.
    - intros s st2 s' st3 Hs Hb. unfold Campaign.loop_body, bind in Hb.
      destruct (create _ st2) as [[resp|e] st4]; [| discriminate].
      destruct (str_eqb (stop_reason resp) (str "tool_use")); [| discriminate].
      destruct (Campaign.run_tools (resp_content resp) st4)
        as [[rs|e] st5] eqn:Hr; [| discriminate].
      inversion Hb; subst; simpl. apply seeded_grow; [exact Hs |].
      eapply campaign_run_tools_ids; exact Hr.
    - intros s st2 r st3 Hs Hb. unfold Campaign.loop_body, bind in Hb.
      destruct (create _ st2) as [[resp|e] st4]; [| discriminate].
      destruct (str_eqb (stop_reason resp) (str "tool_use")).
      + destruct (Campaign.run_tools (resp_content resp) st4) as [[rs|e] st5];
          discriminate.
      + inversion Hb; subst. exact Hs.
    - exists []. split; [reflexivity | exact I]. }
  split; [exact Hs | exact (seeded_odd Hs)].
Qed.

Lemma market_research_agent_conversation_witness :
  let E := Worlds.research in
  exists text conversation,
    fst (@Campaign.market_research_agent E Script.model_name true
           (Script.start E 0))
      = Ok (Some (RetPair text conversation)) /\
    length conversation = 3 /\
    Shape.seeded (Campaign.research_prompt (str "2025-01-15")) conversation.
Proof.
  intros E.
  destruct (@Campaign.market_research_agent E Script.model_name true
              (Script.start E 0))
    as [[[[text|text conversation]|]|e] st'] eqn:Hrun;
    try (vm_compute in Hrun; discriminate).
  destruct (market_research_agent_conversation _ _ Hrun) as [Hs _].
  exists text, conversation. split; [reflexivity |]. split; [| exact Hs].
  vm_compute in Hrun. inversion Hrun. reflexivity.
Defined.

(** X26: the conversation that [find_references] returns with
    [return_messages=True] has the same shape: the research prompt for
    the task and the current date, then pairs of an assistant turn and a
    user turn with one tool result per tool request, in order. *)
Theorem find_references_conversation {E : Env} (task model : pystr)
    (st : state) (text : pystr) (conversation : list message) (st' : state) :
  ComponentEval.find_references task model true st
    = (Ok (Some (RetPair text conversation)), st') ->
  Shape.seeded
    (ComponentEval.research_prompt task
       (fst (now_strftime (str "%Y-%m-%d") (st_world st))))
    conversation /\
  Nat.Odd (length conversation).
Proof.
  intros H.
  assert (Hs : Shape.seeded
                 (ComponentEval.research_prompt task
                    (fst (now_strftime (str "%Y-%m-%d") (st_world st))))
                 conversation).
  { revert H. unfold ComponentEval.find_references, bind at 1.
    unfold outside at 1.
    destruct (now_strftime (str "%Y-%m-%d") (st_world st)) as [today w0].
    cbn [fst]. unfold try_except, bind.
    destruct (create _ _) as [[r0|e] st1]; [| discriminate].
    destruct (while_loop _ _ _ _ st1) as [[[[s|r]|]|e] st2] eqn:Hw;
      try discriminate; [| destruct r].
    intros H. inversion H; subst.
    apply (@while_loop_invariant E _ _ _ _
             (fun s => Shape.seeded (ComponentEval.research_prompt task today)
                         (ComponentEval.messages s))
             (fun _ => True)) in Hw; [exact Hw | | auto |].
    - intros s0 st3 s' st4 Hs Hb. unfold ComponentEval.loop_body, bind in Hb.
      destruct (research_run_tools_returns
                  (resp_content (ComponentEval.response s0)) st3)
        as (rs & st5 & Hr & _ & Hids).
      rewrite Hr in Hb.
      destruct (create _ st5) as [[resp|e] st6]; [| discriminate].
      inversion Hb; subst; simpl. apply seeded_grow; assumption.
    - exists []. split; [reflexivity | exact I]. }
  split; [exact Hs | exact (seeded_odd Hs)].
Qed.

Lemma find_references_conversation_witness :
  let E := Script.failing_world in
  exists text conversation,
    fst (@ComponentEval.find_references E (str "black holes") Script.model_name
           true (Script.start E 0))
      = Ok (Some (RetPair text conversation)) /\
    length conversation = 3 /\
    Shape.seeded
      (ComponentEval.research_prompt (str "black holes") (str "2025-01-15"))
      conversation.
Proof.
  intros E.
  destruct (@ComponentEval.find_references E (str "black holes")
              Script.model_name true (Script.start E 0))
    as [[[[text|text conversation]|]|e] st'] eqn:Hrun;
    try (vm_compute in Hrun; discriminate).
  destruct (find_references_conversation _ _ _ Hrun) as [Hs _].
  exists text, conversation. split; [reflexivity |]. split; [| exact Hs].
  vm_compute in Hrun. inversion Hrun. reflexivity.
Defined.
(* ================================================================= *)
(** ** tavily_search_tool *)

Section TavilyFacts.
Context {E : Env}.
Variable getenv : pystr -> world -> option pystr.
Variable TavilyClient : pystr -> option pystr -> world -> result unit * world.
Variable client_search :
  pystr -> option pystr -> pyval -> pyval -> bool ->
  world -> result pyval * world.

(** The run up to the search, when the key is set and the client is
    made. *)
Lemma tavily_search_tool_run (query max_results : pyval)
    (include_images : bool) (st : state) (key : pystr) (w1 : world) :
  getenv (str "TAVILY_API_KEY") (st_world st) = Some key -> key <> [] ->
  TavilyClient key (getenv (str "DLAI_TAVILY_BASE_URL") (st_world st))
    (st_world st) = (Ok tt, w1) ->
  Tavily.tavily_search_tool getenv TavilyClient client_search
    query max_results include_images st
  = let base := getenv (str "DLAI_TAVILY_BASE_URL") (st_world st) in
    let log := st_log st ++ [EvTool (str "client.search")] in
    match client_search key base query max_results include_images w1 with
    | (Ok response, w2) =>
        match Tavily.collect response include_images with
        | Ok results => (Ok (PList results), mk_state w2 log)
        | Raise e =>
            (Ok (PList [PDict [(str "error", PStr (exn_str e))]]),
             mk_state w2 log)
        end
    | (Raise e, w2) =>
        (Ok (PList [PDict [(str "error", PStr (exn_str e))]]), mk_state w2 log)
    end.
Proof.
  intros Hkey Hne Hclient.
  unfold Tavily.tavily_search_tool, bind at 1. unfold Tavily.read at 1.
  rewrite Hkey. destruct key as [|c key]; [contradiction |].
  unfold bind at 1. unfold Tavily.read at 1.
  unfold bind at 1. unfold outside at 1. rewrite Hclient.
  unfold try_except, bind, outside. cbn [st_world st_log].
  destruct (client_search _ _ _ _ _ w1) as [[response|e] w2]; [| reflexivity].
  destruct (Tavily.collect response include_images); reflexivity.
Qed.

End TavilyFacts.

(** X27: without an API key in the environment ([TAVILY_API_KEY] unset
    or empty), [tavily_search_tool] raises [ValueError] at once: no client
    is made and nothing is searched. *)
Theorem tavily_search_tool_missing_key {E : Env}
    (getenv : pystr -> world -> option pystr)
    (TavilyClient : pystr -> option pystr -> world -> result unit * world)
    (client_search : pystr -> option pystr -> pyval -> pyval -> bool ->
                     world -> result pyval * world)
    (query max_results : pyval) (include_images : bool) (st : state) :
  getenv (str "TAVILY_API_KEY") (st_world st) = None \/
  getenv (str "TAVILY_API_KEY") (st_world st) = Some [] ->
  Tavily.tavily_search_tool getenv TavilyClient client_search
    query max_results include_images st
    = (Raise (mk_exn (str "ValueError")
                (str "TAVILY_API_KEY not found in environment variables.")),
       st).
Proof.
  intros H. unfold Tavily.tavily_search_tool, bind, Tavily.read.
  destruct H as [-> | ->]; reflexivity.
Qed.

Lemma tavily_search_tool_missing_key_witness :
  let E := Script.answer_world in
  fst (@Tavily.tavily_search_tool E (fun _ _ => None)
         (fun _ _ w => (Ok tt, w))
         (fun _ _ _ _ _ w => (Ok (PDict []), w))
         (PStr (str "sunglasses trends")) (PInt 5) false (Script.start E 0))
    = Raise (mk_exn (str "ValueError")
               (str "TAVILY_API_KEY not found in environment variables.")).
Proof.
  intros E.
  rewrite (@tavily_search_tool_missing_key E (fun _ _ => None)
             (fun _ _ w => (Ok tt, w))
             (fun _ _ _ _ _ w => (Ok (PDict []), w))
             (PStr (str "sunglasses trends")) (PInt 5) false
             (Script.start E 0) (or_introl eq_refl)).
  reflexivity.
Defined.

(** X28: once the key is there and the client is made,
    [tavily_search_tool] always returns a list, after one search.  When
    the search raises, or its response cannot be read (a response or a
    result that is not a dictionary, results that cannot be iterated), the
    list is the single dictionary [{"error": str(e)}]: the results read
    before the failure are dropped. *)
Theorem tavily_search_tool_failure_is_returned {E : Env}
    (getenv : pystr -> world -> option pystr)
    (TavilyClient : pystr -> option pystr -> world -> result unit * world)
    (client_search : pystr -> option pystr -> pyval -> pyval -> bool ->
                     world -> result pyval * world)
    (query max_results : pyval) (include_images : bool) (st : state)
    (key : pystr) (w1 : world) :
  let base := getenv (str "DLAI_TAVILY_BASE_URL") (st_world st) in
  getenv (str "TAVILY_API_KEY") (st_world st) = Some key -> key <> [] ->
  TavilyClient key base (st_world st) = (Ok tt, w1) ->
  exists l st',
    Tavily.tavily_search_tool getenv TavilyClient client_search
      query max_results include_images st = (Ok (PList l), st') /\
    st_log st' = st_log st ++ [EvTool (str "client.search")] /\
    (forall e,
       fst (client_search key base query max_results include_images w1) = Raise e \/
       (exists response,
          fst (client_search key base query max_results include_images w1)
            = Ok response /\
          Tavily.collect response include_images = Raise e) ->
       l = [PDict [(str "error", PStr (exn_str e))]]).
Proof.
  intros base Hkey Hne Hclient.
  rewrite (@tavily_search_tool_run E getenv TavilyClient client_search query
             max_results include_images st key w1 Hkey Hne Hclient).
  cbv zeta. fold base.
  destruct (client_search key base query max_results include_images w1)
    as [[response|e0] w2]; cbn [fst].
  - destruct (Tavily.collect response include_images) as [results|e0] eqn:Hc.
    + eexists _, _. split; [reflexivity |]. split; [reflexivity |].
      intros e [H | (resp & H & Hr)]; [discriminate |].
      inversion H; subst. rewrite Hc in Hr. discriminate.
    + eexists _, _. split; [reflexivity |]. split; [reflexivity |].
      intros e [H | (resp & H & Hr)]; [discriminate |].
      inversion H; subst. rewrite Hc in Hr. inversion Hr. reflexivity.
  - eexists _, _. split; [reflexivity |]. split; [reflexivity |].
    intros e [H | (resp & H & _)]; [| discriminate].
    inversion H. reflexivity.
Qed.

Lemma tavily_search_tool_failure_is_returned_witness :
  let E := Script.answer_world in
  fst (@Tavily.tavily_search_tool E (fun _ _ => Some (str "tvly-key"))
         (fun _ _ w => (Ok tt, w))
         (fun _ _ _ _ _ w =>
            (Ok (PDict [(str "results", PList [PDict []; PStr (str "oops")])]), w))
         (PStr (str "sunglasses trends")) (PInt 5) false (Script.start E 0))
    = Ok (PList [PDict [(str "error",
                         PStr (str "'str' object has no attribute 'get'"))]]).
Proof.
  intros E.
  destruct (@tavily_search_tool_failure_is_returned E
              (fun _ _ => Some (str "tvly-key"))
              (fun _ _ w => (Ok tt, w))
              (fun _ _ _ _ _ w =>
                 (Ok (PDict [(str "results", PList [PDict []; PStr (str "oops")])]), w))
              (PStr (str "sunglasses trends")) (PInt 5) false (Script.start E 0)
              (str "tvly-key") 0%nat eq_refl ltac:(discriminate) eq_refl)
    as (l & st' & Hrun & _ & Hl).
  rewrite Hrun. cbn [fst]. f_equal. f_equal.
  apply (Hl (Pipeline.AttributeError (PStr (str "oops")) (str "get"))).
  right. eexists. split; reflexivity.
Defined.

Lemma entries_dicts (ds : list pydict) :
  Tavily.entries (List.map PDict ds)
    = Ok (List.map
            (fun d =>
               let field := fun k => match dict_get d (str k) with
                                     | Some x => x
                                     | None => PStr []
                                     end in
               PDict [ (str "title", field "title"%string);
                       (str "content", field "content"%string);
                       (str "url", field "url"%string) ]) ds).
Proof.
  induction ds as [|d ds IH]; [reflexivity |].
  cbn [List.map Tavily.entries]. rewrite IH. reflexivity.
Qed.

(** X29: when the search answers with a dictionary whose ["results"] is
    a list of dictionaries, and images are not asked for,
    [tavily_search_tool] returns one dictionary per result, in the order
    of the results, each with exactly the keys ["title"], ["content"] and
    ["url"]; a key that the result lacks is given the empty string, and
    every other key of the result is dropped. *)
Theorem tavily_search_tool_results {E : Env}
    (getenv : pystr -> world -> option pystr)
    (TavilyClient : pystr -> option pystr -> world -> result unit * world)
    (client_search : pystr -> option pystr -> pyval -> pyval -> bool ->
                     world -> result pyval * world)
    (query max_results : pyval) (st : state)
    (key : pystr) (w1 w2 : world) (response : pydict) (ds : list pydict) :
  let base := getenv (str "DLAI_TAVILY_BASE_URL") (st_world st) in
  getenv (str "TAVILY_API_KEY") (st_world st) = Some key -> key <> [] ->
  TavilyClient key base (st_world st) = (Ok tt, w1) ->
  client_search key base query max_results false w1 = (Ok (PDict response), w2) ->
  dict_get response (str "results") = Some (PList (List.map PDict ds)) ->
  fst (Tavily.tavily_search_tool getenv TavilyClient client_search
         query max_results false st)
    = Ok (PList
            (List.map
               (fun d =>
                  let field := fun k => match dict_get d (str k) with
                                        | Some x => x
                                        | None => PStr []
                                        end in
                  PDict [ (str "title", field "title"%string);
                          (str "content", field "content"%string);
                          (str "url", field "url"%string) ]) ds)).
Proof.
  intros base Hkey Hne Hclient Hsearch Hres.
  rewrite (@tavily_search_tool_run E getenv TavilyClient client_search query
             max_results false st key w1 Hkey Hne Hclient).
  cbv zeta. fold base. rewrite Hsearch.
  unfold Tavily.collect, Tavily.get. rewrite Hres. cbn [Tavily.iterate].
  rewrite entries_dicts. reflexivity.
Qed.

Lemma tavily_search_tool_results_witness :
  let E := Script.answer_world in
  fst (@Tavily.tavily_search_tool E (fun _ _ => Some (str "tvly-key"))
         (fun _ _ w => (Ok tt, w))
         (fun _ _ _ _ _ w =>
            (Ok (PDict [(str "results",
                         PList [PDict [(str "url", PStr (str "https://a.example"));
                                       (str "score", PInt 1)]])]), w))
         (PStr (str "sunglasses trends")) (PInt 5) false (Script.start E 0))
    = Ok (PList [PDict [(str "title", PStr []);
                        (str "content", PStr []);
                        (str "url", PStr (str "https://a.example"))]]).
Proof.
  intros E.
  exact (@tavily_search_tool_results E (fun _ _ => Some (str "tvly-key"))
           (fun _ _ w => (Ok tt, w))
           (fun _ _ _ _ _ w =>
              (Ok (PDict [(str "results",
                           PList [PDict [(str "url", PStr (str "https://a.example"));
                                         (str "score", PInt 1)]])]), w))
           (PStr (str "sunglasses trends")) (PInt 5) (Script.start E 0)
           (str "tvly-key") 0%nat 0%nat
           [(str "results",
             PList [PDict [(str "url", PStr (str "https://a.example"));
                           (str "score", PInt 1)]])]
           [[(str "url", PStr (str "https://a.example")); (str "score", PInt 1)]]
           eq_refl ltac:(discriminate) eq_refl eq_refl eq_refl).
Defined.
(* ================================================================= *)
(** ** The preferred domains, against the words of the claim *)

Lemma span_url_exact (body post : pystr) :
  forallb Re.url_char body = true ->
  match post with [] => True | c :: _ => Re.url_char c = false end ->
  Re.span_url (body ++ post) = body.
Proof.
  intros Hall Hpost. induction body as [|c body IH].
  - destruct post as [|c post]; [reflexivity |]. simpl. rewrite Hpost.
    reflexivity.
  - simpl in Hall. apply andb_true_iff in Hall. destruct Hall as [Hc Hall].
    simpl. rewrite Hc, (IH Hall). reflexivity.
Qed.

(** A match that cannot be extended is the match that the pattern finds
    where it starts. *)
Lemma match_at_maximal (u post : pystr) :
  Spec.spec_url_match u ->
  match post with [] => True | c :: _ => Re.url_char c = false end ->
  Re.match_at (u ++ post) = Some u.
Proof.
  intros (sch & body & -> & (h & t1 & t2 & p & Hh & Ht1 & Ht2 & Hp & Hsch)
            & Hne & Hall) Hpost.
  pose proof (span_url_exact body post Hall Hpost) as Hspan.
  rewrite <- app_assoc. unfold Re.match_at.
  destruct Hsch as [-> | (c & Hc & ->)]; simpl;
    rewrite Hh, Ht1, Ht2, Hp; simpl.
  - unfold Re.match_body. rewrite Hspan.
    destruct body; [congruence | reflexivity].
  - rewrite Hc. unfold Re.match_body. rewrite Hspan.
    destruct body; [congruence | reflexivity].
Qed.

Lemma findall_at (pre u rest : pystr) :
  Spec.spec_url_match u ->
  match rest with [] => True | c :: _ => Re.url_char c = false end ->
  (forall p1 p2, pre = p1 ++ p2 -> p2 <> [] ->
                 ~ Props.starts_url (p2 ++ u ++ rest)) ->
  Re.findall (pre ++ u ++ rest) = u :: Re.findall rest.
Proof.
  intros Hu Hrest. induction pre as [|c pre IH]; intros Hgap.
  - change ([] ++ u ++ rest) with (u ++ rest).
    apply findall_match; [apply match_at_maximal; assumption | exact Hu].
  - change ((c :: pre) ++ u ++ rest) with (c :: (pre ++ u ++ rest)).
    destruct (Re.match_at (c :: pre ++ u ++ rest)) as [u0|] eqn:Hm.
    + exfalso. apply (Hgap [] (c :: pre)); [reflexivity | discriminate |].
      destruct (match_at_sound _ Hm) as (Hu0 & post & Heq).
      exists u0, post. split; [exact Heq | exact Hu0].
    + rewrite findall_no_match by exact Hm. apply IH.
      intros p1 p2 Heq Hne. apply (Hgap (c :: p1) p2); [| exact Hne].
      rewrite Heq. reflexivity.
Qed.

(** The layout determines the list: it is the one that the scan returns. *)
Lemma laid_out_unique (urls : list pystr) : forall raw,
  Props.laid_out urls raw -> urls = Re.findall raw.
Proof.
  induction urls as [|u urls IH]; intros raw H.
  - simpl in H. destruct (Re.findall raw) as [|u l] eqn:Hf; [reflexivity |].
    exfalso. apply H. apply findall_has_url. rewrite Hf. discriminate.
  - destruct H as (pre & rest & -> & Hu & Hrest & Hgap & Hl).
    rewrite (@findall_at pre u rest Hu Hrest Hgap). f_equal. apply IH. exact Hl.
Qed.

Lemma laid_out_matches (urls : list pystr) : forall raw,
  Props.laid_out urls raw -> Forall Spec.spec_url_match urls.
Proof.
  induction urls as [|u urls IH]; intros raw H; [constructor |].
  destruct H as (pre & rest & _ & Hu & _ & _ & Hl).
  constructor; [exact Hu | exact (IH _ Hl)].
Qed.

Lemma no_slash_not_in (s : pystr) : Props.no_slash s <-> ~ In 47%N s.
Proof.
  unfold Props.no_slash. induction s as [|c s IH]; simpl.
  - split; [intros _ [] | reflexivity].
  - rewrite andb_true_iff, IH, negb_true_iff, N.eqb_neq. tauto.
Qed.

Lemma host_split (body : pystr) :
  exists host rest,
    body = host ++ rest /\ ~ In 47%N host /\
    (rest = [] \/ exists r, rest = 47%N :: r).
Proof.
  induction body as [|c body (host & rest & -> & Hh & Hr)].
  - exists [], []. split; [reflexivity |]. split; [intros [] | left; reflexivity].
  - destruct (N.eq_dec c 47) as [-> | Hc].
    + exists [], (47%N :: host ++ rest). split; [reflexivity |].
      split; [intros [] | right; eexists; reflexivity].
    + exists (c :: host), rest. split; [reflexivity |]. split; [| exact Hr].
      intros [Heq | Hin]; [congruence | exact (Hh Hin)].
Qed.

(** On a URL, the test of the code is the preference of the claim. *)
Lemma is_preferred_iff (TOP_DOMAINS : list pystr) (u : pystr) :
  Spec.spec_url_match u ->
  ComponentEval.is_preferred TOP_DOMAINS u = true <->
  SpecEval.preferred TOP_DOMAINS u.
Proof.
  intros (sch & body & -> & Hsch & _).
  unfold ComponentEval.is_preferred. rewrite existsb_exists. split.
  - intros (td & Hin & Hc).
    destruct (host_split body) as (host & rest & -> & Hh & Hr).
    rewrite (@url_domain_host sch host rest Hsch
               (proj2 (no_slash_not_in host) Hh) Hr) in Hc.
    apply str_contains_iff in Hc.
    exists host, td. split; [| split; [exact Hin | exact Hc]].
    exists sch, rest. auto.
  - intros (host & td & (sch' & rest & Heq & Hsch' & Hh & Hr) & Hin & Hc).
    exists td. split; [exact Hin |]. rewrite Heq.
    rewrite (@url_domain_host sch' host rest Hsch'
               (proj2 (no_slash_not_in host) Hh) Hr).
    apply str_contains_iff. exact Hc.
Qed.

Lemma counted_filter (TOP_DOMAINS urls : list pystr) :
  Forall Spec.spec_url_match urls ->
  SpecEval.counted (SpecEval.preferred TOP_DOMAINS) urls
    (length (filter (ComponentEval.is_preferred TOP_DOMAINS) urls)).
Proof.
  induction 1 as [|u urls Hu _ IH]; simpl; [constructor |].
  destruct (ComponentEval.is_preferred TOP_DOMAINS u) eqn:Hp.
  - simpl. constructor; [| exact IH]. apply is_preferred_iff; assumption.
  - apply SpecEval.counted_no; [| exact IH]. intros Hpref.
    apply (@is_preferred_iff TOP_DOMAINS u Hu) in Hpref. congruence.
Qed.

Lemma counted_functional {A} (P : A -> Prop) (l : list A) : forall n m,
  SpecEval.counted P l n -> SpecEval.counted P l m -> n = m.
Proof.
  induction l as [|x l IH]; intros n m Hn Hm.
  - inversion Hn; inversion Hm; reflexivity.
  - inversion Hn; subst; inversion Hm; subst;
      try contradiction; try (f_equal; eauto); eauto.
Qed.

(** C9: [evaluate_tavily_results] never raises.  When [raw] has no
    substring that matches the URL pattern the flag is [False].  When it
    has one, take the URLs extracted from [raw] (the matches of the
    pattern from left to right, each as long as it can be, none skipped)
    and the number [n] of them whose domain part -- the text between the
    [//] and the next [/] -- contains a preferred domain: the flag is
    [True] exactly when the fraction [n / total], as a [float], is at
    least [min_ratio].  The list and the number are determined by
    [raw]. *)
Theorem evaluate_tavily_results_spec (format_percent : nat -> float -> pystr)
    (TOP_DOMAINS : list pystr) (raw : pystr) (min_ratio : float) :
  exists flag report,
    ComponentEval.evaluate_tavily_results format_percent TOP_DOMAINS raw
        min_ratio = Ok (flag, report) /\
    (~ Spec.has_url raw -> flag = false) /\
    (Spec.has_url raw ->
       exists urls n,
         Props.laid_out urls raw /\ urls <> [] /\
         SpecEval.counted (SpecEval.preferred TOP_DOMAINS) urls n /\
         (flag = true <->
          PrimFloat.leb min_ratio (SpecEval.fraction n (length urls)) = true) /\
         (forall urls' n',
            Props.laid_out urls' raw ->
            SpecEval.counted (SpecEval.preferred TOP_DOMAINS) urls' n' ->
            urls' = urls /\ n' = n)).
Proof.
  unfold ComponentEval.evaluate_tavily_results.
  pose proof (findall_has_url raw) as Hurl.
  pose proof (findall_laid_out raw) as Hlaid.
  destruct (Re.findall raw) as [|u urls] eqn:Hf.
  - exists false, ComponentEval.no_urls_report.
    split; [reflexivity |]. split; [reflexivity |].
    intros H. apply Hurl in H. congruence.
  - rewrite count_urls.
    change (0 <? length (u :: urls))%nat with true.
    cbn [ComponentEval.truediv length].
    eexists _, _. split; [reflexivity |]. split.
    + intros H. exfalso. apply H, Hurl. discriminate.
    + intros _.
      pose proof (@counted_filter TOP_DOMAINS _ (@laid_out_matches _ _ Hlaid))
        as Hcount.
      eexists (u :: urls), _. split; [exact Hlaid |].
      split; [discriminate |]. split; [exact Hcount |]. split.
      * reflexivity.
      * intros urls' n' Hl' Hc'. apply laid_out_unique in Hl'.
        rewrite Hf in Hl'. subst urls'. split; [reflexivity |].
        exact (counted_functional Hc' Hcount).
Qed.
(* ================================================================= *)
(** ** What comes back when the limit is reached *)

Lemma first_request_first_tool_use (bs : list block) :
  Tools.first_tool_use bs
    = match Trace.first_request bs with
      | Some (id, name, input) => Some (ToolUseBlock id name input)
      | None => None
      end.
Proof.
  unfold Tools.first_tool_use.
  induction bs as [|[t | id name input |] bs IH]; simpl; auto.
Qed.

Lemma built_app (passes : list Trace.pass) (p : Trace.pass) : forall conv,
  Trace.built conv (passes ++ [p])
    = Trace.built conv passes ++ Trace.pass_turns p.
Proof.
  induction passes as [|q passes IH]; intros conv; simpl; [reflexivity |].
  apply IH.
Qed.

Lemma requests_app (model : pystr) (tools : list pyval)
    (passes : list Trace.pass) (p : Trace.pass) : forall conv,
  Trace.requests model tools conv (passes ++ [p])
    = Trace.requests model tools conv passes
        ++ [mk_request model 4096 None tools (Trace.built conv passes)].
Proof.
  induction passes as [|q passes IH]; intros conv; simpl; [reflexivity |].
  rewrite IH. reflexivity.
Qed.

Lemma requests_length (model : pystr) (tools : list pyval)
    (passes : list Trace.pass) : forall conv,
  length (Trace.requests model tools conv passes) = length passes.
Proof.
  induction passes as [|q passes IH]; intros conv; simpl; [reflexivity |].
  rewrite IH. reflexivity.
Qed.

Lemma model_requests_app (evs1 evs2 : list event) :
  Trace.model_requests (evs1 ++ evs2)
    = Trace.model_requests evs1 ++ Trace.model_requests evs2.
Proof.
  induction evs1 as [|[req | n] evs1 IH]; simpl; [reflexivity | |];
    rewrite IH; reflexivity.
Qed.

Lemma model_requests_tools (names : list pystr) :
  Trace.model_requests (List.map EvTool names) = [].
Proof. induction names as [|n names IH]; [reflexivity | exact IH]. Qed.

Lemma model_calls_requests (log : list event) :
  model_calls log = length (Trace.model_requests log).
Proof.
  unfold model_calls.
  induction log as [|[req | n] log IH]; simpl; [reflexivity | |]; rewrite IH;
    reflexivity.
Qed.

Section ToolsTrace.
Context {E : Env}.
Variable tools_list : list pyval.
Variable model : pystr.
Hypothesis insists : Spec.always_tool_use_and Spec.first_tool_returns.

(** One pass of the loop under a model that asks for tools. *)
Lemma tools_loop_body_pass (s : Tools.loop_state) (st : state) :
  let req := mk_request model 4096 None tools_list (Tools.messages s) in
  exists p s' st' names,
    Tools.loop_body tools_list model s st = (Ok (inl s'), st') /\
    Tools.iteration s' = (Tools.iteration s + 1)%Z /\
    Tools.messages s' = Tools.messages s ++ Trace.pass_turns p /\
    st_log st' = st_log st ++ EvModel req :: List.map EvTool names /\
    Trace.happened req p.
Proof.
  intros req. unfold Tools.loop_body. fold req.
  destruct (insists req (st_world st)) as (r & w' & Hc & Hs & Ht).
  erewrite bind_ok by (apply create_run; exact Hc).
  rewrite Hs, str_eqb_refl.
  unfold Spec.first_tool_returns in Ht.
  rewrite first_request_first_tool_use in Ht |- *.
  destruct (Trace.first_request (resp_content r)) as [[[id name] input]|]
    eqn:Hfr.
  - set (st1 := mk_state w' (st_log st ++ [EvModel req])).
    destruct (Ht st1) as (v & st2 & Hex & _).
    destruct (@ote_execute_tool E name input st1 (Ok v) st2 Hex)
      as [names Hnames].
    erewrite bind_ok by exact Hex.
    exists (Trace.mk_pass r v). eexists _, _, names.
    split; [reflexivity |]. split; [reflexivity |].
    unfold Trace.pass_turns, Trace.happened. cbn [Trace.answer Trace.output].
    rewrite Hfr. split; [| split; [| split; [| split]]].
    + cbn [Tools.messages]. rewrite <- app_assoc. reflexivity.
    + rewrite Hnames. unfold st1. cbn [st_log]. rewrite <- app_assoc.
      reflexivity.
    + eauto.
    + exact Hs.
    + eauto.
  - exists (Trace.mk_pass r []). eexists _, _, [].
    split; [reflexivity |]. split; [reflexivity |].
    unfold Trace.pass_turns, Trace.happened. cbn [Trace.answer Trace.output].
    rewrite Hfr. split; [| split; [| split; [| split]]].
    + cbn [Tools.messages]. rewrite app_nil_r. reflexivity.
    + reflexivity.
    + eauto.
    + exact Hs.
    + exact I.
Qed.

(** The run to the limit, with the passes that built the conversation. *)
Lemma call_claude_exhausts_trace (prompt : pystr) (k : Z) (st : state) :
  (0 <= k)%Z ->
  let seed := [user_message (CStr prompt)] in
  exists passes evs st',
    Tools.call_claude_with_tools prompt tools_list model k st
      = (Ok (Some (str "Max iterations reached", Trace.built seed passes)),
         st') /\
    length passes = Z.to_nat k /\
    st_log st' = st_log st ++ evs /\
    Trace.model_requests evs = Trace.requests model tools_list seed passes /\
    Forall2 Trace.happened (Trace.requests model tools_list seed passes)
      passes.
Proof.
  intros Hk seed. unfold Tools.call_claude_with_tools.
  set (Inv := fun (n : nat) (s : Tools.loop_state) (st1 : state) =>
    exists passes evs,
      Tools.iteration s = (k - Z.of_nat n)%Z /\
      length passes + n = Z.to_nat k /\
      Tools.messages s = Trace.built seed passes /\
      st_log st1 = st_log st ++ evs /\
      Trace.model_requests evs = Trace.requests model tools_list seed passes /\
      Forall2 Trace.happened (Trace.requests model tools_list seed passes)
        passes).
  assert (Hrun := @while_loop_runs E _ (pystr * list message)
    (fun s => (Tools.iteration s <? k)%Z) (Tools.loop_body tools_list model) Inv).
  destruct (Hrun) with (n := Z.to_nat k) (extra := 0)
      (s := Tools.mk_loop 0 seed) (st := st)
    as (s' & st' & Hw & passes & evs & Hi & Hn & Hm & Hlog & Hreq & Hhap).
  - intros s st1 (passes & evs & Hi & _). rewrite Hi. apply Z.ltb_ge. lia.
  - intros n s st1 (passes & evs & Hi & Hn & Hm & Hlog & Hreq & Hhap). split.
    + rewrite Hi. apply Z.ltb_lt. lia.
    + destruct (tools_loop_body_pass s st1)
        as (p & s1 & st2 & names & Hb & Hi1 & Hm1 & Hlog1 & Hp).
      exists s1, st2. split; [exact Hb |].
      exists (passes ++ [p]),
             (evs ++ EvModel (mk_request model 4096 None tools_list
                                (Tools.messages s)) :: List.map EvTool names).
      split; [lia |]. split; [rewrite length_app; simpl; lia |].
      split; [rewrite built_app, <- Hm; exact Hm1 |].
      split; [rewrite Hlog1, Hlog, <- app_assoc; reflexivity |].
      rewrite requests_app, model_requests_app. cbn [Trace.model_requests].
      rewrite model_requests_tools, Hreq, <- Hm. split; [reflexivity |].
      apply Forall2_app; [exact Hhap |]. constructor; [exact Hp | constructor].
  - exists [], []. cbn [Tools.iteration Tools.messages].
    split; [lia |]. split; [simpl; lia |]. split; [reflexivity |].
    split; [rewrite app_nil_r; reflexivity |]. split; [reflexivity | constructor].
  - rewrite Nat.add_0_r in Hw. erewrite bind_ok by exact Hw.
    exists passes, evs, st'. rewrite Hm.
    split; [reflexivity |]. split; [lia |]. auto.
Qed.

End ToolsTrace.

Section ResearchTrace.
Context {E : Env}.
Variable model : pystr.
Hypothesis insists : Spec.always_tool_use.

(** One pass of the loop of [find_references] under a model that asks
    for tools. *)
Lemma research_loop_body_pass (s : ComponentEval.loop_state) (st : state) :
  exists s' st' rs,
    ComponentEval.loop_body model s st = (Ok (inl s'), st') /\
    ComponentEval.iteration s' = (ComponentEval.iteration s + 1)%Z /\
    model_calls (st_log st') = S (model_calls (st_log st)) /\
    stop_reason (ComponentEval.response s') = str "tool_use" /\
    Trace.last_call
      (ComponentEval.research_request model (ComponentEval.messages s'))
      (ComponentEval.response s') st' /\
    ComponentEval.messages s'
      = (ComponentEval.messages s
           ++ [assistant_message (resp_content (ComponentEval.response s))])
          ++ [user_message (CResults rs)] /\
    List.map result_id rs
      = List.map Some (request_ids (resp_content (ComponentEval.response s))).
Proof.
  unfold ComponentEval.loop_body.
  destruct (research_run_tools_returns
              (resp_content (ComponentEval.response s)) st)
    as (rs & st1 & Hr & Hn1 & Hids).
  erewrite bind_ok by exact Hr.
  match goal with
  | |- context [create ?req] =>
      destruct (insists req (st_world st1)) as (r & w' & Hc & Hs);
      erewrite bind_ok by (apply create_run; exact Hc)
  end.
  eexists _, _, rs. split; [reflexivity |]. simpl.
  rewrite model_calls_model, Hn1.
  split; [reflexivity |]. split; [reflexivity |]. split; [exact Hs |].
  split; [| split; [reflexivity | exact Hids]].
  eexists _, _. split; [reflexivity | exact Hc].
Qed.

(** The run to the limit, with the conversation that the last request
    carried. *)
Lemma find_references_exhausts_conversation (task : pystr)
    (return_messages : bool) (st : state) :
  let prompt := ComponentEval.research_prompt task
                  (fst (now_strftime (str "%Y-%m-%d") (st_world st))) in
  exists r msgs st',
    ComponentEval.find_references task model return_messages st
      = (Ok (Some (if return_messages
                   then RetPair (collect_text (resp_content r)) msgs
                   else RetText (collect_text (resp_content r)))), st') /\
    model_calls (st_log st') = model_calls (st_log st) + 6 /\
    Trace.last_call (ComponentEval.research_request model msgs) r st' /\
    Shape.seeded prompt msgs /\
    length msgs = 11.
Proof.
  unfold ComponentEval.find_references.
  destruct (now_strftime (str "%Y-%m-%d") (st_world st)) as [today w0] eqn:Hnow.
  cbn [fst].
  erewrite bind_ok
    by (unfold outside; rewrite Hnow; reflexivity).
  set (st0 := mk_state w0 (st_log st)).
  set (seed := [user_message (CStr (ComponentEval.research_prompt task today))]).
  destruct (insists (ComponentEval.research_request model seed) (st_world st0))
    as (r0 & w1 & Hc & Hs).
  set (st1 := mk_state w1 (st_log st0 ++
                 [EvModel (ComponentEval.research_request model seed)])).
  set (Inv := fun (n : nat) (s : ComponentEval.loop_state) (st2 : state) =>
    ComponentEval.iteration s = (5 - Z.of_nat n)%Z /\
    model_calls (st_log st2) + n = model_calls (st_log st) + 6 /\
    stop_reason (ComponentEval.response s) = str "tool_use" /\
    Trace.last_call
      (ComponentEval.research_request model (ComponentEval.messages s))
      (ComponentEval.response s) st2 /\
    Shape.seeded (ComponentEval.research_prompt task today)
      (ComponentEval.messages s) /\
    length (ComponentEval.messages s) + 2 * n = 11).
  assert (Hrun := @while_loop_runs E _ Empty_set
    (fun s => str_eqb (stop_reason (ComponentEval.response s)) (str "tool_use")
              && (ComponentEval.iteration s <? ComponentEval.max_iterations)%Z)
    (ComponentEval.loop_body model) Inv).
  destruct (Hrun) with (n := 5) (extra := 0)
      (s := ComponentEval.mk_loop r0 0 seed) (st := st1)
    as (s' & st' & Hw & Hi & Hn & Hs' & Hl & Hseed & Hlen).
  - intros s st2 (Hi & _). rewrite Hi. apply andb_false_iff. right.
    apply Z.ltb_ge. unfold ComponentEval.max_iterations. lia.
  - intros n s st2 (Hi & Hn & Hs2 & _ & Hseed & Hlen). split.
    + rewrite Hs2, str_eqb_refl. simpl. apply Z.ltb_lt.
      unfold ComponentEval.max_iterations. lia.
    + destruct (research_loop_body_pass s st2)
        as (s1 & st3 & rs & Hb & Hi1 & Hn1 & Hs1 & Hl1 & Hm1 & Hids).
      exists s1, st3. split; [exact Hb |]. unfold Inv.
      split; [lia |]. split; [lia |]. split; [exact Hs1 |].
      split; [exact Hl1 |]. rewrite Hm1. split.
      * apply seeded_grow; assumption.
      * rewrite !length_app. simpl. lia.
  - unfold Inv; simpl. rewrite model_calls_model.
    split; [lia |]. split; [lia |]. split; [exact Hs |].
    split; [| split; [| reflexivity]].
    + eexists _, _. split; [reflexivity | exact Hc].
    + exists []. split; [reflexivity | exact I].
  - exists (ComponentEval.response s'), (ComponentEval.messages s'), st'.
    split; [| split; [lia | split; [exact Hl | split; [exact Hseed | lia]]]].
    apply try_except_ok.
    erewrite bind_ok by (apply create_run; exact Hc).
    change (Z.to_nat ComponentEval.max_iterations) with (5 + 0).
    erewrite bind_ok by exact Hw. reflexivity.
Qed.

End ResearchTrace.


